(** * Payment routing with TOPSIS ranking: a shallow embedding of
      [1TEAM_XMAS_HACK.py] and the properties of its routing loop.

    Numbers.  The script computes on float64 columns.  The embedding idealises
    them as real numbers ([R]); the one float effect the code depends on, the
    not-a-number produced by [0/0], is kept explicit in [npfloat].  What is
    stated about the daily maximum uses the expressions of the script
    ([LIMIT_MAX - daily_sum], [daily_sum + amount]) rather than rearranged
    ones, and where the rounding of a sum decides the outcome the lines are
    embedded on binary64 as well ([attempt64]).  Timestamps are integers
    (nanoseconds), identifiers and currency codes are strings, so
    [str(provider_id)] is the identity.

    Effects.  The routing loop mutates the dictionary [provider_daily_sums] and
    consumes samples of numpy's global generator; both are threaded through an
    explicit [State].  Exceptions raised by numpy are results [Raise e]. *)

From Stdlib Require Import PrimFloat.
From Stdlib Require Import Reals Lra Lia ZArith List String Bool Permutation.
From Stdlib Require Import Sorted OrderedTypeEx.
Import ListNotations.

Open Scope R_scope.

(** ** Comparisons of reals as booleans *)

Definition Rltb (x y : R) : bool := if Rlt_dec x y then true else false.
Definition Rleb (x y : R) : bool := if Rle_dec x y then true else false.
Definition Rgtb (x y : R) : bool := Rltb y x.
Definition Rgeb (x y : R) : bool := Rleb y x.
Definition Reqb (x y : R) : bool := if Req_dec_T x y then true else false.

(** ** float64 values: a real number or NaN *)

Inductive npfloat : Type :=
| Fin (x : R)
| NaN.

Definition flift2 (f : R -> R -> R) (a b : npfloat) : npfloat :=
  match a, b with
  | Fin x, Fin y => Fin (f x y)
  | _, _ => NaN
  end.

Definition fadd := flift2 Rplus.
Definition fsub := flift2 Rminus.
Definition fmul := flift2 Rmult.
Definition fmax := flift2 Rmax.
Definition fmin := flift2 Rmin.

Definition fsqr (a : npfloat) : npfloat := fmul a a.

Definition fsqrt (a : npfloat) : npfloat :=
  match a with
  | Fin x => Fin (sqrt x)
  | NaN => NaN
  end.

(** Division as both call sites use it: the divisor is a Euclidean norm or a
    sum of two distances, so it is zero only when the dividend is zero too
    (lemmas [norm_zero_entry] and [distances_zero]), and [0/0] is NaN. *)
Definition fdiv (a b : npfloat) : npfloat :=
  match a, b with
  | Fin x, Fin y => if Reqb y 0 then NaN else Fin (x / y)
  | _, _ => NaN
  end.

Definition fsum (l : list npfloat) : npfloat := fold_left fadd l (Fin 0).

Definition Rsum (l : list R) : R := fold_left Rplus l 0.

(** ** Exceptions *)

Inductive exn : Type :=
| ValueError
| KeyError
| IndexError.

Inductive result (A : Type) : Type :=
| Ok (a : A)
| Raise (e : exn).

Arguments Ok {A} a.
Arguments Raise {A} e.

Definition bind {A B : Type} (m : result A) (k : A -> result B) : result B :=
  match m with
  | Ok a => k a
  | Raise e => Raise e
  end.

Notation "'do' x <- m ; k" := (bind m (fun x => k))
  (at level 10, x pattern, m at level 100, k at level 200).

(** ** Tables *)

(** A row of the provider table. *)
Record Provider : Type := mkProvider {
  ID : string;
  CURRENCY : string;
  TIME : Z;
  MIN_SUM : R;
  MAX_SUM : R;
  LIMIT_MIN : R;
  LIMIT_MAX : R;
  COMMISSION : R;
  CONVERSION : R;
  AVG_TIME : R
}.

(** A row of the payment table. *)
Record Payment : Type := mkPayment {
  amount : R;
  cur : string;
  eventTimeRes : Z
}.

(** The exchange-rate table, read as the map it stands for: the multiplier of
    the row whose [destination] is the given currency.  (The left merges of
    lines 101-102 attach this value as column [rate]; a currency that the table
    lacks or lists twice is outside the model.) *)
Definition Rates : Type := string -> R.

(** A row of the payment table after [optimize_routes] filled its columns.
    [Successful_provider] is [None] while the cell holds the initial [0]. *)
Record Row : Type := mkRow {
  payment : Payment;
  flow : string;
  Profit : R;
  Processing_Time : R;
  Successful_provider : option string
}.

(** ** The dictionary [provider_daily_sums]

    A Python dict keeps its keys in insertion order; the penalty loop iterates
    in that order, so the embedding is an association list with unique keys. *)

Definition dict : Type := list (string * R).

Fixpoint dict_get (d : dict) (k : string) : option R :=
  match d with
  | [] => None
  | (k', v) :: d' => if String.eqb k' k then Some v else dict_get d' k
  end.

(** [d[k] = v]: overwrite in place, or append a new key. *)
Fixpoint dict_set (d : dict) (k : string) (v : R) : dict :=
  match d with
  | [] => [(k, v)]
  | (k', v') :: d' =>
      if String.eqb k' k then (k', v) :: d' else (k', v') :: dict_set d' k v
  end.

(** [{provider_id: 0 for provider_id in providers['ID']}] *)
Definition dict_init (ids : list string) : dict :=
  fold_left (fun d k => dict_set d k 0) ids [].

Definition keys (d : dict) : list string := map fst d.

(** ** Stage 1: TOPSIS ranking (lines 21-79) *)

Definition map2 {A B C : Type} (f : A -> B -> C) (u : list A) (v : list B) : list C :=
  map (fun ab => f (fst ab) (snd ab)) (combine u v).

(** [providers[criterions].to_numpy()]: one row per provider, one column per
    criterion. *)
Definition to_numpy (providers : list Provider) (criterions : list (Provider -> R))
  : list (list R) :=
  map (fun p => map (fun c => c p) criterions) providers.

(** [.sum(axis=0)] of a matrix with [ncols] columns. *)
Definition sum_axis0 (ncols : nat) (matrix : list (list R)) : list R :=
  fold_left (map2 Rplus) matrix (repeat 0 ncols).

Definition normalize_matrix (providers : list Provider)
    (criterions : list (Provider -> R)) (weights : list R) : list (list npfloat) :=
  let matrix := to_numpy providers criterions in
  let norms := map sqrt (sum_axis0 (List.length criterions) (map (map Rsqr) matrix)) in
  let norm_matrix := map (fun row => map2 fdiv (map Fin row) (map Fin norms)) matrix in
  map (fun row => map2 fmul row (map Fin weights)) norm_matrix.

(** [matrix[:, i]] *)
Fixpoint column (i : nat) (matrix : list (list npfloat)) : result (list npfloat) :=
  match matrix with
  | [] => Ok []
  | row :: rest =>
      match nth_error row i with
      | Some x => do col <- column i rest; Ok (x :: col)
      | None => Raise IndexError
      end
  end.

(** [.max()] and [.min()] of a numpy vector: they raise on an empty vector and
    propagate NaN. *)
Definition amax (v : list npfloat) : result npfloat :=
  match v with
  | [] => Raise ValueError
  | x :: rest => Ok (fold_left fmax rest x)
  end.

Definition amin (v : list npfloat) : result npfloat :=
  match v with
  | [] => Raise ValueError
  | x :: rest => Ok (fold_left fmin rest x)
  end.

(** The loop of [calculate_solutions], from criterion number [i] on. *)
Fixpoint calculate_solutions_from (i : nat) (matrix : list (list npfloat))
    (criterion_types : list string) : result (list npfloat * list npfloat) :=
  match criterion_types with
  | [] => Ok ([], [])
  | mark :: rest =>
      if String.eqb mark "max" then
        do col <- column i matrix;
        do hi <- amax col;
        do lo <- amin col;
        do gb <- calculate_solutions_from (S i) matrix rest;
        Ok (hi :: fst gb, lo :: snd gb)
      else if String.eqb mark "min" then
        do col <- column i matrix;
        do lo <- amin col;
        do hi <- amax col;
        do gb <- calculate_solutions_from (S i) matrix rest;
        Ok (lo :: fst gb, hi :: snd gb)
      else calculate_solutions_from (S i) matrix rest
  end.

Definition calculate_solutions := calculate_solutions_from 0.

(** Euclidean distance of a row to a vector: [np.sqrt(((row - v)**2).sum())]. *)
Definition distance (row v : list npfloat) : npfloat :=
  fsqrt (fsum (map fsqr (map2 fsub row v))).

Definition closeness (row good bad : list npfloat) : npfloat :=
  let dist_to_good := distance row good in
  let dist_to_bad := distance row bad in
  fdiv dist_to_bad (fadd dist_to_good dist_to_bad).

Definition calculate_distances (matrix : list (list npfloat))
    (good bad : list npfloat) : list npfloat :=
  map (fun row => closeness row good bad) matrix.

(** A provider row with its column [topsis_score]. *)
Definition Scored : Type := (Provider * npfloat)%type.

Definition topsis_score (s : Scored) : npfloat := snd s.

(** [sort_values(by='topsis_score', ascending=False)]: larger scores first and
    NaN scores last.  Rows with equal scores keep their relative order, as
    pandas leaves them on tables of up to sixteen rows, which numpy sorts by
    insertion; the script names no tie-break. *)
Definition precedes (a b : npfloat) : bool :=
  match a, b with
  | Fin x, Fin y => Rgtb x y
  | Fin _, NaN => true
  | NaN, _ => false
  end.

Fixpoint insert_desc (s : Scored) (l : list Scored) : list Scored :=
  match l with
  | [] => [s]
  | t :: l' =>
      if precedes (topsis_score t) (topsis_score s)
      then t :: insert_desc s l'
      else s :: t :: l'
  end.

Definition sort_values (l : list Scored) : list Scored :=
  fold_right insert_desc [] l.

Definition rank_providers (providers : list Provider) (coef : list npfloat)
  : list Scored :=
  sort_values (combine providers coef).

Definition topsis (providers : list Provider) (criterions : list (Provider -> R))
    (weights : list R) (criterion_types : list string) : result (list Scored) :=
  let provider_matrix := normalize_matrix providers criterions weights in
  do gb <- calculate_solutions provider_matrix criterion_types;
  let score := calculate_distances provider_matrix (fst gb) (snd gb) in
  Ok (rank_providers providers score).

(** ** Stage 2: routing (lines 87-185) *)

(** [groupby(['ID'])[column].transform('first')]: the value of the first row
    that carries this row's identifier. *)
Definition transform_first (f : Provider -> R) (providers : list Provider)
    (p : Provider) : R :=
  match find (fun q => String.eqb (ID q) (ID p)) providers with
  | Some q => f q
  | None => f p
  end.

(** Lines 98-107: the daily limits of the first row of each identifier, and the
    four money columns converted with the row's rate. *)
Definition convert (providers : list Provider) (currency_rates : Rates)
  : list Provider :=
  map (fun p =>
         let rate := currency_rates (CURRENCY p) in
         {| ID := ID p;
            CURRENCY := CURRENCY p;
            TIME := TIME p;
            MIN_SUM := MIN_SUM p * rate;
            MAX_SUM := MAX_SUM p * rate;
            LIMIT_MIN := transform_first LIMIT_MIN providers p * rate;
            LIMIT_MAX := transform_first LIMIT_MAX providers p * rate;
            COMMISSION := COMMISSION p;
            CONVERSION := CONVERSION p;
            AVG_TIME := AVG_TIME p |})
      providers.

(** *** Eligible provider rows (lines 126-127) *)

(** Group keys of [groupby('ID')]: the distinct identifiers, ascending. *)
Fixpoint insert_key (k : string) (l : list string) : list string :=
  match l with
  | [] => [k]
  | h :: t =>
      match String.compare k h with
      | Lt => k :: h :: t
      | Eq => h :: t
      | Gt => h :: insert_key k t
      end
  end.

Definition group_keys (l : list Provider) : list string :=
  fold_right insert_key [] (map ID l).

(** [idxmax] of column [TIME] within one group: the first row that attains the
    largest timestamp. *)
Fixpoint idxmax_from (best : Provider) (group : list Provider) : Provider :=
  match group with
  | [] => best
  | p :: rest =>
      if (TIME best <? TIME p)%Z then idxmax_from p rest else idxmax_from best rest
  end.

Definition idxmax (group : list Provider) : option Provider :=
  match group with
  | [] => None
  | p :: rest => Some (idxmax_from p rest)
  end.

(** [df.loc[df.groupby('ID')['TIME'].idxmax()]] *)
Definition latest_per_id (df : list Provider) : list Provider :=
  flat_map
    (fun k =>
       match idxmax (filter (fun p => String.eqb (ID p) k) df) with
       | Some p => [p]
       | None => []
       end)
    (group_keys df).

Definition filtered_providers (providers : list Provider) (payment_time : Z)
    (currency : string) : list Provider :=
  latest_per_id
    (filter (fun p => (TIME p <=? payment_time)%Z && String.eqb (CURRENCY p) currency)
            providers).

Definition criterions : list (Provider -> R) := [CONVERSION; COMMISSION; AVG_TIME].
Definition weights : list R := [0.2; 0.6; 0.2].
Definition marks : list string := ["max"; "min"; "min"]%string.

(** Lines 126-132: the ranked rows the routing loop iterates over. *)
Definition sorted_providers (providers : list Provider) (payment_time : Z)
    (currency : string) : result (list Provider) :=
  do ranked_providers <-
     topsis (filtered_providers providers payment_time currency)
            criterions weights marks;
  Ok (map fst
        (sort_values
           (filter (fun s => (TIME (fst s) <=? payment_time)%Z) ranked_providers))).

(** *** Shared state and the random source *)

(** One sample of the generator: uniform on the half-open unit interval. *)
Record Sample : Type := mkSample {
  sample : R;
  sample_range : 0 <= sample < 1
}.

(** What every payment reads and writes: the daily sums, and how many samples
    of the generator have been consumed. *)
Record State : Type := mkState {
  provider_daily_sums : dict;
  draws : nat
}.

Definition lookup (d : dict) (k : string) : result R :=
  match dict_get d k with
  | Some v => Ok v
  | None => Raise KeyError
  end.

(** [np.random.choice([True, False], p=[p, 1 - p])]: numpy rejects a negative
    probability, then picks [True] when the next uniform sample is below [p]. *)
Definition random_choice (rng : nat -> Sample) (p : R) (st : State)
  : result (bool * State) :=
  if Rltb p 0 || Rltb (1 - p) 0 then Raise ValueError
  else Ok (Rltb (sample (rng (draws st))) p,
           {| provider_daily_sums := provider_daily_sums st;
              draws := S (draws st) |}).

(** The variables of one payment's loop. *)
Record Trail : Type := mkTrail {
  route : list string;
  total_commission : R;
  total_processing_time : R;
  is_first : bool;
  successful : option string
}.

Definition start : Trail :=
  {| route := [];
     total_commission := 0;
     total_processing_time := 0;
     is_first := true;
     successful := None |}.

(** [if is_first: total_processing_time += provider['AVG_TIME']] *)
Definition add_time (tr : Trail) (provider : Provider) : Trail :=
  {| route := route tr;
     total_commission := total_commission tr;
     total_processing_time :=
       if is_first tr then total_processing_time tr + AVG_TIME provider
       else total_processing_time tr;
     is_first := is_first tr;
     successful := successful tr |}.

(** [route.append(str(provider_id))] *)
Definition append_route (tr : Trail) (provider_id : string) : Trail :=
  {| route := route tr ++ [provider_id];
     total_commission := total_commission tr;
     total_processing_time := total_processing_time tr;
     is_first := is_first tr;
     successful := successful tr |}.

(** The body of the loop over the ranked providers (lines 136-167). *)
Definition attempt (rng : nat -> Sample) (amount : R) (provider : Provider)
    (tr : Trail) (st : State) : result (Trail * State) :=
  let provider_id := ID provider in
  if Rltb amount (MIN_SUM provider) || Rgtb amount (MAX_SUM provider) then Ok (tr, st)
  else
    do daily_sum <- lookup (provider_daily_sums st) provider_id;
    if Rgeb daily_sum (LIMIT_MAX provider) then Ok (tr, st)
    else
      do choice <- random_choice rng (CONVERSION provider) st;
      let conversion_success := fst choice in
      let st := snd choice in
      if negb conversion_success then
        Ok (append_route (add_time tr provider) provider_id, st)
      else
        let available_limit := LIMIT_MAX provider - daily_sum in
        if Rltb available_limit amount then Ok (add_time tr provider, st)
        else
          let commission := amount * COMMISSION provider in
          let tr := append_route tr provider_id in
          if is_first tr then
            Ok ({| route := route tr;
                   total_commission := total_commission tr + commission;
                   total_processing_time := total_processing_time tr + AVG_TIME provider;
                   is_first := false;
                   successful := Some provider_id |},
                {| provider_daily_sums :=
                     dict_set (provider_daily_sums st) provider_id (daily_sum + amount);
                   draws := draws st |})
          else Ok (tr, st).

Fixpoint walk (rng : nat -> Sample) (amount : R) (ranked : list Provider)
    (tr : Trail) (st : State) : result (Trail * State) :=
  match ranked with
  | [] => Ok (tr, st)
  | provider :: rest =>
      do r <- attempt rng amount provider tr st;
      walk rng amount rest (fst r) (snd r)
  end.

(** *** The daily sum on binary64 (lines 139-164)

    [attempt] adds and subtracts real numbers.  Whether a daily sum stays
    within the daily maximum is decided by the rounding of the difference of
    line 154 and of the sum of line 164, so these lines are embedded on the
    doubles of the script too: the money columns of one provider row, and what
    one pass of the loop body leaves in [provider_daily_sums[provider_id]]. *)
Record Provider64 : Type := mkProvider64 {
  MIN_SUM64 : float;
  MAX_SUM64 : float;
  LIMIT_MAX64 : float
}.

Definition attempt64 (provider : Provider64) (conversion_success is_first : bool)
    (amount daily_sum : float) : float :=
  if (amount <? MIN_SUM64 provider)%float || (MAX_SUM64 provider <? amount)%float
  then daily_sum
  else if (LIMIT_MAX64 provider <=? daily_sum)%float then daily_sum
  else if negb conversion_success then daily_sum
  else
    let available_limit := (LIMIT_MAX64 provider - daily_sum)%float in
    if (available_limit <? amount)%float then daily_sum
    else if is_first then (daily_sum + amount)%float
    else daily_sum.

(** The amount of a payment in the reference currency (line 114). *)
Definition converted (currency_rates : Rates) (pay : Payment) : R :=
  amount pay * currency_rates (cur pay).

(** Lines 169-173: the columns written once the ranked list is exhausted. *)
Definition finish (pay : Payment) (amount : R) (tr : Trail) : Row :=
  let flow := String.concat "-" (route tr) in
  {| payment := pay;
     flow := flow;
     Profit := if String.eqb flow "" then 0 else amount - total_commission tr;
     Processing_Time := total_processing_time tr;
     Successful_provider := successful tr |}.

(** One iteration of the loop over the payments (lines 114-173). *)
Definition route_payment (rng : nat -> Sample) (providers : list Provider)
    (currency_rates : Rates) (pay : Payment) (st : State) : result (Row * State) :=
  let amount := converted currency_rates pay in
  do ranked <- sorted_providers providers (eventTimeRes pay) (cur pay);
  do r <- walk rng amount ranked start st;
  Ok (finish pay amount (fst r), snd r).

Fixpoint route_payments (rng : nat -> Sample) (providers : list Provider)
    (currency_rates : Rates) (payments : list Payment) (st : State)
  : result (list Row * State) :=
  match payments with
  | [] => Ok ([], st)
  | pay :: rest =>
      do r <- route_payment rng providers currency_rates pay st;
      do rs <- route_payments rng providers currency_rates rest (snd r);
      Ok (fst r :: fst rs, snd rs)
  end.

(** *** Penalties (lines 176-184) *)

Fixpoint penalties (providers : list Provider) (items : dict)
    (limit_penalty_used limit_penalty_all : R) : result (R * R) :=
  match items with
  | [] => Ok (limit_penalty_used, limit_penalty_all)
  | (provider_id, daily_sum) :: rest =>
      match find (fun p => String.eqb (ID p) provider_id) providers with
      | None => Raise IndexError
      | Some p =>
          let limit_min := LIMIT_MIN p in
          let limit_penalty_all :=
            if Rgtb limit_min daily_sum
            then limit_penalty_all + 0.01 * (limit_min - daily_sum)
            else limit_penalty_all in
          let limit_penalty_used :=
            if Rgtb daily_sum 0 && Rgtb limit_min daily_sum
            then limit_penalty_used + 0.01 * (limit_min - daily_sum)
            else limit_penalty_used in
          penalties providers rest limit_penalty_used limit_penalty_all
      end
  end.

(** Line 110: every known provider starts the day at zero, and the generator
    at its current state. *)
Definition initial (providers : list Provider) : State :=
  {| provider_daily_sums := dict_init (map ID providers); draws := 0 |}.

(** [optimize_routes]: the filled payment rows and the two penalties.  [rng] is
    the sequence of samples the generator yields from its current state. *)
Definition optimize_routes (rng : nat -> Sample) (payments : list Payment)
    (providers : list Provider) (currency_rates : Rates)
  : result (list Row * R * R) :=
  let providers := convert providers currency_rates in
  do r <- route_payments rng providers currency_rates payments (initial providers);
  do pen <- penalties providers (provider_daily_sums (snd r)) 0 0;
  Ok (fst r, fst pen, snd pen).

(** ** Stage 3: the day's summary (lines 191-214) *)

(** [Series.mean()]: NaN on an empty series. *)
Definition mean (l : list R) : npfloat :=
  match l with
  | [] => NaN
  | _ :: _ => Fin (Rsum l / INR (List.length l))
  end.

(** What [process_transactions] returns and what it writes. *)
Record Summary : Type := mkSummary {
  time_mean : npfloat;
  profit : R;
  general_limit_penalty_used : R;
  general_limit_penalty_all : R;
  optimized_payments : list (Payment * string)
}.

Definition process_transactions (rng : nat -> Sample) (trans : list Payment)
    (prov : list Provider) (exchange : Rates) : result Summary :=
  let trans := firstn 10000 trans in
  let prov := firstn 10000 prov in
  do r <- optimize_routes rng trans prov exchange;
  let rows := fst (fst r) in
  Ok {| time_mean :=
          mean (map Processing_Time
                    (filter (fun row => negb (String.eqb (flow row) "")) rows));
        profit := Rsum (map Profit rows);
        general_limit_penalty_used := snd (fst r);
        general_limit_penalty_all := snd r;
        optimized_payments := map (fun row => (payment row, flow row)) rows |}.

(** * Vocabulary of the statements *)

(** The amount is within the per-transaction bounds of the row. *)
Definition in_bounds (amount : R) (provider : Provider) : Prop :=
  MIN_SUM provider <= amount <= MAX_SUM provider.

(** The generator after one more sample. *)
Definition drawn (st : State) : State :=
  {| provider_daily_sums := provider_daily_sums st; draws := S (draws st) |}.

(** The trail and state after the first commit of a payment. *)
Definition committed (tr : Trail) (provider : Provider) (amount : R) : Trail :=
  {| route := route tr ++ [ID provider];
     total_commission := total_commission tr + amount * COMMISSION provider;
     total_processing_time := total_processing_time tr + AVG_TIME provider;
     is_first := false;
     successful := Some (ID provider) |}.

Definition credited (st : State) (provider : Provider) (v : R) : State :=
  {| provider_daily_sums := dict_set (provider_daily_sums st) (ID provider) v;
     draws := S (draws st) |}.

(** What the exits of the loop body leave behind. *)
Inductive outcome (rng : nat -> Sample) (amount : R) (provider : Provider)
    (tr : Trail) (st : State) : Trail -> State -> Prop :=
| Skipped_bounds :
    amount < MIN_SUM provider \/ MAX_SUM provider < amount ->
    outcome rng amount provider tr st tr st
| Skipped_limit daily_sum :
    in_bounds amount provider ->
    dict_get (provider_daily_sums st) (ID provider) = Some daily_sum ->
    LIMIT_MAX provider <= daily_sum ->
    outcome rng amount provider tr st tr st
| Conversion_failed daily_sum :
    in_bounds amount provider ->
    dict_get (provider_daily_sums st) (ID provider) = Some daily_sum ->
    daily_sum < LIMIT_MAX provider ->
    CONVERSION provider <= sample (rng (draws st)) ->
    outcome rng amount provider tr st
            (append_route (add_time tr provider) (ID provider)) (drawn st)
| No_capacity daily_sum :
    in_bounds amount provider ->
    dict_get (provider_daily_sums st) (ID provider) = Some daily_sum ->
    daily_sum < LIMIT_MAX provider ->
    sample (rng (draws st)) < CONVERSION provider ->
    LIMIT_MAX provider - daily_sum < amount ->
    outcome rng amount provider tr st (add_time tr provider) (drawn st)
| Commit daily_sum :
    in_bounds amount provider ->
    dict_get (provider_daily_sums st) (ID provider) = Some daily_sum ->
    daily_sum < LIMIT_MAX provider ->
    sample (rng (draws st)) < CONVERSION provider ->
    amount <= LIMIT_MAX provider - daily_sum ->
    is_first tr = true ->
    outcome rng amount provider tr st
            (committed tr provider amount) (credited st provider (daily_sum + amount))
| Success_after_commit daily_sum :
    in_bounds amount provider ->
    dict_get (provider_daily_sums st) (ID provider) = Some daily_sum ->
    daily_sum < LIMIT_MAX provider ->
    sample (rng (draws st)) < CONVERSION provider ->
    amount <= LIMIT_MAX provider - daily_sum ->
    is_first tr = false ->
    outcome rng amount provider tr st (append_route tr (ID provider)) (drawn st).

(** An exit other than the first commit leaves the sums, the flag, the
    committing provider and the commission as they were. *)
Definition unchanged (tr tr' : Trail) (st st' : State) : Prop :=
  provider_daily_sums st' = provider_daily_sums st /\
  is_first tr' = is_first tr /\
  successful tr' = successful tr /\
  total_commission tr' = total_commission tr.

(** The first commit of a payment, by [provider], on top of [daily_sum]. *)
Definition commits (amount : R) (provider : Provider) (daily_sum : R)
    (tr tr' : Trail) (st st' : State) : Prop :=
  in_bounds amount provider /\
  dict_get (provider_daily_sums st) (ID provider) = Some daily_sum /\
  daily_sum < LIMIT_MAX provider /\
  daily_sum + amount <= LIMIT_MAX provider /\
  provider_daily_sums st' =
    dict_set (provider_daily_sums st) (ID provider) (daily_sum + amount) /\
  is_first tr = true /\
  is_first tr' = false /\
  successful tr' = Some (ID provider) /\
  total_commission tr' = total_commission tr + amount * COMMISSION provider /\
  In (ID provider) (route tr').

(** What the rows record as committed by provider [id]. *)
Definition committed_by (id : string) (row : Row) : bool :=
  match Successful_provider row with
  | Some k => String.eqb k id
  | None => false
  end.

Definition committed_amount (currency_rates : Rates) (id : string) (rows : list Row) : R :=
  Rsum (map (fun row => converted currency_rates (payment row))
            (filter (committed_by id) rows)).

(** The rows that are candidates for a payment: right currency, not later than
    the payment. *)
Definition candidate (payment_time : Z) (currency : string) (p : Provider) : bool :=
  (TIME p <=? payment_time)%Z && String.eqb (CURRENCY p) currency.

(** The first row of the table with the identifier and timestamp of [p] among
    the candidates. *)
Definition first_like (payment_time : Z) (currency : string) (p : Provider)
    (providers : list Provider) : option Provider :=
  find (fun q => candidate payment_time currency q
                 && String.eqb (ID q) (ID p) && (TIME q =? TIME p)%Z)
       providers.

(** The selection as the specification words it: the latest row of each
    identifier among all rows of the currency, whatever the payment time, and
    only then the rows not later than the payment. *)
Definition eligible_as_specified (providers : list Provider) (payment_time : Z)
    (currency : string) : list Provider :=
  filter (fun p => (TIME p <=? payment_time)%Z)
         (latest_per_id (filter (fun p => String.eqb (CURRENCY p) currency) providers)).

(** [x] is not ranked behind [y]: the score of [y] does not beat that of [x]. *)
Definition not_behind (x y : Scored) : Prop :=
  precedes (topsis_score y) (topsis_score x) = false.

(** The Euclidean norm of one criterion over the ranked providers, and the
    weighted normalised entry of one provider. *)
Definition norm (c : Provider -> R) (providers : list Provider) : R :=
  sqrt (Rsum (map (fun p => Rsqr (c p)) providers)).

Definition weighted (c : Provider -> R) (w : R) (providers : list Provider)
    (p : Provider) : npfloat :=
  fmul (fdiv (Fin (c p)) (Fin (norm c providers))) (Fin w).

(** [l1] is [l2] with some entries left out, the order kept. *)
Inductive subsequence {A : Type} : list A -> list A -> Prop :=
| subsequence_nil : subsequence [] []
| subsequence_skip (x : A) (l1 l2 : list A) :
    subsequence l1 l2 -> subsequence l1 (x :: l2)
| subsequence_take (x : A) (l1 l2 : list A) :
    subsequence l1 l2 -> subsequence (x :: l1) (x :: l2).

(** The loop passes over row [p] before any draw: the amount is out of the
    row's bounds, or the provider's daily sum has reached the row's daily
    maximum. *)
Definition skipped (amount : R) (sums : dict) (p : Provider) : Prop :=
  amount < MIN_SUM p \/ MAX_SUM p < amount \/
  exists daily_sum, dict_get sums (ID p) = Some daily_sum /\ LIMIT_MAX p <= daily_sum.

(** * Scenario inputs *)

(** Every currency already is the reference currency. *)
Definition rates1 : Rates := fun _ => 1.

(** A generator whose every sample is one half. *)
Definition rng_half : nat -> Sample := fun _ => mkSample (1 / 2) ltac:(lra).

(** A provider that always converts, with a daily maximum of 100. *)
Definition provider_P : Provider := mkProvider "P" "USD" 0 0 1000 0 100 0.01 1 5.

(** A payment above what P may take in a day. *)
Definition payment_150 : Payment := mkPayment 150 "USD" 1.

(** A provider that never converts, and a 100-unit payment. *)
Definition provider_Z : Provider := mkProvider "Z" "USD" 0 0 1000 0 1000 0.01 0 5.
Definition payment_100 : Payment := mkPayment 100 "USD" 1.

(** A payment above P's per-transaction maximum. *)
Definition payment_5000 : Payment := mkPayment 5000 "USD" 1.

(** The day of one payment that exceeds P's per-transaction maximum. *)
Definition summary_5000 : Summary :=
  {| time_mean := NaN;
     profit := Rsum [0];
     general_limit_penalty_used := 0;
     general_limit_penalty_all := 0;
     optimized_payments := [(payment_5000, ""%string)] |}.

(** A provider with a daily minimum of 500. *)
Definition provider_M : Provider := mkProvider "M" "USD" 0 0 1000 500 1000 0.01 1 5.

(** Two payments that fit together under P's daily maximum. *)
Definition payment_60 : Payment := mkPayment 60 "USD" 1.
Definition payment_30 : Payment := mkPayment 30 "USD" 2.

(** The day of a 60-unit and a 30-unit payment, both committed by P. *)
Definition rows_60_30 : list Row :=
  [finish payment_60 (converted rates1 payment_60)
          (committed start provider_P (converted rates1 payment_60));
   finish payment_30 (converted rates1 payment_30)
          (committed start provider_P (converted rates1 payment_30))].

Definition state_60_30 : State :=
  credited
    (credited (initial [provider_P]) provider_P (0 + converted rates1 payment_60))
    provider_P
    (0 + converted rates1 payment_60 + converted rates1 payment_30).

(** Two rows of provider Q: one before and one after the payment time 3. *)
Definition provider_Q_early : Provider := mkProvider "Q" "USD" 1 0 1000 0 1000 0.01 1 5.
Definition provider_Q_late : Provider := mkProvider "Q" "USD" 5 0 1000 0 1000 0.02 1 5.

(** The scenario's providers: both always convert, with a daily maximum of
    1000; A charges 0.01 and B charges 0.05.  The average times are free. *)
Definition provider_A (avg_time : R) : Provider :=
  mkProvider "A" "USD" 0 0 1000 0 1000 0.01 1 avg_time.

Definition provider_B (avg_time : R) : Provider :=
  mkProvider "B" "USD" 0 0 1000 0 1000 0.05 1 avg_time.

(** The money columns of a provider with a daily maximum of 14.85, as doubles. *)
Definition provider_P64 : Provider64 := mkProvider64 0 1000 14.85.

(** A payment in a currency no provider serves. *)
Definition payment_EUR : Payment := mkPayment 10 "EUR" 1.

(** A generator that yields one half twice and zero from then on. *)
Definition rng_half_twice : nat -> Sample :=
  fun i => if (i <? 2)%nat then mkSample (1 / 2) ltac:(lra) else mkSample 0 ltac:(lra).

(** Two providers that charge no commission. *)
Definition provider_free_A : Provider := mkProvider "A" "USD" 0 0 1000 0 1000 0 1 5.
Definition provider_free_B : Provider := mkProvider "B" "USD" 0 0 1000 0 1000 0 1 3.

(** A later row of Q that states a higher daily maximum. *)
Definition provider_Q_raised : Provider := mkProvider "Q" "USD" 5 0 1000 0 2000 0.02 1 5.

(** A provider whose conversion column holds 1.5. *)
Definition provider_V : Provider := mkProvider "V" "USD" 0 0 1000 0 1000 0.01 1.5 5.

(** Every currency is worth two units of the reference currency. *)
Definition rates2 : Rates := fun _ => 2.

(** * Basic facts *)

(** ** Boolean comparisons *)

Lemma Rltb_true (x y : R) : x < y -> Rltb x y = true.
Proof. intros H. unfold Rltb. destruct (Rlt_dec x y); [reflexivity | contradiction]. Qed.

Lemma Rltb_false (x y : R) : y <= x -> Rltb x y = false.
Proof. intros H. unfold Rltb. destruct (Rlt_dec x y); [lra | reflexivity]. Qed.

Lemma Rleb_true (x y : R) : x <= y -> Rleb x y = true.
Proof. intros H. unfold Rleb. destruct (Rle_dec x y); [reflexivity | contradiction]. Qed.

Lemma Rleb_false (x y : R) : y < x -> Rleb x y = false.
Proof. intros H. unfold Rleb. destruct (Rle_dec x y); [lra | reflexivity]. Qed.

Lemma Rltb_spec (x y : R) : reflect (x < y) (Rltb x y).
Proof. unfold Rltb. destruct (Rlt_dec x y); constructor; assumption. Qed.

Lemma Rleb_spec (x y : R) : reflect (x <= y) (Rleb x y).
Proof. unfold Rleb. destruct (Rle_dec x y); constructor; assumption. Qed.

Lemma Reqb_true (x y : R) : x = y -> Reqb x y = true.
Proof. intros H. unfold Reqb. destruct (Req_dec_T x y); [reflexivity | contradiction]. Qed.

Lemma Reqb_false (x y : R) : x <> y -> Reqb x y = false.
Proof. intros H. unfold Reqb. destruct (Req_dec_T x y); [contradiction | reflexivity]. Qed.

(** ** Results *)

Lemma bind_Ok {A B : Type} (m : result A) (k : A -> result B) (b : B) :
  bind m k = Ok b -> exists a, m = Ok a /\ k a = Ok b.
Proof. destruct m as [a | e]; simpl; intros H; [eauto | discriminate]. Qed.

(** Split a hypothesis [bind m k = Ok b] into its two steps. *)
Tactic Notation "bind_inv" hyp(H) "as" ident(a) ident(Ha) :=
  apply bind_Ok in H; destruct H as (a & Ha & H).

(** ** The dictionary *)

Lemma dict_get_set_same (d : dict) (k : string) (v : R) :
  dict_get (dict_set d k v) k = Some v.
Proof.
  induction d as [| [k' v'] d IH]; simpl.
  - rewrite String.eqb_refl. reflexivity.
  - destruct (String.eqb k' k) eqn:E; simpl; rewrite E; [reflexivity | exact IH].
Qed.

Lemma dict_get_set_other (d : dict) (k k' : string) (v : R) :
  k <> k' -> dict_get (dict_set d k v) k' = dict_get d k'.
Proof.
  intros Hne. induction d as [| [k0 v0] d IH]; simpl.
  - destruct (String.eqb_spec k k'); [contradiction | reflexivity].
  - destruct (String.eqb_spec k0 k) as [-> | Hk]; simpl.
    + destruct (String.eqb_spec k k'); [contradiction | reflexivity].
    + destruct (String.eqb_spec k0 k'); [reflexivity | exact IH].
Qed.

Lemma dict_get_keys (d : dict) (k : string) :
  In k (keys d) <-> exists v, dict_get d k = Some v.
Proof.
  induction d as [| [k' v'] d IH]; simpl.
  - split; [tauto | intros [v H]; discriminate].
  - destruct (String.eqb_spec k' k) as [-> | Hk].
    + split; eauto.
    + rewrite <- IH. tauto.
Qed.

Lemma keys_dict_set_present (d : dict) (k : string) (v : R) :
  In k (keys d) -> keys (dict_set d k v) = keys d.
Proof.
  induction d as [| [k0 v0] d IH]; simpl; [tauto |].
  intros H. destruct (String.eqb_spec k0 k) as [-> | Hk]; simpl.
  - reflexivity.
  - f_equal. apply IH. destruct H; [contradiction | assumption].
Qed.

Lemma dict_init_acc (ids : list string) (d : dict) (k : string) :
  dict_get (fold_left (fun d k => dict_set d k 0) ids d) k =
  if in_dec string_dec k ids then Some 0 else dict_get d k.
Proof.
  revert d. induction ids as [| i ids IH]; intros d; simpl; [reflexivity |].
  rewrite IH. destruct (in_dec string_dec k ids) as [Hin | Hnin].
  - destruct (string_dec i k); reflexivity.
  - destruct (string_dec i k) as [-> | Hne].
    + apply dict_get_set_same.
    + apply dict_get_set_other. assumption.
Qed.

Lemma dict_get_init (ids : list string) (k : string) :
  In k ids -> dict_get (dict_init ids) k = Some 0.
Proof.
  intros H. unfold dict_init. rewrite dict_init_acc.
  destruct (in_dec string_dec k ids); [reflexivity | contradiction].
Qed.

Lemma keys_dict_init (ids : list string) (k : string) :
  In k (keys (dict_init ids)) <-> In k ids.
Proof.
  rewrite dict_get_keys. unfold dict_init. rewrite dict_init_acc.
  destruct (in_dec string_dec k ids); simpl.
  - split; eauto.
  - split; [intros [v H]; discriminate | contradiction].
Qed.

(** ** Sorting by score *)

Lemma insert_desc_perm (s : Scored) (l : list Scored) :
  Permutation (insert_desc s l) (s :: l).
Proof.
  induction l as [| t l IH]; simpl; [reflexivity |].
  destruct (precedes (topsis_score t) (topsis_score s)); [| reflexivity].
  rewrite IH. apply perm_swap.
Qed.

Lemma sort_values_perm (l : list Scored) : Permutation (sort_values l) l.
Proof.
  induction l as [| s l IH]; simpl; [reflexivity |].
  rewrite insert_desc_perm. constructor. exact IH.
Qed.

(** ** Shapes of the TOPSIS matrices *)

Lemma map_fst_combine_eq {A B : Type} (u : list A) (v : list B) :
  List.length u = List.length v -> map fst (combine u v) = u.
Proof.
  revert v. induction u as [| a u IH]; intros [| b v] H; simpl in *;
    try reflexivity; try discriminate.
  f_equal. apply IH. congruence.
Qed.

Lemma map2_length {A B C : Type} (f : A -> B -> C) (u : list A) (v : list B) :
  List.length (map2 f u v) = Nat.min (List.length u) (List.length v).
Proof. unfold map2. rewrite length_map, length_combine. reflexivity. Qed.

Lemma sum_axis0_length (n : nat) (matrix : list (list R)) :
  (forall row, In row matrix -> List.length row = n) ->
  List.length (sum_axis0 n matrix) = n.
Proof.
  unfold sum_axis0. generalize (repeat_length 0 n).
  generalize (repeat 0 n) as acc.
  induction matrix as [| row matrix IH]; intros acc Hacc Hrows; simpl; [exact Hacc |].
  apply IH.
  - rewrite map2_length, Hacc, (Hrows row) by (left; reflexivity). apply Nat.min_id.
  - intros r Hr. apply Hrows. right. exact Hr.
Qed.

Lemma normalize_matrix_rows (providers : list Provider) (row : list npfloat) :
  In row (normalize_matrix providers criterions weights) -> List.length row = 3%nat.
Proof.
  unfold normalize_matrix. intros H.
  apply in_map_iff in H. destruct H as (row1 & <- & H).
  apply in_map_iff in H. destruct H as (row0 & <- & H).
  apply in_map_iff in H. destruct H as (p & <- & _).
  rewrite !map2_length, !length_map, sum_axis0_length.
  - reflexivity.
  - intros r Hr. apply in_map_iff in Hr. destruct Hr as (r0 & <- & Hr).
    apply in_map_iff in Hr. destruct Hr as (q & <- & _). reflexivity.
Qed.

Lemma normalize_matrix_length (providers : list Provider)
    (cs : list (Provider -> R)) (ws : list R) :
  List.length (normalize_matrix providers cs ws) = List.length providers.
Proof. unfold normalize_matrix, to_numpy. rewrite !length_map. reflexivity. Qed.

Lemma column_Ok (i n : nat) (matrix : list (list npfloat)) :
  (forall row, In row matrix -> List.length row = n) -> (i < n)%nat ->
  exists col, column i matrix = Ok col /\ List.length col = List.length matrix.
Proof.
  intros Hrows Hi. induction matrix as [| row matrix IH]; simpl.
  - exists []. split; reflexivity.
  - destruct (nth_error row i) as [x |] eqn:E.
    + destruct IH as (col & -> & Hlen).
      { intros r Hr. apply Hrows. right. exact Hr. }
      exists (x :: col). simpl. split; [reflexivity | congruence].
    + apply nth_error_None in E. rewrite (Hrows row) in E by (left; reflexivity). lia.
Qed.

Lemma calculate_solutions_Ok (matrix : list (list npfloat)) :
  matrix <> [] -> (forall row, In row matrix -> List.length row = 3%nat) ->
  exists good bad, calculate_solutions matrix marks = Ok (good, bad).
Proof.
  intros Hne Hrows. unfold calculate_solutions, marks. simpl.
  destruct (column_Ok 0 3 matrix Hrows) as (c0 & -> & L0); [lia |].
  destruct (column_Ok 1 3 matrix Hrows) as (c1 & -> & L1); [lia |].
  destruct (column_Ok 2 3 matrix Hrows) as (c2 & -> & L2); [lia |].
  destruct matrix as [| r m]; [contradiction |].
  destruct c0; [discriminate |]. destruct c1; [discriminate |].
  destruct c2; [discriminate |]. simpl. eauto.
Qed.

Lemma calculate_solutions_empty : calculate_solutions [] marks = Raise ValueError.
Proof. reflexivity. Qed.

Lemma topsis_empty : topsis [] criterions weights marks = Raise ValueError.
Proof. reflexivity. Qed.

Lemma topsis_Ok (providers : list Provider) :
  providers <> [] ->
  exists ranked,
    topsis providers criterions weights marks = Ok ranked /\
    Permutation (map fst ranked) providers.
Proof.
  intros Hne. unfold topsis.
  destruct (calculate_solutions_Ok (normalize_matrix providers criterions weights))
    as (good & bad & ->).
  - intros E. apply (f_equal (@List.length _)) in E.
    rewrite normalize_matrix_length in E. destruct providers; [contradiction | discriminate].
  - apply normalize_matrix_rows.
  - simpl. eexists. split; [reflexivity |].
    unfold rank_providers.
    rewrite (Permutation_map fst (sort_values_perm _)).
    rewrite map_fst_combine_eq; [reflexivity |].
    unfold calculate_distances. rewrite length_map, normalize_matrix_length. reflexivity.
Qed.

(** ** Eligible rows *)

Lemma insert_key_In (k x : string) (l : list string) :
  In x (insert_key k l) <-> x = k \/ In x l.
Proof.
  induction l as [| h t IH]; simpl.
  - intuition congruence.
  - destruct (String.compare k h) eqn:E; simpl.
    + apply String.compare_eq_iff in E. subst h. intuition congruence.
    + intuition congruence.
    + rewrite IH. intuition congruence.
Qed.

Lemma group_keys_In (l : list Provider) (k : string) :
  In k (group_keys l) <-> In k (map ID l).
Proof.
  unfold group_keys. induction l as [| p l IH]; simpl; [tauto |].
  rewrite insert_key_In, IH. intuition congruence.
Qed.

(** [idxmax] returns the first row of the group that attains the largest
    timestamp. *)
Lemma idxmax_from_split (group : list Provider) (best : Provider) :
  exists l1 l2,
    best :: group = l1 ++ idxmax_from best group :: l2 /\
    (forall q, In q l1 -> (TIME q < TIME (idxmax_from best group))%Z) /\
    (forall q, In q l2 -> (TIME q <= TIME (idxmax_from best group))%Z).
Proof.
  revert best. induction group as [| p rest IH]; intros best; simpl.
  - exists [], []. simpl. intuition.
  - destruct (Z.ltb_spec (TIME best) (TIME p)) as [Hlt | Hge].
    + destruct (IH p) as (l1 & l2 & E & H1 & H2).
      exists (best :: l1), l2. split; [simpl; rewrite E; reflexivity |].
      split; [| exact H2].
      intros q [<- | Hq]; [| apply H1; exact Hq].
      assert (Hp : (TIME p <= TIME (idxmax_from p rest))%Z).
      { assert (Hin : In p (l1 ++ idxmax_from p rest :: l2))
          by (rewrite <- E; left; reflexivity).
        apply in_app_or in Hin. destruct Hin as [Hin | [Hin | Hin]].
        - apply Z.lt_le_incl, H1, Hin.
        - rewrite Hin. apply Z.le_refl.
        - apply H2, Hin. }
      lia.
    + destruct (IH best) as (l1 & l2 & E & H1 & H2).
      destruct l1 as [| b l1]; simpl in E.
      * injection E as Eb El. exists [], (p :: l2).
        split; [simpl; rewrite <- Eb, El; reflexivity |].
        split; [intros q []|].
        intros q [<- | Hq]; [rewrite <- Eb; exact Hge | apply H2; exact Hq].
      * injection E as Eb El. subst b. exists (best :: p :: l1), l2.
        split; [simpl; do 2 f_equal; exact El |].
        split; [| exact H2].
        assert (Hb : (TIME best < TIME (idxmax_from best rest))%Z)
          by (apply H1; left; reflexivity).
        intros q [<- | [<- | Hq]]; [exact Hb | lia |].
        apply H1. right. exact Hq.
Qed.

(** Two splittings of one list around its first maximum coincide. *)
Lemma first_max_unique (l1 l2 m1 m2 : list Provider) (p r : Provider) :
  l1 ++ p :: l2 = m1 ++ r :: m2 ->
  (forall q, In q l1 -> (TIME q < TIME p)%Z) ->
  (forall q, In q l2 -> (TIME q <= TIME p)%Z) ->
  (forall q, In q m1 -> (TIME q < TIME r)%Z) ->
  (forall q, In q m2 -> (TIME q <= TIME r)%Z) ->
  p = r.
Proof.
  revert m1. induction l1 as [| a l1 IH]; intros m1 Em H1 H2 M1 M2.
  - destruct m1 as [| b m1]; simpl in Em.
    + injection Em as Ep _. exact Ep.
    + injection Em as Ep El.
      assert (Hr : In r l2) by (rewrite El; apply in_elt).
      specialize (H2 r Hr). specialize (M1 b (or_introl eq_refl)).
      rewrite <- Ep in M1. lia.
  - destruct m1 as [| b m1]; simpl in Em.
    + injection Em as Ea El.
      assert (Hp : In p m2) by (rewrite <- El; apply in_elt).
      specialize (M2 p Hp). specialize (H1 a (or_introl eq_refl)).
      rewrite Ea in H1. lia.
    + injection Em as Ea El.
      apply (IH m1 El).
      * intros q Hq. apply H1. right. exact Hq.
      * exact H2.
      * intros q Hq. apply M1. right. exact Hq.
      * exact M2.
Qed.

Lemma latest_per_id_In (df : list Provider) (p : Provider) :
  In p (latest_per_id df) <->
  exists l1 l2,
    filter (fun q => String.eqb (ID q) (ID p)) df = l1 ++ p :: l2 /\
    (forall q, In q l1 -> (TIME q < TIME p)%Z) /\
    (forall q, In q l2 -> (TIME q <= TIME p)%Z).
Proof.
  unfold latest_per_id. rewrite in_flat_map. split.
  - intros (k & Hk & Hp).
    destruct (filter (fun q => String.eqb (ID q) k) df) as [| b g] eqn:E;
      simpl in Hp; [contradiction |].
    destruct Hp as [<- | []].
    destruct (idxmax_from_split g b) as (l1 & l2 & Eg & H1 & H2).
    assert (Hid : ID (idxmax_from b g) = k).
    { assert (Hin : In (idxmax_from b g) (b :: g))
        by (rewrite Eg; apply in_elt).
      rewrite <- E in Hin. apply filter_In in Hin.
      apply String.eqb_eq, Hin. }
    rewrite Hid, E. eauto.
  - intros (l1 & l2 & E & H1 & H2).
    assert (Hin : In p df).
    { assert (H : In p (l1 ++ p :: l2)) by apply in_elt.
      rewrite <- E in H. apply filter_In in H. apply H. }
    exists (ID p). split; [apply group_keys_In, in_map, Hin |].
    rewrite E.
    destruct (idxmax_from_split
                (tl (l1 ++ p :: l2)) (hd p (l1 ++ p :: l2))) as (m1 & m2 & Em & M1 & M2).
    assert (Ecell : l1 ++ p :: l2 = hd p (l1 ++ p :: l2) :: tl (l1 ++ p :: l2))
      by (destruct l1; reflexivity).
    assert (Eidx : idxmax (l1 ++ p :: l2)
                   = Some (idxmax_from (hd p (l1 ++ p :: l2)) (tl (l1 ++ p :: l2))))
      by (destruct l1; reflexivity).
    rewrite Eidx. simpl. left.
    rewrite <- Ecell in Em. symmetry.
    exact (first_max_unique _ _ _ _ _ _ Em H1 H2 M1 M2).
Qed.

Lemma filtered_providers_In (providers : list Provider) (T : Z) (C : string)
    (p : Provider) :
  In p (filtered_providers providers T C) ->
  In p providers /\ (TIME p <= T)%Z /\ CURRENCY p = C.
Proof.
  unfold filtered_providers. intros H.
  apply latest_per_id_In in H. destruct H as (l1 & l2 & E & _ & _).
  assert (Hin : In p (l1 ++ p :: l2)) by apply in_elt.
  rewrite <- E in Hin. apply filter_In in Hin. destruct Hin as [Hin _].
  apply filter_In in Hin. destruct Hin as [Hin Hb].
  apply andb_true_iff in Hb. destruct Hb as [Ht Hc].
  split; [exact Hin |]. split; [apply Z.leb_le, Ht | apply String.eqb_eq, Hc].
Qed.

Lemma filter_all {A : Type} (f : A -> bool) (l : list A) :
  (forall x, In x l -> f x = true) -> filter f l = l.
Proof.
  induction l as [| a l IH]; intros H; simpl; [reflexivity |].
  rewrite (H a) by (left; reflexivity). f_equal. apply IH.
  intros x Hx. apply H. right. exact Hx.
Qed.

(** The ranked rows are the eligible rows in some order; ranking an empty
    selection raises (numpy's [max] of an empty column). *)
Lemma sorted_providers_empty (providers : list Provider) (T : Z) (C : string) :
  filtered_providers providers T C = [] ->
  sorted_providers providers T C = Raise ValueError.
Proof. intros E. unfold sorted_providers. rewrite E. reflexivity. Qed.

Lemma sorted_providers_Ok (providers : list Provider) (T : Z) (C : string) :
  filtered_providers providers T C <> [] ->
  exists ranked,
    sorted_providers providers T C = Ok ranked /\
    Permutation ranked (filtered_providers providers T C).
Proof.
  intros Hne. unfold sorted_providers.
  destruct (topsis_Ok _ Hne) as (ranked & -> & Hperm). simpl.
  eexists. split; [reflexivity |].
  rewrite filter_all.
  - rewrite (Permutation_map fst (sort_values_perm ranked)). exact Hperm.
  - intros s Hs. apply Z.leb_le.
    assert (Hin : In (fst s) (filtered_providers providers T C)).
    { apply (Permutation_in _ Hperm). apply in_map. exact Hs. }
    apply filtered_providers_In in Hin. apply Hin.
Qed.

Lemma sorted_providers_single (providers : list Provider) (T : Z) (C : string)
    (p : Provider) :
  filtered_providers providers T C = [p] ->
  sorted_providers providers T C = Ok [p].
Proof.
  intros E. destruct (sorted_providers_Ok providers T C) as (l & -> & Hperm).
  - rewrite E. discriminate.
  - rewrite E in Hperm. apply Permutation_sym, Permutation_length_1_inv in Hperm.
    rewrite Hperm. reflexivity.
Qed.

(** ** One attempt *)

Lemma attempt_outcome (rng : nat -> Sample) (amount : R) (provider : Provider)
    (tr tr' : Trail) (st st' : State) :
  attempt rng amount provider tr st = Ok (tr', st') ->
  outcome rng amount provider tr st tr' st'.
Proof.
  unfold attempt, lookup, random_choice, Rgtb, Rgeb.
  destruct (Rltb_spec amount (MIN_SUM provider)) as [Hmin | Hmin]; simpl.
  { intros [= <- <-]. apply Skipped_bounds. left. exact Hmin. }
  destruct (Rltb_spec (MAX_SUM provider) amount) as [Hmax | Hmax]; simpl.
  { intros [= <- <-]. apply Skipped_bounds. right. exact Hmax. }
  assert (Hb : in_bounds amount provider) by (unfold in_bounds; lra).
  destruct (dict_get (provider_daily_sums st) (ID provider)) as [daily_sum |] eqn:Hget;
    simpl; [| discriminate].
  destruct (Rleb_spec (LIMIT_MAX provider) daily_sum) as [Hlim | Hlim].
  { intros [= <- <-]. apply Skipped_limit with daily_sum; assumption. }
  apply Rnot_le_lt in Hlim.
  destruct (Rltb (CONVERSION provider) 0 || Rltb (1 - CONVERSION provider) 0);
    simpl; [discriminate |].
  destruct (Rltb_spec (sample (rng (draws st))) (CONVERSION provider)) as [Hs | Hs];
    simpl.
  - destruct (Rltb_spec (LIMIT_MAX provider - daily_sum) amount) as [Hcap | Hcap].
    + intros [= <- <-]. apply No_capacity with daily_sum; assumption.
    + apply Rnot_lt_le in Hcap.
      destruct (is_first tr) eqn:Hfirst.
      * intros [= <- <-]. apply Commit; assumption.
      * intros [= <- <-]. apply Success_after_commit with daily_sum; assumption.
  - apply Rnot_lt_le in Hs. intros [= <- <-].
    apply Conversion_failed with daily_sum; assumption.
Qed.

(** Conversely each exit is taken when its conditions hold, provided numpy
    accepts the probability. *)
Lemma outcome_attempt (rng : nat -> Sample) (amount : R) (provider : Provider)
    (tr tr' : Trail) (st st' : State) :
  0 <= CONVERSION provider <= 1 ->
  outcome rng amount provider tr st tr' st' ->
  attempt rng amount provider tr st = Ok (tr', st').
Proof.
  intros Hp H. unfold attempt, lookup, random_choice, Rgtb, Rgeb.
  destruct H as [Hb | d Hb Hget Hlim | d Hb Hget Hlim Hs | d Hb Hget Hlim Hs Hcap
                 | d Hb Hget Hlim Hs Hcap Hf | d Hb Hget Hlim Hs Hcap Hf];
    try (unfold in_bounds in Hb;
         rewrite (Rltb_false amount (MIN_SUM provider)) by lra;
         rewrite (Rltb_false (MAX_SUM provider) amount) by lra;
         simpl; rewrite Hget; simpl).
  - destruct (Rltb_spec amount (MIN_SUM provider)) as [Hmin | Hmin]; simpl;
      [reflexivity |].
    destruct (Rltb_spec (MAX_SUM provider) amount) as [Hmax | Hmax]; simpl;
      [reflexivity | lra].
  - rewrite Rleb_true by assumption. reflexivity.
  - rewrite Rleb_false by assumption.
    rewrite (Rltb_false (CONVERSION provider) 0), (Rltb_false (1 - CONVERSION provider) 0)
      by lra.
    simpl. rewrite Rltb_false by assumption. reflexivity.
  - rewrite Rleb_false by assumption.
    rewrite (Rltb_false (CONVERSION provider) 0), (Rltb_false (1 - CONVERSION provider) 0)
      by lra.
    simpl. rewrite (Rltb_true (sample _)) by assumption. simpl.
    rewrite Rltb_true by assumption. reflexivity.
  - rewrite Rleb_false by assumption.
    rewrite (Rltb_false (CONVERSION provider) 0), (Rltb_false (1 - CONVERSION provider) 0)
      by lra.
    simpl. rewrite (Rltb_true (sample _)) by assumption. simpl.
    rewrite Rltb_false by assumption. rewrite Hf. reflexivity.
  - rewrite Rleb_false by assumption.
    rewrite (Rltb_false (CONVERSION provider) 0), (Rltb_false (1 - CONVERSION provider) 0)
      by lra.
    simpl. rewrite (Rltb_true (sample _)) by assumption. simpl.
    rewrite Rltb_false by assumption. rewrite Hf. reflexivity.
Qed.

(** ** One payment *)

Lemma outcome_route (rng : nat -> Sample) (amount : R) (provider : Provider)
    (tr tr' : Trail) (st st' : State) :
  outcome rng amount provider tr st tr' st' ->
  route tr' = route tr \/ route tr' = route tr ++ [ID provider].
Proof. intros H. destruct H; simpl; auto. Qed.

Lemma outcome_draws (rng : nat -> Sample) (amount : R) (provider : Provider)
    (tr tr' : Trail) (st st' : State) :
  outcome rng amount provider tr st tr' st' ->
  draws st' = draws st \/ draws st' = S (draws st).
Proof. intros H. destruct H; simpl; auto. Qed.

Lemma outcome_commit (rng : nat -> Sample) (amount : R) (provider : Provider)
    (tr tr' : Trail) (st st' : State) :
  outcome rng amount provider tr st tr' st' ->
  unchanged tr tr' st st' \/
  exists daily_sum, commits amount provider daily_sum tr tr' st st'.
Proof.
  intros H.
  destruct H as [Hb | d Hb Hget Hlim | d Hb Hget Hlim Hs | d Hb Hget Hlim Hs Hcap
                 | d Hb Hget Hlim Hs Hcap Hf | d Hb Hget Hlim Hs Hcap Hf];
    try (left; repeat split; reflexivity).
  right. exists d. unfold commits. simpl.
  repeat split; try assumption; try reflexivity; try apply Hb; try lra.
  apply in_or_app. right. left. reflexivity.
Qed.

Lemma walk_route (rng : nat -> Sample) (amount : R) (ranked : list Provider) :
  forall tr st tr' st',
    walk rng amount ranked tr st = Ok (tr', st') ->
    exists tried, route tr' = route tr ++ tried /\ incl tried (map ID ranked).
Proof.
  induction ranked as [| p rest IH]; intros tr st tr' st' H; simpl in H.
  - injection H as <- <-. exists []. rewrite app_nil_r. split; [reflexivity |].
    intros x [].
  - bind_inv H as a Ha. destruct a as [tr1 st1]. simpl in H.
    apply attempt_outcome, outcome_route in Ha.
    destruct (IH _ _ _ _ H) as (tried & E & Hincl).
    destruct Ha as [E1 | E1]; rewrite E1 in E.
    + exists tried. split; [exact E |]. apply incl_tl. exact Hincl.
    + exists (ID p :: tried). rewrite <- app_assoc in E. split; [exact E |].
      apply incl_cons; [left; reflexivity | apply incl_tl; exact Hincl].
Qed.

Lemma walk_draws (rng : nat -> Sample) (amount : R) (ranked : list Provider) :
  forall tr st tr' st',
    walk rng amount ranked tr st = Ok (tr', st') ->
    (draws st <= draws st' <= draws st + List.length ranked)%nat.
Proof.
  induction ranked as [| p rest IH]; intros tr st tr' st' H; simpl in H.
  - injection H as <- <-. simpl. lia.
  - bind_inv H as a Ha. destruct a as [tr1 st1]. simpl in H.
    apply attempt_outcome, outcome_draws in Ha.
    specialize (IH _ _ _ _ H). simpl. lia.
Qed.

(** Along one payment the sums change at most once: at the first commit. *)
Lemma walk_commit (rng : nat -> Sample) (amount : R) (ranked : list Provider) :
  forall tr st tr' st',
    walk rng amount ranked tr st = Ok (tr', st') ->
    unchanged tr tr' st st' \/
    exists provider daily_sum,
      In provider ranked /\ commits amount provider daily_sum tr tr' st st'.
Proof.
  induction ranked as [| p rest IH]; intros tr st tr' st' H; simpl in H.
  - injection H as <- <-. left. repeat split; reflexivity.
  - bind_inv H as a Ha. destruct a as [tr1 st1]. simpl in H.
    pose proof (walk_route _ _ _ _ _ _ _ H) as (tried & Eroute & _).
    apply attempt_outcome, outcome_commit in Ha.
    destruct (IH _ _ _ _ H) as [U2 | (q & d2 & Hq & C2)];
      destruct Ha as [U1 | (d1 & C1)].
    + left. destruct U1 as (A1 & A2 & A3 & A4), U2 as (B1 & B2 & B3 & B4).
      repeat split; congruence.
    + right. exists p, d1. split; [left; reflexivity |].
      destruct U2 as (B1 & B2 & B3 & B4).
      destruct C1 as (K1 & K2 & K3 & K4 & K5 & K6 & K7 & K8 & K9 & K10).
      unfold commits. repeat split; try assumption; try congruence; try apply K1.
      rewrite Eroute. apply in_or_app. left. exact K10.
    + right. exists q, d2. split; [right; exact Hq |].
      destruct U1 as (A1 & A2 & A3 & A4).
      destruct C2 as (K1 & K2 & K3 & K4 & K5 & K6 & K7 & K8 & K9 & K10).
      unfold commits. repeat split; try assumption; try congruence; try apply K1.
    + exfalso.
      destruct C1 as (_ & _ & _ & _ & _ & _ & K7 & _).
      destruct C2 as (_ & _ & _ & _ & _ & K6 & _). congruence.
Qed.

Lemma Rsum_acc (l : list R) (a : R) : fold_left Rplus l a = a + Rsum l.
Proof.
  unfold Rsum. revert a. induction l as [| x l IH]; intros a; simpl.
  - lra.
  - rewrite (IH (a + x)), (IH (0 + x)). lra.
Qed.

Lemma Rsum_cons (x : R) (l : list R) : Rsum (x :: l) = x + Rsum l.
Proof. unfold Rsum at 1. simpl. rewrite Rsum_acc. lra. Qed.

Lemma Rsum_nil : Rsum [] = 0.
Proof. reflexivity. Qed.

Lemma route_payment_row (rng : nat -> Sample) (providers : list Provider)
    (currency_rates : Rates) (pay : Payment) (st st' : State) (row : Row) :
  route_payment rng providers currency_rates pay st = Ok (row, st') ->
  exists ranked tr,
    sorted_providers providers (eventTimeRes pay) (cur pay) = Ok ranked /\
    Permutation ranked (filtered_providers providers (eventTimeRes pay) (cur pay)) /\
    walk rng (converted currency_rates pay) ranked start st = Ok (tr, st') /\
    row = finish pay (converted currency_rates pay) tr.
Proof.
  unfold route_payment. intros H. bind_inv H as ranked Hranked.
  bind_inv H as a Ha. destruct a as [tr st1]. simpl in H. injection H as <- <-.
  exists ranked, tr. split; [exact Hranked |]. split; [| split; [exact Ha | reflexivity]].
  destruct (filtered_providers providers (eventTimeRes pay) (cur pay)) eqn:E.
  - rewrite (sorted_providers_empty _ _ _ E) in Hranked. discriminate.
  - destruct (sorted_providers_Ok providers (eventTimeRes pay) (cur pay))
      as (l' & E' & Hperm); [rewrite E; discriminate |].
    rewrite E' in Hranked. injection Hranked as <-. rewrite <- E. exact Hperm.
Qed.

(** One payment moves the sum of one provider at most, by the payment's amount
    and never beyond that row's daily limit. *)
Lemma route_payment_sums (rng : nat -> Sample) (providers : list Provider)
    (currency_rates : Rates) (pay : Payment) (st st' : State) (row : Row)
    (id : string) (v : R) :
  route_payment rng providers currency_rates pay st = Ok (row, st') ->
  dict_get (provider_daily_sums st) id = Some v ->
  (committed_by id row = false /\ dict_get (provider_daily_sums st') id = Some v) \/
  (committed_by id row = true /\
   dict_get (provider_daily_sums st') id = Some (v + converted currency_rates pay) /\
   exists p, In p providers /\ ID p = id /\
             v + converted currency_rates pay <= LIMIT_MAX p).
Proof.
  intros H Hv. apply route_payment_row in H.
  destruct H as (ranked & tr & _ & Hperm & Hwalk & ->).
  unfold committed_by. simpl.
  apply walk_commit in Hwalk.
  destruct Hwalk as [(U1 & _ & U3 & _) | (p & d & Hp & C)].
  - left. rewrite U3, U1. simpl. split; [reflexivity | exact Hv].
  - destruct C as (K1 & K2 & K3 & K4 & K5 & K6 & K7 & K8 & K9 & K10).
    rewrite K8, K5. destruct (String.eqb_spec (ID p) id) as [E | E].
    + right. subst id. rewrite K2 in Hv. injection Hv as <-.
      split; [reflexivity |]. split; [apply dict_get_set_same |].
      exists p. split; [| split; [reflexivity | exact K4]].
      apply (Permutation_in _ Hperm), filtered_providers_In in Hp. apply Hp.
    + left. split; [reflexivity |]. rewrite dict_get_set_other by exact E. exact Hv.
Qed.

Lemma route_payments_app (rng : nat -> Sample) (providers : list Provider)
    (currency_rates : Rates) (l1 l2 : list Payment) :
  forall st rows st2,
    route_payments rng providers currency_rates (l1 ++ l2) st = Ok (rows, st2) ->
    exists rows1 st1 rows2,
      route_payments rng providers currency_rates l1 st = Ok (rows1, st1) /\
      route_payments rng providers currency_rates l2 st1 = Ok (rows2, st2) /\
      rows = rows1 ++ rows2.
Proof.
  induction l1 as [| pay l1 IH]; intros st rows st2 H; simpl in *.
  - exists [], st, rows. repeat split. exact H.
  - bind_inv H as a Hrow. destruct a as [row st']. simpl in H. bind_inv H as a Ha.
    destruct a as [rows' st'']. simpl in H. injection H as <- <-.
    destruct (IH _ _ _ Ha) as (rows1 & st1 & rows2 & E1 & E2 & ->).
    exists (row :: rows1), st1, rows2. rewrite Hrow. simpl. rewrite E1. simpl.
    repeat split. exact E2.
Qed.

(** Over a run of payments a provider's sum grows by exactly what the rows
    record as committed by it, and a sum that moved is within the daily limit
    of a row of that provider. *)
Lemma route_payments_sums (rng : nat -> Sample) (providers : list Provider)
    (currency_rates : Rates) (id : string) (payments : list Payment) :
  forall st rows st' v,
    route_payments rng providers currency_rates payments st = Ok (rows, st') ->
    dict_get (provider_daily_sums st) id = Some v ->
    dict_get (provider_daily_sums st') id
      = Some (v + committed_amount currency_rates id rows) /\
    (Forall (fun row => committed_by id row = false) rows \/
     exists p, In p providers /\ ID p = id /\
               v + committed_amount currency_rates id rows <= LIMIT_MAX p).
Proof.
  induction payments as [| pay rest IH]; intros st rows st' v H Hv; simpl in H.
  - injection H as <- <-. unfold committed_amount. simpl. rewrite Rsum_nil, Rplus_0_r.
    split; [exact Hv | left; constructor].
  - bind_inv H as a Hrow. destruct a as [row st1]. simpl in H. bind_inv H as a Ha.
    destruct a as [rows1 st2]. simpl in H. injection H as <- <-.
    destruct (route_payment_sums _ _ _ _ _ _ _ id v Hrow Hv)
      as [[Hc Hv1] | (Hc & Hv1 & p & Hp & Hid & Hle)];
      destruct (IH _ _ _ _ Ha Hv1) as [Hv2 Hb];
      pose proof (route_payment_row _ _ _ _ _ _ _ Hrow) as (rk & tr0 & _ & _ & _ & Erow);
      assert (Epay : payment row = pay) by (rewrite Erow; reflexivity);
      unfold committed_amount in *; simpl; rewrite Hc; simpl.
    + split; [exact Hv2 |]. destruct Hb as [Hb | Hb]; [left | right; exact Hb].
      constructor; assumption.
    + rewrite Rsum_cons, Epay. rewrite Rplus_assoc in Hv2. split; [exact Hv2 |].
      right. destruct Hb as [Hb | (q & Hq & Hqid & Hqle)].
      * exists p. split; [exact Hp |]. split; [exact Hid |].
        assert (E0 : filter (committed_by id) rows1 = []).
        { clear - Hb. induction Hb as [| r l Hr _ IHl]; simpl; [reflexivity |].
          rewrite Hr. exact IHl. }
        rewrite E0. simpl. rewrite Rsum_nil. lra.
      * exists q. split; [exact Hq |]. split; [exact Hqid |]. lra.
Qed.

Lemma route_payments_payment (rng : nat -> Sample) (providers : list Provider)
    (currency_rates : Rates) (payments : list Payment) :
  forall st rows st',
    route_payments rng providers currency_rates payments st = Ok (rows, st') ->
    map payment rows = payments.
Proof.
  induction payments as [| pay rest IH]; intros st rows st' H; simpl in H.
  - injection H as <- <-. reflexivity.
  - bind_inv H as a Hrow. destruct a as [row st1]. simpl in H. bind_inv H as a Ha.
    destruct a as [rows1 st2]. simpl in H. injection H as <- <-.
    apply route_payment_row in Hrow. destruct Hrow as (rk & tr & _ & _ & _ & ->).
    simpl. f_equal. exact (IH _ _ _ Ha).
Qed.

Lemma committed_amount_nonneg (currency_rates : Rates) (id : string) (rows : list Row) :
  (forall row, In row rows -> 0 <= converted currency_rates (payment row)) ->
  0 <= committed_amount currency_rates id rows.
Proof.
  unfold committed_amount. induction rows as [| row rows IH]; intros H; simpl.
  - rewrite Rsum_nil. lra.
  - assert (IH' : 0 <= Rsum (map (fun row => converted currency_rates (payment row))
                                 (filter (committed_by id) rows)))
      by (apply IH; intros r Hr; apply H; right; exact Hr).
    destruct (committed_by id row); simpl; [| exact IH'].
    rewrite Rsum_cons. specialize (H row (or_introl eq_refl)). lra.
Qed.

Lemma committed_amount_none (currency_rates : Rates) (id : string) (rows : list Row) :
  Forall (fun row => committed_by id row = false) rows ->
  committed_amount currency_rates id rows = 0.
Proof.
  unfold committed_amount. induction 1 as [| row rows Hrow _ IH]; simpl.
  - reflexivity.
  - rewrite Hrow. exact IH.
Qed.

Lemma convert_ID (providers : list Provider) (currency_rates : Rates) :
  map ID (convert providers currency_rates) = map ID providers.
Proof. unfold convert. rewrite map_map. reflexivity. Qed.

(** ** Payments with a single eligible row *)

Lemma route_payment_single (rng : nat -> Sample) (providers : list Provider)
    (currency_rates : Rates) (pay : Payment) (st : State) (p : Provider) :
  filtered_providers providers (eventTimeRes pay) (cur pay) = [p] ->
  route_payment rng providers currency_rates pay st =
  do r <- attempt rng (converted currency_rates pay) p start st;
  Ok (finish pay (converted currency_rates pay) (fst r), snd r).
Proof.
  intros E. unfold route_payment. rewrite (sorted_providers_single _ _ _ _ E).
  simpl. destruct (attempt rng (converted currency_rates pay) p start st) as [[tr st'] | e];
    reflexivity.
Qed.

Lemma route_payment_single_outcome (rng : nat -> Sample) (providers : list Provider)
    (currency_rates : Rates) (pay : Payment) (st st' : State) (p : Provider)
    (tr' : Trail) :
  filtered_providers providers (eventTimeRes pay) (cur pay) = [p] ->
  0 <= CONVERSION p <= 1 ->
  outcome rng (converted currency_rates pay) p start st tr' st' ->
  route_payment rng providers currency_rates pay st =
  Ok (finish pay (converted currency_rates pay) tr', st').
Proof.
  intros E Hp H. rewrite (route_payment_single _ _ _ _ _ _ E).
  rewrite (outcome_attempt _ _ _ _ _ _ _ Hp H). reflexivity.
Qed.

(** ** Tables that need no conversion *)

Lemma transform_first_unique (f : Provider -> R) (providers : list Provider)
    (p : Provider) :
  NoDup (map ID providers) -> In p providers -> transform_first f providers p = f p.
Proof.
  unfold transform_first. intros Hnd Hin.
  induction providers as [| q rest IH]; simpl in *; [contradiction |].
  inversion Hnd as [| x l Hq Hrest]; subst.
  destruct Hin as [-> | Hin].
  - rewrite String.eqb_refl. reflexivity.
  - destruct (String.eqb_spec (ID q) (ID p)) as [E | E].
    + exfalso. apply Hq. rewrite E. apply in_map. exact Hin.
    + apply IH; assumption.
Qed.

Lemma convert_identity (providers : list Provider) (currency_rates : Rates) :
  NoDup (map ID providers) ->
  (forall p, In p providers -> currency_rates (CURRENCY p) = 1) ->
  convert providers currency_rates = providers.
Proof.
  intros Hnd Hrate. unfold convert.
  transitivity (map (fun p : Provider => p) providers); [| apply map_id].
  apply map_ext_in.
  intros p Hp. rewrite (Hrate p Hp), !transform_first_unique by assumption.
  destruct p; simpl. f_equal; lra.
Qed.

Lemma provider_P_table : convert [provider_P] rates1 = [provider_P].
Proof.
  apply convert_identity.
  - simpl. constructor; [intros [] | constructor].
  - intros p _. reflexivity.
Qed.

Lemma provider_Z_table : convert [provider_Z] rates1 = [provider_Z].
Proof.
  apply convert_identity.
  - simpl. constructor; [intros [] | constructor].
  - intros p _. reflexivity.
Qed.

Lemma firstn_short {A : Type} (l : list A) :
  (List.length l <= 10000)%nat -> firstn 10000 l = l.
Proof. apply firstn_all2. Qed.

Lemma mean_NaN (l : list R) : mean l = NaN <-> l = [].
Proof. destruct l; simpl; split; intros H; try reflexivity; discriminate. Qed.

Lemma filter_nil_iff {A : Type} (f : A -> bool) (l : list A) :
  filter f l = [] <-> Forall (fun x => f x = false) l.
Proof.
  induction l as [| a l IH]; simpl.
  - split; [constructor | reflexivity].
  - destruct (f a) eqn:E.
    + split; [discriminate | intros H; inversion H; congruence].
    + rewrite IH. split; [constructor; assumption | intros H; inversion H; assumption].
Qed.

Lemma payment_5000_run :
  process_transactions rng_half [payment_5000] [provider_P] rates1 = Ok summary_5000.
Proof.
  unfold process_transactions.
  rewrite !firstn_short by (apply Nat.leb_le; reflexivity).
  unfold optimize_routes. rewrite provider_P_table. simpl route_payments.
  rewrite (route_payment_single_outcome rng_half [provider_P] rates1 payment_5000
             (initial [provider_P]) (initial [provider_P]) provider_P start).
  - simpl. unfold Rgtb. rewrite !Rltb_false by lra. reflexivity.
  - reflexivity.
  - simpl. lra.
  - apply Skipped_bounds. right. unfold converted, rates1. simpl. lra.
Qed.

Lemma find_ID (providers : list Provider) (k : string) :
  In k (map ID providers) ->
  exists p, find (fun p => String.eqb (ID p) k) providers = Some p.
Proof.
  induction providers as [| q rest IH]; simpl; [contradiction |].
  intros H. destruct (String.eqb_spec (ID q) k) as [E | E]; [eauto |].
  apply IH. destruct H; [contradiction | assumption].
Qed.

Lemma penalties_ordered (providers : list Provider) (items : dict) :
  forall used all,
    (forall k, In k (keys items) -> In k (map ID providers)) ->
    0 <= used <= all ->
    exists used' all',
      penalties providers items used all = Ok (used', all') /\ 0 <= used' <= all'.
Proof.
  induction items as [| [provider_id daily_sum] rest IH]; intros used all Hkeys Hle;
    simpl.
  - eauto.
  - destruct (find_ID providers provider_id) as (p & ->).
    { apply Hkeys. left. reflexivity. }
    apply IH.
    + intros k Hk. apply Hkeys. right. exact Hk.
    + unfold Rgtb.
      destruct (Rltb_spec daily_sum (LIMIT_MIN p)) as [Hshort | Hshort];
        destruct (Rltb 0 daily_sum); simpl; lra.
Qed.

Lemma random_choice_ext (rng1 rng2 : nat -> Sample) (p : R) (st : State) :
  (forall i, sample (rng1 i) = sample (rng2 i)) ->
  random_choice rng1 p st = random_choice rng2 p st.
Proof. intros H. unfold random_choice. rewrite H. reflexivity. Qed.

Lemma attempt_ext (rng1 rng2 : nat -> Sample) (amount : R) (provider : Provider)
    (tr : Trail) (st : State) :
  (forall i, sample (rng1 i) = sample (rng2 i)) ->
  attempt rng1 amount provider tr st = attempt rng2 amount provider tr st.
Proof.
  intros H. unfold attempt.
  destruct (Rltb amount (MIN_SUM provider) || Rgtb amount (MAX_SUM provider));
    [reflexivity |].
  destruct (lookup (provider_daily_sums st) (ID provider)) as [daily_sum | e]; simpl;
    [| reflexivity].
  destruct (Rgeb daily_sum (LIMIT_MAX provider)); [reflexivity |].
  rewrite (random_choice_ext rng1 rng2 _ _ H). reflexivity.
Qed.

Lemma walk_ext (rng1 rng2 : nat -> Sample) (amount : R) (ranked : list Provider) :
  (forall i, sample (rng1 i) = sample (rng2 i)) ->
  forall tr st, walk rng1 amount ranked tr st = walk rng2 amount ranked tr st.
Proof.
  intros H. induction ranked as [| p rest IH]; intros tr st; simpl; [reflexivity |].
  rewrite (attempt_ext rng1 rng2 _ _ _ _ H).
  destruct (attempt rng2 amount p tr st) as [[tr1 st1] | e]; simpl;
    [apply IH | reflexivity].
Qed.

Lemma route_payments_ext (rng1 rng2 : nat -> Sample) (providers : list Provider)
    (currency_rates : Rates) (payments : list Payment) :
  (forall i, sample (rng1 i) = sample (rng2 i)) ->
  forall st,
    route_payments rng1 providers currency_rates payments st =
    route_payments rng2 providers currency_rates payments st.
Proof.
  intros H. induction payments as [| pay rest IH]; intros st; simpl; [reflexivity |].
  assert (E : route_payment rng1 providers currency_rates pay st
              = route_payment rng2 providers currency_rates pay st).
  { unfold route_payment.
    destruct (sorted_providers providers (eventTimeRes pay) (cur pay)) as [ranked | e];
      simpl; [| reflexivity].
    rewrite (walk_ext rng1 rng2 _ _ H). reflexivity. }
  rewrite E.
  destruct (route_payment rng2 providers currency_rates pay st) as [[row st1] | e];
    simpl; [| reflexivity].
  rewrite IH. reflexivity.
Qed.

Lemma run_60_30 :
  route_payments rng_half (convert [provider_P] rates1) rates1
                 ([payment_60] ++ [payment_30])
                 (initial (convert [provider_P] rates1))
  = Ok (rows_60_30, state_60_30).
Proof.
  rewrite provider_P_table. simpl route_payments.
  rewrite (route_payment_single_outcome rng_half [provider_P] rates1 payment_60
             (initial [provider_P])
             (credited (initial [provider_P]) provider_P (0 + converted rates1 payment_60))
             provider_P (committed start provider_P (converted rates1 payment_60))).
  2: reflexivity.
  2: simpl; lra.
  2: { apply Commit; unfold in_bounds, converted, rates1; simpl; try lra; reflexivity. }
  simpl bind.
  rewrite (route_payment_single_outcome rng_half [provider_P] rates1 payment_30
             (credited (initial [provider_P]) provider_P (0 + converted rates1 payment_60))
             state_60_30
             provider_P (committed start provider_P (converted rates1 payment_30))).
  2: reflexivity.
  2: simpl; lra.
  2: { apply Commit; unfold in_bounds, converted, rates1; simpl; try lra; reflexivity. }
  reflexivity.
Qed.

Lemma filter_twice {A : Type} (f g : A -> bool) (l : list A) :
  filter f (filter g l) = filter (fun x => g x && f x) l.
Proof.
  induction l as [| a l IH]; simpl; [reflexivity |].
  destruct (g a); simpl; [| exact IH].
  destruct (f a); [f_equal |]; exact IH.
Qed.

Lemma find_first_of_filter {A : Type} (g pred : A -> bool) (l l1 l2 : list A) (p : A) :
  filter g l = l1 ++ p :: l2 ->
  (forall q, In q l1 -> pred q = false) ->
  pred p = true ->
  (forall q, pred q = true -> g q = true) ->
  find pred l = Some p.
Proof.
  intros E H1 Hp Himp. revert l1 E H1.
  induction l as [| x l IH]; intros l1 E H1; simpl in *.
  - destruct l1; discriminate.
  - destruct (g x) eqn:Hg.
    + destruct l1 as [| y l1]; simpl in E; injection E as Ex El.
      * subst x. rewrite Hp. reflexivity.
      * subst y. rewrite (H1 x) by (left; reflexivity).
        apply (IH l1 El). intros q Hq. apply H1. right. exact Hq.
    + destruct (pred x) eqn:Hx.
      * rewrite (Himp x Hx) in Hg. discriminate.
      * apply (IH l1 E H1).
Qed.

Lemma group_keys_sorted (l : list Provider) :
  StronglySorted String_as_OT.lt (group_keys l).
Proof.
  unfold group_keys. induction (map ID l) as [| k ks IH]; simpl; [constructor |].
  revert IH. generalize (fold_right insert_key [] ks) as s. clear.
  induction s as [| h t IHs]; intros Hs; simpl.
  - repeat constructor.
  - inversion Hs as [| h' t' Ht Hh]; subst.
    destruct (String.compare k h) eqn:E.
    + exact Hs.
    + apply String_as_OT.cmp_lt in E. constructor; [exact Hs |].
      constructor; [exact E |].
      revert Hh. apply Forall_impl. intros x Hx.
      exact (String_as_OT.lt_trans _ _ _ E Hx).
    + constructor; [apply IHs; exact Ht |].
      apply Forall_forall. intros x Hx. apply insert_key_In in Hx.
      destruct Hx as [-> | Hx].
      * apply String_as_OT.cmp_lt. rewrite String.compare_antisym, E. reflexivity.
      * rewrite Forall_forall in Hh. apply Hh. exact Hx.
Qed.

Lemma group_keys_NoDup (l : list Provider) : NoDup (group_keys l).
Proof.
  induction (group_keys_sorted l) as [| h t Ht IH Hh]; constructor; [| exact IH].
  intros Hin. rewrite Forall_forall in Hh.
  exact (String_as_OT.lt_not_eq _ _ (Hh h Hin) eq_refl).
Qed.

Lemma idxmax_from_In (group : list Provider) (best : Provider) :
  In (idxmax_from best group) (best :: group).
Proof.
  destruct (idxmax_from_split group best) as (l1 & l2 & E & _).
  rewrite E. apply in_elt.
Qed.

Lemma latest_per_id_keys (df : list Provider) :
  map ID (latest_per_id df) = group_keys df.
Proof.
  unfold latest_per_id.
  assert (H : forall k, In k (group_keys df) -> In k (map ID df))
    by (intros k; apply group_keys_In).
  induction (group_keys df) as [| k ks IH]; simpl; [reflexivity |].
  rewrite map_app, IH by (intros k' Hk'; apply H; right; exact Hk').
  destruct (filter (fun p => String.eqb (ID p) k) df) as [| b g] eqn:E; simpl.
  - exfalso. assert (Hk : In k (map ID df)) by (apply H; left; reflexivity).
    apply in_map_iff in Hk. destruct Hk as (p & Hid & Hp).
    assert (Hin : In p (filter (fun p => String.eqb (ID p) k) df)).
    { apply filter_In. split; [exact Hp |]. apply String.eqb_eq. exact Hid. }
    rewrite E in Hin. exact Hin.
  - f_equal. pose proof (idxmax_from_In g b) as Hin. rewrite <- E in Hin.
    apply filter_In in Hin. apply String.eqb_eq, Hin.
Qed.

Lemma filtered_providers_row (providers : list Provider) (T : Z) (C : string)
    (p : Provider) :
  In p (filtered_providers providers T C) ->
  first_like T C p providers = Some p /\
  (forall q, In q providers -> candidate T C q = true -> ID q = ID p ->
             (TIME q <= TIME p)%Z).
Proof.
  intros Hin. pose proof (filtered_providers_In _ _ _ _ Hin) as (Hp & Ht & Hc).
  unfold filtered_providers in Hin. apply latest_per_id_In in Hin.
  destruct Hin as (l1 & l2 & E & H1 & H2). rewrite filter_twice in E.
  split.
  - unfold first_like. apply (find_first_of_filter _ _ _ _ _ _ E).
    + intros q Hq. specialize (H1 q Hq).
      destruct (Z.eqb_spec (TIME q) (TIME p)) as [Eq | _]; [lia |].
      apply andb_false_r.
    + unfold candidate. rewrite String.eqb_refl, Z.eqb_refl.
      rewrite (proj2 (Z.leb_le _ _) Ht), (proj2 (String.eqb_eq _ _) Hc). reflexivity.
    + intros q Hq. apply andb_true_iff in Hq. apply Hq.
  - intros q Hq Hcand Hid.
    assert (Hin : In q (l1 ++ p :: l2)).
    { rewrite <- E. apply filter_In. split; [exact Hq |].
      unfold candidate in Hcand. rewrite Hcand. simpl. apply String.eqb_eq. exact Hid. }
    apply in_app_or in Hin. destruct Hin as [Hin | [<- | Hin]].
    + apply Z.lt_le_incl, H1, Hin.
    + lia.
    + apply H2, Hin.
Qed.

Lemma filtered_providers_ids (providers : list Provider) (T : Z) (C : string)
    (id : string) :
  In id (map ID (filtered_providers providers T C)) <->
  exists q, In q providers /\ candidate T C q = true /\ ID q = id.
Proof.
  unfold filtered_providers. rewrite latest_per_id_keys, group_keys_In, in_map_iff.
  split; intros (q & H1 & H2).
  - apply filter_In in H2. exists q. tauto.
  - destruct H2 as [H2 H3]. exists q. split; [exact H3 |].
    apply filter_In. split; [exact H1 | exact H2].
Qed.

(** ** Distances and scores *)

Lemma fsum_NaN (l : list npfloat) : fold_left fadd l NaN = NaN.
Proof. induction l as [| a l IH]; simpl; [reflexivity | exact IH]. Qed.

Lemma distance_nonneg (row v : list npfloat) (d : R) :
  distance row v = Fin d -> 0 <= d.
Proof.
  unfold distance. destruct (fsum _) as [x |]; simpl; [| discriminate].
  intros [= <-]. apply sqrt_pos.
Qed.

(** The divisor of the score is zero only when both distances are. *)
Lemma distances_zero (row good bad : list npfloat) (dg db : R) :
  distance row good = Fin dg -> distance row bad = Fin db ->
  dg + db = 0 -> db = 0.
Proof.
  intros Hg Hb E. apply distance_nonneg in Hg, Hb. lra.
Qed.

Lemma closeness_range (row good bad : list npfloat) (s : R) :
  closeness row good bad = Fin s -> 0 <= s <= 1.
Proof.
  unfold closeness.
  destruct (distance row good) as [dg |] eqn:Hg;
    destruct (distance row bad) as [db |] eqn:Hb; simpl; try discriminate.
  apply distance_nonneg in Hg, Hb.
  unfold Reqb. destruct (Req_dec_T (dg + db) 0) as [E | E]; [discriminate |].
  intros [= <-].
  assert (Hpos : 0 < dg + db) by lra.
  split.
  - apply Rmult_le_pos; [exact Hb |]. apply Rlt_le, Rinv_0_lt_compat, Hpos.
  - apply (Rmult_le_reg_r (dg + db)); [exact Hpos |].
    unfold Rdiv. rewrite Rmult_assoc, Rinv_l by exact E. lra.
Qed.

Lemma fsum_self_differences (row : list npfloat) :
  forall a x,
    fold_left fadd (map fsqr (map2 fsub row row)) (Fin a) = Fin x -> x = a.
Proof.
  unfold map2. induction row as [| e row IH]; intros a x H; simpl in H.
  - injection H as <-. reflexivity.
  - destruct e as [v |]; simpl in H.
    + apply IH in H. rewrite H. ring.
    + rewrite fsum_NaN in H. discriminate.
Qed.

Lemma distance_self (row : list npfloat) (d : R) :
  distance row row = Fin d -> d = 0.
Proof.
  unfold distance, fsum.
  destruct (fold_left fadd _ _) as [x |] eqn:E; simpl; [| discriminate].
  apply fsum_self_differences in E. subst x. intros [= <-]. apply sqrt_0.
Qed.

Lemma closeness_ideal (row bad : list npfloat) (d : R) :
  distance row row = Fin 0 -> distance row bad = Fin d -> d <> 0 ->
  closeness row row bad = Fin 1.
Proof.
  intros H0 Hd Hne. unfold closeness. rewrite H0, Hd. simpl.
  rewrite Reqb_false by lra. f_equal. field. lra.
Qed.

Lemma closeness_anti_ideal (row good : list npfloat) (d : R) :
  distance row row = Fin 0 -> distance row good = Fin d -> d <> 0 ->
  closeness row good row = Fin 0.
Proof.
  intros H0 Hd Hne. unfold closeness. rewrite H0, Hd. simpl.
  rewrite Reqb_false by lra. f_equal. field. lra.
Qed.

Lemma closeness_degenerate (row good bad : list npfloat) :
  distance row good = Fin 0 -> distance row bad = Fin 0 ->
  closeness row good bad = NaN.
Proof.
  intros Hg Hb. unfold closeness. rewrite Hg, Hb. simpl.
  rewrite Reqb_true by lra. reflexivity.
Qed.

Lemma closeness_self (row : list npfloat) : closeness row row row = NaN.
Proof.
  destruct (distance row row) as [d |] eqn:E.
  - pose proof (distance_self _ _ E) as ->. apply closeness_degenerate; exact E.
  - unfold closeness. rewrite E. reflexivity.
Qed.

(** A provider ranked alone is its own ideal and anti-ideal. *)
Lemma topsis_single (p : Provider) :
  topsis [p] criterions weights marks = Ok [(p, NaN)].
Proof.
  unfold topsis. simpl. unfold rank_providers, calculate_distances. simpl.
  rewrite closeness_self. reflexivity.
Qed.

Lemma nth_map2 {A B C : Type} (f : A -> B -> C) (u : list A) (v : list B)
    (j : nat) (a : A) (b : B) (c : C) :
  (j < List.length u)%nat -> (j < List.length v)%nat ->
  nth j (map2 f u v) c = f (nth j u a) (nth j v b).
Proof.
  unfold map2. revert v j. induction u as [| x u IH]; intros [| y v] [| j] Hu Hv;
    simpl in *; try lia; [reflexivity |].
  apply IH; lia.
Qed.

Lemma sum_axis0_nth (n j : nat) (matrix : list (list R)) :
  (forall row, In row matrix -> List.length row = n) -> (j < n)%nat ->
  forall acc, List.length acc = n ->
    nth j (fold_left (map2 Rplus) matrix acc) 0
    = nth j acc 0 + Rsum (map (fun row => nth j row 0) matrix).
Proof.
  intros Hrows Hj. induction matrix as [| row matrix IH]; intros acc Hacc; simpl.
  - rewrite Rsum_nil. lra.
  - rewrite Rsum_cons, IH.
    + rewrite (nth_map2 Rplus acc row j 0 0 0); [lra | lia |].
      rewrite (Hrows row) by (left; reflexivity). exact Hj.
    + intros r Hr. apply Hrows. right. exact Hr.
    + rewrite map2_length, Hacc, (Hrows row) by (left; reflexivity). apply Nat.min_id.
Qed.

Lemma Rsum_squares_zero (l : list R) :
  Rsum (map Rsqr l) = 0 -> forall x, In x l -> x = 0.
Proof.
  induction l as [| a l IH]; simpl; [intros _ x [] |].
  rewrite Rsum_cons. intros H x Hx.
  assert (Hl : 0 <= Rsum (map Rsqr l)).
  { clear. induction l as [| b l IH]; simpl; [rewrite Rsum_nil; lra |].
    rewrite Rsum_cons. pose proof (Rle_0_sqr b). lra. }
  pose proof (Rle_0_sqr a) as Ha.
  destruct Hx as [<- | Hx].
  - apply Rsqr_0_uniq. lra.
  - apply IH; [lra | exact Hx].
Qed.

(** The divisor of the normalisation is zero only when the whole column is. *)
Lemma norm_zero_entry (n j : nat) (matrix : list (list R)) (row : list R) :
  (forall r, In r matrix -> List.length r = n) -> (j < n)%nat ->
  In row matrix ->
  nth j (map sqrt (sum_axis0 n (map (map Rsqr) matrix))) 0 = 0 ->
  nth j row 0 = 0.
Proof.
  intros Hrows Hj Hrow H.
  assert (Hsq : forall r, In r (map (map Rsqr) matrix) -> List.length r = n).
  { intros r Hr. apply in_map_iff in Hr. destruct Hr as (r0 & <- & Hr0).
    rewrite length_map. apply Hrows, Hr0. }
  assert (Hlen : List.length (sum_axis0 n (map (map Rsqr) matrix)) = n)
    by (apply sum_axis0_length, Hsq).
  rewrite <- sqrt_0 in H at 1.
  rewrite (map_nth sqrt) in H.
  unfold sum_axis0 in H.
  rewrite (sum_axis0_nth n j _ Hsq Hj) in H by apply repeat_length.
  rewrite nth_repeat, Rplus_0_l, map_map in H.
  assert (E : map (fun r => nth j (map Rsqr r) 0) matrix
              = map Rsqr (map (fun r => nth j r 0) matrix)).
  { rewrite map_map. apply map_ext. intros r.
    rewrite <- Rsqr_0 at 1. apply map_nth. }
  rewrite E in H.
  assert (Hnn : 0 <= Rsum (map Rsqr (map (fun r => nth j r 0) matrix))).
  { generalize (map (fun r => nth j r 0) matrix). intros l.
    induction l as [| b l IH]; simpl; [rewrite Rsum_nil; lra |].
    rewrite Rsum_cons. pose proof (Rle_0_sqr b). lra. }
  apply sqrt_eq_0 in H; [| exact Hnn].
  apply (Rsum_squares_zero _ H). apply (in_map (fun r => nth j r 0)). exact Hrow.
Qed.

(** ** Ranking two providers *)

Lemma Rdiv_le_cross (a b c d : R) :
  0 < b -> 0 < d -> a * d <= c * b -> a / b <= c / d.
Proof.
  intros Hb Hd H. apply (Rmult_le_reg_r (b * d)); [apply Rmult_lt_0_compat; assumption |].
  replace (a / b * (b * d)) with (a * d) by (field; lra).
  replace (c / d * (b * d)) with (c * b) by (field; lra).
  exact H.
Qed.

Lemma score_order (dgA dbA dgB dbB : R) :
  0 <= dgA <= dgB -> 0 <= dbB <= dbA -> 0 < dbA -> 0 < dgB ->
  dbB / (dgB + dbB) <= dbA / (dgA + dbA).
Proof.
  intros Hg Hb HA HB. apply Rdiv_le_cross; [lra | lra |].
  assert (H : dbB * dgA <= dbA * dgB).
  { apply Rmult_le_compat; lra. }
  lra.
Qed.

Lemma sort_two (sa sb : Scored) :
  precedes (topsis_score sb) (topsis_score sa) = false ->
  sort_values [sa; sb] = [sa; sb].
Proof. intros H. unfold sort_values. simpl. rewrite H. reflexivity. Qed.

(** Two weighted rows that agree on conversion, where the first has the lower
    commission and the gap in time is at most the gap in commission: the first
    row scores at least as high as the second, and both scores are numbers. *)
Lemma scores_two_rows (c a b x y : R) :
  a < b -> Rabs (x - y) <= b - a ->
  exists good bad sA sB,
    calculate_solutions [[Fin c; Fin a; Fin x]; [Fin c; Fin b; Fin y]] marks
      = Ok (good, bad) /\
    calculate_distances [[Fin c; Fin a; Fin x]; [Fin c; Fin b; Fin y]] good bad
      = [Fin sA; Fin sB] /\
    sB <= sA.
Proof.
  intros Hab Hxy.
  exists [Fin (Rmax c c); Fin (Rmin a b); Fin (Rmin x y)],
         [Fin (Rmin c c); Fin (Rmax a b); Fin (Rmax x y)].
  assert (Hmaxc : Rmax c c = c) by (apply Rmax_left; lra).
  assert (Hminc : Rmin c c = c) by (apply Rmin_left; lra).
  assert (Hmin : Rmin a b = a) by (apply Rmin_left; lra).
  assert (Hmax : Rmax a b = b) by (apply Rmax_right; lra).
  set (dgA := sqrt (0 + (c - Rmax c c) * (c - Rmax c c)
                      + (a - Rmin a b) * (a - Rmin a b)
                      + (x - Rmin x y) * (x - Rmin x y))).
  set (dbA := sqrt (0 + (c - Rmin c c) * (c - Rmin c c)
                      + (a - Rmax a b) * (a - Rmax a b)
                      + (x - Rmax x y) * (x - Rmax x y))).
  set (dgB := sqrt (0 + (c - Rmax c c) * (c - Rmax c c)
                      + (b - Rmin a b) * (b - Rmin a b)
                      + (y - Rmin x y) * (y - Rmin x y))).
  set (dbB := sqrt (0 + (c - Rmin c c) * (c - Rmin c c)
                      + (b - Rmax a b) * (b - Rmax a b)
                      + (y - Rmax x y) * (y - Rmax x y))).
  assert (Hsq : (x - y) * (x - y) <= (b - a) * (b - a)).
  { rewrite <- (Rabs_pos_eq (b - a)) in Hxy by lra.
    apply Rsqr_le_abs_1 in Hxy. exact Hxy. }
  assert (HgA : 0 <= dgA <= dgB).
  { split; [apply sqrt_pos |]. apply sqrt_le_1_alt.
    rewrite Hmaxc, Hmin.
    pose proof (Rle_0_sqr (b - a)) as S1. pose proof (Rle_0_sqr (y - x)) as S2.
    unfold Rsqr in S1, S2.
    unfold Rmin. destruct (Rle_dec x y);
      rewrite ?Rminus_diag, ?Rmult_0_l, ?Rplus_0_l, ?Rplus_0_r; [lra |].
    exact Hsq. }
  assert (HbB : 0 <= dbB <= dbA).
  { split; [apply sqrt_pos |]. apply sqrt_le_1_alt.
    rewrite Hminc, Hmax.
    pose proof (Rle_0_sqr (a - b)) as S1. pose proof (Rle_0_sqr (x - y)) as S2.
    unfold Rsqr in S1, S2.
    unfold Rmax. destruct (Rle_dec x y);
      rewrite ?Rminus_diag, ?Rmult_0_l, ?Rplus_0_l, ?Rplus_0_r; [lra |].
    replace ((y - x) * (y - x)) with ((x - y) * (x - y)) by ring.
    replace ((a - b) * (a - b)) with ((b - a) * (b - a)) by ring. exact Hsq. }
  assert (HA : 0 < dbA).
  { apply sqrt_lt_R0. rewrite Hminc, Hmax.
    assert (H1 : 0 < (a - b) * (a - b)) by nra.
    pose proof (Rle_0_sqr (x - Rmax x y)) as H2. unfold Rsqr in H2.
    rewrite Rminus_diag, Rmult_0_l, Rplus_0_l. lra. }
  assert (HB : 0 < dgB).
  { apply sqrt_lt_R0. rewrite Hmaxc, Hmin.
    assert (H1 : 0 < (b - a) * (b - a)) by nra.
    pose proof (Rle_0_sqr (y - Rmin x y)) as H2. unfold Rsqr in H2.
    rewrite Rminus_diag, Rmult_0_l, Rplus_0_l. lra. }
  exists (dbA / (dgA + dbA)), (dbB / (dgB + dbB)).
  split; [reflexivity |]. split.
  - unfold calculate_distances, closeness, distance, fsum, map2. simpl.
    fold dgA dbA dgB dbB.
    rewrite !Reqb_false by lra. reflexivity.
  - apply score_order; assumption.
Qed.

(** When the time column is all zero its normalised entries are NaN, and so is
    every score. *)
Lemma scores_two_rows_NaN (c a b : R) :
  exists good bad,
    calculate_solutions [[Fin c; Fin a; NaN]; [Fin c; Fin b; NaN]] marks
      = Ok (good, bad) /\
    calculate_distances [[Fin c; Fin a; NaN]; [Fin c; Fin b; NaN]] good bad
      = [NaN; NaN].
Proof.
  eexists. eexists. split; reflexivity.
Qed.

Lemma commission_norm : 0 < sqrt (0 + 0.01² + 0.05²) <= 0.12.
Proof.
  split.
  - apply sqrt_lt_R0. unfold Rsqr. lra.
  - rewrite <- (sqrt_Rsqr 0.12) by lra. apply sqrt_le_1_alt. unfold Rsqr. lra.
Qed.

Lemma time_gap (tA tB : R) :
  0 <= tA -> 0 <= tB -> Rabs (tA - tB) <= sqrt (0 + tA² + tB²).
Proof.
  intros HA HB. rewrite <- sqrt_Rsqr_abs. apply sqrt_le_1_alt. unfold Rsqr. nra.
Qed.

Lemma weighted_gap (p q w n : R) : p / n * w - q / n * w = (p - q) * w * / n.
Proof. unfold Rdiv. ring. Qed.

Lemma topsis_A_B (tA tB : R) :
  0 <= tA -> 0 <= tB ->
  exists sA sB,
    topsis [provider_A tA; provider_B tB] criterions weights marks
      = Ok [(provider_A tA, sA); (provider_B tB, sB)] /\
    precedes sB sA = false.
Proof.
  intros HA HB. unfold topsis.
  assert (Hm : exists sA sB good bad,
             calculate_solutions
               (normalize_matrix [provider_A tA; provider_B tB] criterions weights) marks
               = Ok (good, bad) /\
             calculate_distances
               (normalize_matrix [provider_A tA; provider_B tB] criterions weights)
               good bad = [sA; sB] /\
             precedes sB sA = false).
  { unfold normalize_matrix, criterions, weights, to_numpy, sum_axis0, map2. simpl.
    pose proof commission_norm as [Hn2 Hn2'].
    pose proof (time_gap tA tB HA HB) as Hgap.
    set (n1 := sqrt (0 + 1² + 1²)).
    set (n2 := sqrt (0 + 0.01² + 0.05²)) in *.
    set (n3 := sqrt (0 + tA² + tB²)) in *.
    assert (Hn1 : 0 < n1) by (apply sqrt_lt_R0; unfold Rsqr; lra).
    rewrite (Reqb_false n1), (Reqb_false n2) by lra. simpl.
    destruct (Req_dec_T n3 0) as [E3 | E3].
    - rewrite (Reqb_true n3) by exact E3. simpl.
      destruct (scores_two_rows_NaN (1 / n1 * 0.2) (0.01 / n2 * 0.6) (0.05 / n2 * 0.6))
        as (good & bad & Hs & Hd).
      exists NaN, NaN, good, bad. split; [exact Hs |]. split; [exact Hd | reflexivity].
    - rewrite (Reqb_false n3) by exact E3. simpl.
      assert (Hn3 : 0 < n3).
      { pose proof (sqrt_pos (0 + tA² + tB²)) as Hp. fold n3 in Hp. lra. }
      destruct (scores_two_rows (1 / n1 * 0.2) (0.01 / n2 * 0.6) (0.05 / n2 * 0.6)
                                (tA / n3 * 0.2) (tB / n3 * 0.2))
        as (good & bad & sA & sB & Hs & Hd & Hle).
      + apply Rmult_lt_compat_r; [lra |].
        apply Rmult_lt_compat_r; [apply Rinv_0_lt_compat; exact Hn2 | lra].
      + rewrite !weighted_gap.
        rewrite !Rabs_mult, (Rabs_pos_eq 0.2), (Rabs_pos_eq (/ n3))
          by (try lra; apply Rlt_le, Rinv_0_lt_compat; exact Hn3).
        assert (H1 : Rabs (tA - tB) * / n3 <= 1).
        { apply (Rmult_le_reg_r n3); [exact Hn3 |].
          rewrite Rmult_assoc, Rinv_l by lra. lra. }
        assert (H2 : 0.2 <= (0.05 - 0.01) * 0.6 * / n2).
        { apply (Rmult_le_reg_r n2); [exact Hn2 |].
          rewrite Rmult_assoc, Rinv_l by lra. lra. }
        lra.
      + exists (Fin sA), (Fin sB), good, bad.
        split; [exact Hs |]. split; [exact Hd |].
        simpl. unfold Rgtb. apply Rltb_false. exact Hle. }
  destruct Hm as (sA & sB & good & bad & Hs & Hd & Hprec).
  rewrite Hs. cbn [bind fst snd]. rewrite Hd. exists sA, sB. split; [| exact Hprec].
  unfold rank_providers. simpl combine. rewrite sort_two by exact Hprec. reflexivity.
Qed.

Lemma sorted_providers_A_B (tA tB : R) :
  0 <= tA -> 0 <= tB ->
  sorted_providers [provider_A tA; provider_B tB] 1 "USD"
  = Ok [provider_A tA; provider_B tB].
Proof.
  intros HA HB. unfold sorted_providers.
  change (filtered_providers [provider_A tA; provider_B tB] 1 "USD")
    with [provider_A tA; provider_B tB].
  destruct (topsis_A_B tA tB HA HB) as (sA & sB & -> & Hprec).
  simpl. unfold sort_values. simpl. rewrite Hprec. reflexivity.
Qed.

Lemma walk_cons (rng : nat -> Sample) (amount : R) (p : Provider)
    (rest : list Provider) (tr tr1 : Trail) (st st1 : State) :
  0 <= CONVERSION p <= 1 ->
  outcome rng amount p tr st tr1 st1 ->
  walk rng amount (p :: rest) tr st = walk rng amount rest tr1 st1.
Proof.
  intros Hp H. simpl. rewrite (outcome_attempt _ _ _ _ _ _ _ Hp H). reflexivity.
Qed.

Lemma providers_A_B_table (tA tB : R) :
  convert [provider_A tA; provider_B tB] rates1 = [provider_A tA; provider_B tB].
Proof.
  apply convert_identity.
  - simpl. constructor; [| constructor; [intros [] | constructor]].
    intros [H | []]. discriminate.
  - intros p _. reflexivity.
Qed.

(** The day of the 100-unit payment with A and B: A commits, B is appended. *)
Lemma optimize_routes_A_B (rng : nat -> Sample) (tA tB : R) :
  0 <= tA -> 0 <= tB ->
  optimize_routes rng [payment_100] [provider_A tA; provider_B tB] rates1
    = Ok ([{| payment := payment_100;
              flow := "A-B";
              Profit := 99;
              Processing_Time := tA;
              Successful_provider := Some "A"%string |}], 0, 0).
Proof.
  intros HA HB.
  unfold optimize_routes. rewrite providers_A_B_table.
  simpl route_payments. unfold route_payment.
  change (eventTimeRes payment_100) with 1%Z. change (cur payment_100) with "USD"%string.
  rewrite (sorted_providers_A_B tA tB HA HB). cbn [bind].
  set (a := converted rates1 payment_100).
  assert (Ea : a = 100) by (unfold a, converted, rates1; simpl; lra).
  set (st0 := initial [provider_A tA; provider_B tB]).
  rewrite (walk_cons rng a (provider_A tA) _ start
             (committed start (provider_A tA) a)
             st0 (credited st0 (provider_A tA) (0 + a))).
  2: simpl; lra.
  2: { apply Commit; unfold in_bounds; simpl; try lra; try reflexivity.
       apply sample_range. }
  rewrite (walk_cons rng a (provider_B tB) _ (committed start (provider_A tA) a)
             (append_route (committed start (provider_A tA) a) (ID (provider_B tB)))
             (credited st0 (provider_A tA) (0 + a))
             (drawn (credited st0 (provider_A tA) (0 + a)))).
  2: simpl; lra.
  2: { apply Success_after_commit with 0; unfold in_bounds; simpl; try lra;
         try reflexivity.
       apply sample_range. }
  simpl. unfold Rgtb. rewrite (Rltb_false (0 + a) 0), (Rltb_false 0 0) by lra.
  rewrite !andb_false_r. simpl. unfold finish. simpl.
  assert (E1 : a - (0 + a * 0.01) = 99) by lra.
  assert (E2 : 0 + tA = tA) by lra.
  rewrite E1, E2. reflexivity.
Qed.

(** ** When the day returns *)

Lemma attempt_total (rng : nat -> Sample) (amount : R) (provider : Provider)
    (tr : Trail) (st : State) :
  0 <= CONVERSION provider <= 1 ->
  In (ID provider) (keys (provider_daily_sums st)) ->
  exists tr' st',
    attempt rng amount provider tr st = Ok (tr', st') /\
    keys (provider_daily_sums st') = keys (provider_daily_sums st).
Proof.
  intros Hp Hkey. apply dict_get_keys in Hkey. destruct Hkey as [d Hd].
  unfold attempt, lookup, random_choice. rewrite Hd.
  destruct (Rltb amount (MIN_SUM provider) || Rgtb amount (MAX_SUM provider)); [eauto |].
  simpl. destruct (Rgeb d (LIMIT_MAX provider)); [eauto |].
  rewrite (Rltb_false (CONVERSION provider) 0), (Rltb_false (1 - CONVERSION provider) 0)
    by lra.
  simpl. destruct (Rltb (sample (rng (draws st))) (CONVERSION provider)); simpl; [| eauto].
  destruct (Rltb (LIMIT_MAX provider - d) amount); [eauto |].
  destruct (is_first tr); [| eauto].
  eexists. eexists. split; [reflexivity |]. simpl.
  apply keys_dict_set_present. apply dict_get_keys. eauto.
Qed.

Lemma walk_total (rng : nat -> Sample) (amount : R) (ranked : list Provider) :
  forall tr st,
    (forall p, In p ranked -> 0 <= CONVERSION p <= 1) ->
    (forall p, In p ranked -> In (ID p) (keys (provider_daily_sums st))) ->
    exists tr' st',
      walk rng amount ranked tr st = Ok (tr', st') /\
      keys (provider_daily_sums st') = keys (provider_daily_sums st).
Proof.
  induction ranked as [| p rest IH]; intros tr st Hconv Hkeys; simpl.
  - eauto.
  - destruct (attempt_total rng amount p tr st) as (tr1 & st1 & -> & K1).
    + apply Hconv. left. reflexivity.
    + apply Hkeys. left. reflexivity.
    + simpl. destruct (IH tr1 st1) as (tr2 & st2 & -> & K2).
      * intros q Hq. apply Hconv. right. exact Hq.
      * intros q Hq. rewrite K1. apply Hkeys. right. exact Hq.
      * exists tr2, st2. split; [reflexivity | congruence].
Qed.

Lemma route_payments_total (rng : nat -> Sample) (providers : list Provider)
    (currency_rates : Rates) (payments : list Payment) :
  (forall p, In p providers -> 0 <= CONVERSION p <= 1) ->
  (forall pay, In pay payments ->
               filtered_providers providers (eventTimeRes pay) (cur pay) <> []) ->
  forall st,
    (forall p, In p providers -> In (ID p) (keys (provider_daily_sums st))) ->
    exists rows st',
      route_payments rng providers currency_rates payments st = Ok (rows, st') /\
      keys (provider_daily_sums st') = keys (provider_daily_sums st).
Proof.
  intros Hconv. induction payments as [| pay rest IH]; intros Hcand st Hkeys; simpl.
  - eauto.
  - unfold route_payment.
    destruct (sorted_providers_Ok providers (eventTimeRes pay) (cur pay))
      as (ranked & -> & Hperm).
    { apply Hcand. left. reflexivity. }
    assert (Hin : forall p, In p ranked -> In p providers).
    { intros p Hp. apply (Permutation_in _ Hperm), filtered_providers_In in Hp. apply Hp. }
    destruct (walk_total rng (converted currency_rates pay) ranked start st)
      as (tr & st1 & Hwalk & K1).
    { intros p Hp. apply Hconv, Hin, Hp. }
    { intros p Hp. apply Hkeys, Hin, Hp. }
    cbn [bind]. rewrite Hwalk. cbn [bind fst snd].
    destruct (IH (fun pay' H => Hcand pay' (or_intror H)) st1) as (rows & st2 & -> & K2).
    { intros p Hp. rewrite K1. apply Hkeys, Hp. }
    cbn [bind fst snd]. eexists. eexists. split; [reflexivity | congruence].
Qed.

Lemma keys_initial (providers : list Provider) (k : string) :
  In k (keys (provider_daily_sums (initial providers))) <-> In k (map ID providers).
Proof. apply keys_dict_init. Qed.

(** ** The samples a run consumes *)

Lemma attempt_draws (rng : nat -> Sample) (amount : R) (provider : Provider)
    (tr tr' : Trail) (st st' : State) :
  attempt rng amount provider tr st = Ok (tr', st') ->
  (draws st <= draws st' <= S (draws st))%nat.
Proof.
  intros H. apply attempt_outcome, outcome_draws in H. lia.
Qed.

Lemma attempt_agree (rng1 rng2 : nat -> Sample) (amount : R) (provider : Provider)
    (tr tr' : Trail) (st st' : State) :
  attempt rng1 amount provider tr st = Ok (tr', st') ->
  ((draws st < draws st')%nat ->
   sample (rng1 (draws st)) = sample (rng2 (draws st))) ->
  attempt rng2 amount provider tr st = Ok (tr', st').
Proof.
  unfold attempt, random_choice.
  destruct (Rltb amount (MIN_SUM provider) || Rgtb amount (MAX_SUM provider));
    [intros H _; exact H |].
  destruct (lookup (provider_daily_sums st) (ID provider)) as [d | e]; simpl;
    [| intros H _; exact H].
  destruct (Rgeb d (LIMIT_MAX provider)); [intros H _; exact H |].
  destruct (Rltb (CONVERSION provider) 0 || Rltb (1 - CONVERSION provider) 0); simpl;
    [intros H _; exact H |].
  intros H Hagree.
  assert (E : sample (rng1 (draws st)) = sample (rng2 (draws st))).
  { apply Hagree.
    destruct (Rltb (sample (rng1 (draws st))) (CONVERSION provider)); simpl in H.
    - destruct (Rltb (LIMIT_MAX provider - d) amount);
        [injection H as _ <-; simpl; lia |].
      destruct (is_first tr); injection H as _ <-; simpl; lia.
    - injection H as _ <-. simpl. lia. }
  rewrite <- E. exact H.
Qed.

Lemma walk_agree (rng1 rng2 : nat -> Sample) (amount : R) (ranked : list Provider) :
  forall tr st tr' st',
    walk rng1 amount ranked tr st = Ok (tr', st') ->
    (forall i, (draws st <= i < draws st')%nat -> sample (rng1 i) = sample (rng2 i)) ->
    walk rng2 amount ranked tr st = Ok (tr', st').
Proof.
  induction ranked as [| p rest IH]; intros tr st tr' st' H Hagree; simpl in *.
  - exact H.
  - bind_inv H as a Ha. destruct a as [tr1 st1]. simpl in H.
    pose proof (attempt_draws _ _ _ _ _ _ _ Ha) as D1.
    pose proof (walk_draws _ _ _ _ _ _ _ H) as D2.
    rewrite (attempt_agree rng1 rng2 _ _ _ _ _ _ Ha).
    + simpl. apply (IH _ _ _ _ H). intros i Hi. apply Hagree. lia.
    + intros Hlt. apply Hagree. lia.
Qed.

Lemma route_payment_draws (rng : nat -> Sample) (providers : list Provider)
    (currency_rates : Rates) (pay : Payment) (st st' : State) (row : Row) :
  route_payment rng providers currency_rates pay st = Ok (row, st') ->
  (draws st <= draws st')%nat.
Proof.
  intros H. apply route_payment_row in H.
  destruct H as (ranked & tr & _ & _ & Hwalk & _).
  apply walk_draws in Hwalk. lia.
Qed.

Lemma route_payments_draws (rng : nat -> Sample) (providers : list Provider)
    (currency_rates : Rates) (payments : list Payment) :
  forall st rows st',
    route_payments rng providers currency_rates payments st = Ok (rows, st') ->
    (draws st <= draws st')%nat.
Proof.
  induction payments as [| pay rest IH]; intros st rows st' H; simpl in H.
  - injection H as _ <-. lia.
  - bind_inv H as a Hrow. destruct a as [row st1]. simpl in H. bind_inv H as b Hb.
    destruct b as [rows1 st2]. simpl in H. injection H as _ <-.
    apply route_payment_draws in Hrow. apply IH in Hb. lia.
Qed.

(** * The specified properties *)

(** C1.  The exit of the loop body taken when the draw succeeds but the
    remaining capacity [LIMIT_MAX - daily_sum] is below the amount (lines
    156-158): the average time is added while nothing has committed and the
    loop moves on, but the route is left as it was.  The identifier is not
    appended, unlike on a failed draw (lines 148-151). *)
Theorem C1_capacity_shortfall_not_recorded
    (rng : nat -> Sample) (amount : R) (provider : Provider) (tr : Trail)
    (st : State) (daily_sum : R) :
  0 <= CONVERSION provider <= 1 ->
  in_bounds amount provider ->
  dict_get (provider_daily_sums st) (ID provider) = Some daily_sum ->
  daily_sum < LIMIT_MAX provider ->
  sample (rng (draws st)) < CONVERSION provider ->
  LIMIT_MAX provider - daily_sum < amount ->
  attempt rng amount provider tr st = Ok (add_time tr provider, drawn st) /\
  route (add_time tr provider) = route tr /\
  total_processing_time (add_time tr provider) =
    (if is_first tr then total_processing_time tr + AVG_TIME provider
     else total_processing_time tr).
Proof.
  intros Hp Hb Hget Hlim Hs Hcap. split; [| split; reflexivity].
  apply outcome_attempt; [exact Hp |].
  apply No_capacity with daily_sum; assumption.
Qed.

(** The 150-unit payment against P, whose daily maximum is 100. *)
Lemma C1_witness :
  attempt rng_half 150 provider_P start (initial [provider_P])
    = Ok (add_time start provider_P, drawn (initial [provider_P])) /\
  route (add_time start provider_P) = [] /\
  total_processing_time (add_time start provider_P) = 0 + 5.
Proof.
  apply (C1_capacity_shortfall_not_recorded rng_half 150 provider_P start
           (initial [provider_P]) 0).
  - simpl. lra.
  - unfold in_bounds. simpl. lra.
  - reflexivity.
  - simpl. lra.
  - simpl. lra.
  - simpl. lra.
Defined.

(** C2 (amended).  The rows eligible for a payment with timestamp [T] and
    currency [C] are chosen among the candidates only, the rows of currency [C]
    not later than [T]: a row is kept exactly when it is the first row of the
    table among the candidates with its identifier and timestamp, and no
    candidate of its identifier is later.  One row is kept per identifier, and
    an identifier is kept as soon as it has one candidate row, also when its
    latest row is later than [T].  The filter on [T] that follows the ranking
    drops nothing: the ranked rows are the eligible rows, reordered. *)
Theorem C2_eligible_rows (providers : list Provider) (T : Z) (C : string) :
  (forall p,
      In p (filtered_providers providers T C) <->
      first_like T C p providers = Some p /\
      (forall q, In q providers -> candidate T C q = true -> ID q = ID p ->
                 (TIME q <= TIME p)%Z)) /\
  NoDup (map ID (filtered_providers providers T C)) /\
  (forall id,
      In id (map ID (filtered_providers providers T C)) <->
      exists q, In q providers /\ CURRENCY q = C /\ (TIME q <= T)%Z /\ ID q = id) /\
  (forall ranked,
      sorted_providers providers T C = Ok ranked ->
      Permutation ranked (filtered_providers providers T C)).
Proof.
  split; [| split; [| split]].
  - intros p. split; [apply filtered_providers_row |].
    intros [Hfirst Hmax].
    pose proof (find_some _ _ Hfirst) as [Hp Hpred].
    apply andb_true_iff in Hpred. destruct Hpred as [Hpred _].
    apply andb_true_iff in Hpred. destruct Hpred as [Hcand _].
    assert (Hid : In (ID p) (map ID (filtered_providers providers T C))).
    { apply filtered_providers_ids. exists p. auto. }
    apply in_map_iff in Hid. destruct Hid as (r & Hrid & Hr).
    pose proof (filtered_providers_In _ _ _ _ Hr) as (Hrp & Hrt & Hrc).
    pose proof (filtered_providers_row _ _ _ _ Hr) as [Hrfirst Hrmax].
    assert (Hrcand : candidate T C r = true).
    { unfold candidate. rewrite (proj2 (Z.leb_le _ _) Hrt).
      rewrite (proj2 (String.eqb_eq _ _) Hrc). reflexivity. }
    assert (Etime : TIME r = TIME p).
    { apply Z.le_antisymm.
      - apply Hmax; assumption.
      - apply Hrmax; [assumption | assumption | symmetry; assumption]. }
    unfold first_like in Hfirst, Hrfirst. rewrite Hrid, Etime in Hrfirst.
    rewrite Hrfirst in Hfirst. injection Hfirst as <-. exact Hr.
  - unfold filtered_providers. rewrite latest_per_id_keys. apply group_keys_NoDup.
  - intros id. rewrite filtered_providers_ids.
    split; intros (q & Hq & H).
    + destruct H as [Hcand Hid]. apply andb_true_iff in Hcand.
      exists q. split; [exact Hq |].
      split; [apply String.eqb_eq, Hcand |]. split; [apply Z.leb_le, Hcand | exact Hid].
    + destruct H as (Hc & Ht & Hid). exists q. split; [exact Hq |].
      split; [| exact Hid]. unfold candidate.
      rewrite (proj2 (Z.leb_le _ _) Ht), (proj2 (String.eqb_eq _ _) Hc). reflexivity.
  - intros ranked H.
    destruct (filtered_providers providers T C) eqn:E.
    + rewrite (sorted_providers_empty _ _ _ E) in H. discriminate.
    + destruct (sorted_providers_Ok providers T C) as (l' & E' & Hperm);
        [rewrite E; discriminate |].
      rewrite E' in H. injection H as <-. rewrite <- E. exact Hperm.
Qed.

(** C2 as stated fails: the specified selection drops Q, whose latest row
    postdates the payment, while the code keeps Q's earlier row and ranks it. *)
Lemma C2_counterexample :
  eligible_as_specified [provider_Q_early; provider_Q_late] 3 "USD" = [] /\
  filtered_providers [provider_Q_early; provider_Q_late] 3 "USD" = [provider_Q_early] /\
  sorted_providers [provider_Q_early; provider_Q_late] 3 "USD" = Ok [provider_Q_early].
Proof.
  split; [reflexivity |]. split; [reflexivity |].
  apply sorted_providers_single. reflexivity.
Qed.

(** C3 (amended).  A payment whose only eligible row [p] has conversion
    probability 0, with the amount within [p]'s bounds and [p]'s daily maximum
    not reached: the draw fails whatever the sample, the flow is [p]'s
    identifier, no successful provider is recorded, one average time is
    charged, and the profit is the whole converted amount (not 0), because the
    profit is written whenever the flow is a non-empty string. *)
Theorem C3_zero_conversion_single_provider
    (rng : nat -> Sample) (providers : list Provider) (currency_rates : Rates)
    (pay : Payment) (st : State) (p : Provider) (daily_sum : R) :
  filtered_providers providers (eventTimeRes pay) (cur pay) = [p] ->
  CONVERSION p = 0 ->
  in_bounds (converted currency_rates pay) p ->
  dict_get (provider_daily_sums st) (ID p) = Some daily_sum ->
  daily_sum < LIMIT_MAX p ->
  route_payment rng providers currency_rates pay st
    = Ok ({| payment := pay;
             flow := ID p;
             Profit := if String.eqb (ID p) "" then 0 else converted currency_rates pay;
             Processing_Time := AVG_TIME p;
             Successful_provider := None |},
          drawn st).
Proof.
  intros Hsingle Hconv Hb Hget Hlim.
  rewrite (route_payment_single_outcome rng providers currency_rates pay st (drawn st) p
             (append_route (add_time start p) (ID p)) Hsingle).
  - unfold finish. simpl. f_equal. f_equal. f_equal.
    + destruct (String.eqb (ID p) ""); [reflexivity | lra].
    + lra.
  - rewrite Hconv. lra.
  - apply Conversion_failed with daily_sum; try assumption.
    rewrite Hconv. apply sample_range.
Qed.

(** The 100-unit payment against Z, which never converts. *)
Lemma C3_witness :
  route_payment rng_half [provider_Z] rates1 payment_100 (initial [provider_Z])
    = Ok ({| payment := payment_100;
             flow := "Z";
             Profit := 100 * 1;
             Processing_Time := 5;
             Successful_provider := None |},
          drawn (initial [provider_Z])).
Proof.
  apply (C3_zero_conversion_single_provider rng_half [provider_Z] rates1 payment_100
           (initial [provider_Z]) provider_Z 0).
  - reflexivity.
  - reflexivity.
  - unfold in_bounds, converted, rates1. simpl. lra.
  - reflexivity.
  - simpl. lra.
Defined.

(** C3 as stated fails: the 100-unit payment routed to the never-converting
    provider Z ends with profit 100. *)
Lemma C3_counterexample :
  exists row,
    optimize_routes rng_half [payment_100] [provider_Z] rates1 = Ok ([row], 0, 0) /\
    flow row = "Z"%string /\
    Successful_provider row = None /\
    Profit row = 100 /\
    Profit row <> 0.
Proof.
  eexists. split.
  - unfold optimize_routes. rewrite provider_Z_table. simpl route_payments.
    rewrite (route_payment_single_outcome rng_half [provider_Z] rates1 payment_100
               (initial [provider_Z]) (drawn (initial [provider_Z])) provider_Z
               (append_route (add_time start provider_Z) (ID provider_Z))).
    + simpl. unfold Rgtb. rewrite !Rltb_false by lra. reflexivity.
    + reflexivity.
    + simpl. lra.
    + apply (Conversion_failed _ _ _ _ _ 0); unfold in_bounds, converted, rates1;
        simpl; try lra. reflexivity.
  - simpl. unfold converted, rates1. simpl. repeat split; try lra.
Qed.

(** C4 (amended).  Providers A (commission 0.01) and B (commission 0.05), both
    eligible for a 100-unit payment, whatever their non-negative average
    times: A is ranked first, A commits, the profit is 99 and the successful
    provider is A; but the loop goes on after the commit, B converts as well
    and is appended, so the flow is "A-B". *)
Theorem C4_low_commission_first_flow_continues
    (rng : nat -> Sample) (tA tB : R) :
  0 <= tA -> 0 <= tB ->
  sorted_providers [provider_A tA; provider_B tB] 1 "USD"
    = Ok [provider_A tA; provider_B tB] /\
  optimize_routes rng [payment_100] [provider_A tA; provider_B tB] rates1
    = Ok ([{| payment := payment_100;
              flow := "A-B";
              Profit := 99;
              Processing_Time := tA;
              Successful_provider := Some "A"%string |}], 0, 0).
Proof.
  intros HA HB. split.
  - apply sorted_providers_A_B; assumption.
  - apply optimize_routes_A_B; assumption.
Qed.

(** Both average times equal to 5. *)
Lemma C4_witness :
  sorted_providers [provider_A 5; provider_B 5] 1 "USD"
    = Ok [provider_A 5; provider_B 5] /\
  optimize_routes rng_half [payment_100] [provider_A 5; provider_B 5] rates1
    = Ok ([{| payment := payment_100;
              flow := "A-B";
              Profit := 99;
              Processing_Time := 5;
              Successful_provider := Some "A"%string |}], 0, 0).
Proof.
  apply (C4_low_commission_first_flow_continues rng_half 5 5); lra.
Defined.

(** C4 as stated fails: with equal average times the flow is "A-B", not "A". *)
Lemma C4_counterexample :
  exists row,
    optimize_routes rng_half [payment_100] [provider_A 5; provider_B 5] rates1
      = Ok ([row], 0, 0) /\
    flow row = "A-B"%string /\
    flow row <> "A"%string /\
    Profit row = 99 /\
    Successful_provider row = Some "A"%string.
Proof.
  assert (H5 : 0 <= 5) by lra.
  pose proof (optimize_routes_A_B rng_half 5 5 H5 H5) as H.
  eexists. split; [exact H |]. simpl.
  split; [reflexivity |]. split; [discriminate |]. split; reflexivity.
Qed.

(** C5.  On the doubles of the script, a provider with a daily maximum of
    14.85 and conversion 1.0 takes a payment of 4.46 and then one of 10.39.
    The headroom [14.85 - 4.46] of line 154 rounds to the double 10.39, which
    is not less than the amount, so the second payment commits as well; the
    sum [4.46 + 10.39] of line 164 rounds to 14.850000000000001, above the
    daily maximum. *)
Theorem C5_daily_sum_exceeds_daily_maximum :
  attempt64 provider_P64 true true 4.46 0 = 4.46%float /\
  (LIMIT_MAX64 provider_P64 - 4.46 <? 10.39)%float = false /\
  attempt64 provider_P64 true true 10.39 4.46 = 14.850000000000001%float /\
  (LIMIT_MAX64 provider_P64 <? 14.850000000000001)%float = true.
Proof.
  split; [| split; [| split]].
  - reflexivity.
  - reflexivity.
  - reflexivity.
  - reflexivity.
Qed.

(** C6.  A 150-unit payment meets the single provider P, whose daily maximum
    is 100.  P is attempted: a sample of the generator is consumed and P's
    average time is charged to the payment.  Yet the flow stays empty, so an
    attempted provider is missing from the flow. *)
Theorem C6_attempted_provider_missing_from_flow (rng : nat -> Sample) :
  route_payment rng [provider_P] rates1 payment_150 (initial [provider_P])
    = Ok ({| payment := payment_150;
             flow := "";
             Profit := 0;
             Processing_Time := 0 + 5;
             Successful_provider := None |},
          {| provider_daily_sums := [("P"%string, 0)]; draws := 1 |}) /\
  optimize_routes rng [payment_150] [provider_P] rates1
    = Ok ([{| payment := payment_150;
              flow := "";
              Profit := 0;
              Processing_Time := 0 + 5;
              Successful_provider := None |}], 0, 0).
Proof.
  assert (Hrow : route_payment rng [provider_P] rates1 payment_150 (initial [provider_P])
                 = Ok (finish payment_150 (converted rates1 payment_150)
                              (add_time start provider_P),
                       drawn (initial [provider_P]))).
  { apply route_payment_single_outcome with (p := provider_P).
    - reflexivity.
    - simpl. lra.
    - apply No_capacity with 0; unfold in_bounds, converted, rates1; simpl; try lra.
      + reflexivity.
      + apply sample_range. }
  split; [exact Hrow |].
  unfold optimize_routes. rewrite provider_P_table.
  simpl route_payments. rewrite Hrow. simpl.
  unfold Rgtb. rewrite !Rltb_false by lra. reflexivity.
Qed.

(** C7 (amended).  Every score that is a number lies in [0,1].  A row that
    equals the ideal vector (and holds no NaN) scores 1 when its distance to
    the anti-ideal vector is not zero, and a row that equals the anti-ideal
    vector scores 0 when its distance to the ideal vector is not zero.  When
    both distances are zero, as for a single provider, the score is NaN. *)
Theorem C7_scores_in_unit_interval_unless_NaN
    (matrix : list (list npfloat)) (good bad : list npfloat) :
  (forall s, In (Fin s) (calculate_distances matrix good bad) -> 0 <= s <= 1) /\
  (forall row d,
      In row matrix -> row = good -> distance row row = Fin 0 ->
      distance row bad = Fin d -> d <> 0 ->
      closeness row good bad = Fin 1) /\
  (forall row d,
      In row matrix -> row = bad -> distance row row = Fin 0 ->
      distance row good = Fin d -> d <> 0 ->
      closeness row good bad = Fin 0) /\
  (forall row,
      In row matrix -> distance row good = Fin 0 -> distance row bad = Fin 0 ->
      closeness row good bad = NaN).
Proof.
  split; [| split; [| split]].
  - intros s Hs. unfold calculate_distances in Hs.
    apply in_map_iff in Hs. destruct Hs as (row & Hrow & _).
    exact (closeness_range _ _ _ _ Hrow).
  - intros row d _ <- H0 Hd Hne. exact (closeness_ideal _ _ _ H0 Hd Hne).
  - intros row d _ <- H0 Hd Hne. exact (closeness_anti_ideal _ _ _ H0 Hd Hne).
  - intros row _ Hg Hb. exact (closeness_degenerate _ _ _ Hg Hb).
Qed.

(** C7 as stated fails: the only row of a one-row matrix equals the ideal
    vector, and its score is NaN, neither 1 nor within [0,1]. *)
Lemma C7_counterexample :
  calculate_solutions [[Fin 3; Fin 4]] ["max"%string; "min"%string]
    = Ok ([Fin 3; Fin 4], [Fin 3; Fin 4]) /\
  calculate_distances [[Fin 3; Fin 4]] [Fin 3; Fin 4] [Fin 3; Fin 4] = [NaN] /\
  topsis [provider_P] criterions weights marks = Ok [(provider_P, NaN)].
Proof.
  split; [reflexivity |]. split; [| apply topsis_single].
  unfold calculate_distances. simpl. rewrite closeness_self. reflexivity.
Qed.

(** C8.  For every final state of the daily sums whose keys are providers of
    the table (as the keys of [provider_daily_sums] are) and every choice of
    minimum limits, the penalty loop returns, and the penalty over the used
    providers is at most the penalty over all providers. *)
Theorem C8_penalty_used_le_all (providers : list Provider) (sums : dict) :
  (forall k, In k (keys sums) -> In k (map ID providers)) ->
  exists used all,
    penalties providers sums 0 0 = Ok (used, all) /\ 0 <= used <= all.
Proof.
  intros Hkeys. apply penalties_ordered; [exact Hkeys | lra].
Qed.

(** M is 300 short of its minimum of 500 and was used; P has no minimum. *)
Lemma C8_witness :
  exists used all,
    penalties [provider_M; provider_P] [("M"%string, 200); ("P"%string, 0)] 0 0
      = Ok (used, all) /\ 0 <= used <= all.
Proof.
  apply (C8_penalty_used_le_all [provider_M; provider_P]
           [("M"%string, 200); ("P"%string, 0)]).
  intros k H. simpl in *. tauto.
Defined.

(** C9.  Two runs of the day on the same tables whose generators yield the
    same sequence of samples return the same result: the same written flows,
    the same mean time, total profit and penalties, or the same exception. *)
Theorem C9_same_draws_same_results
    (rng1 rng2 : nat -> Sample) (trans : list Payment) (prov : list Provider)
    (exchange : Rates) :
  (forall i, sample (rng1 i) = sample (rng2 i)) ->
  process_transactions rng1 trans prov exchange
  = process_transactions rng2 trans prov exchange.
Proof.
  intros H. unfold process_transactions, optimize_routes.
  rewrite (route_payments_ext rng1 rng2 _ _ _ H). reflexivity.
Qed.

(** Two generators with the same samples. *)
Lemma C9_witness :
  process_transactions rng_half [payment_150; payment_5000] [provider_P] rates1
  = process_transactions (fun i => rng_half (S i)) [payment_150; payment_5000]
                         [provider_P] rates1.
Proof.
  apply (C9_same_draws_same_results rng_half (fun i => rng_half (S i))).
  intros i. reflexivity.
Defined.

(** C10.  When [process_transactions] returns, its mean time is NaN (the mean
    of an empty series, not zero) exactly when every written flow is empty:
    the mean ranges over the rows with a non-empty flow only. *)
Theorem C10_mean_time_undefined_without_flows
    (rng : nat -> Sample) (trans : list Payment) (prov : list Provider)
    (exchange : Rates) (s : Summary) :
  process_transactions rng trans prov exchange = Ok s ->
  (Forall (fun written => snd written = ""%string) (optimized_payments s)
   <-> time_mean s = NaN).
Proof.
  unfold process_transactions. intros H. bind_inv H as r Hr.
  injection H as <-. simpl.
  rewrite mean_NaN. rewrite Forall_map. simpl.
  split.
  - intros Hall. 
    assert (E : filter (fun row => negb (String.eqb (flow row) "")) (fst (fst r)) = []).
    { apply filter_nil_iff. revert Hall. apply Forall_impl. intros row ->. reflexivity. }
    rewrite E. reflexivity.
  - intros E. apply map_eq_nil in E. apply filter_nil_iff in E.
    revert E. apply Forall_impl. intros row Hrow.
    apply negb_false_iff, String.eqb_eq in Hrow. exact Hrow.
Qed.

(** The day whose only payment exceeds P's per-transaction maximum. *)
Lemma C10_witness :
  Forall (fun written => snd written = ""%string) (optimized_payments summary_5000)
  <-> time_mean summary_5000 = NaN.
Proof.
  exact (C10_mean_time_undefined_without_flows rng_half [payment_5000] [provider_P]
           rates1 summary_5000 payment_5000_run).
Defined.

(** * Further properties of the routing loop *)

(** The run over a batch, cut in two. *)
Lemma route_payments_cut (rng : nat -> Sample) (providers : list Provider)
    (currency_rates : Rates) (l1 l2 : list Payment) (st : State) :
  route_payments rng providers currency_rates (l1 ++ l2) st
  = do r1 <- route_payments rng providers currency_rates l1 st;
    do r2 <- route_payments rng providers currency_rates l2 (snd r1);
    Ok (fst r1 ++ fst r2, snd r2).
Proof.
  revert st. induction l1 as [| pay l1 IH]; intros st; simpl.
  - destruct (route_payments rng providers currency_rates l2 st) as [[rows st'] | e];
      reflexivity.
  - destruct (route_payment rng providers currency_rates pay st) as [[row st1] | e];
      [| reflexivity].
    cbn [bind fst snd]. rewrite IH.
    destruct (route_payments rng providers currency_rates l1 st1) as [[rows1 st2] | e];
      [| reflexivity].
    cbn [bind fst snd].
    destruct (route_payments rng providers currency_rates l2 st2) as [[rows2 st3] | e];
      reflexivity.
Qed.

(** X1.  A payment without any candidate row (no provider row of its currency
    at or before its timestamp), wherever it stands in the batch, leaves the
    day without a result: when the payments before it are routed, the ranking
    takes the maximum of an empty column and [optimize_routes] raises
    [ValueError] at that payment; otherwise it has raised before. *)
Theorem X1_no_candidate_row_raises
    (rng : nat -> Sample) (providers : list Provider) (currency_rates : Rates)
    (before : list Payment) (pay : Payment) (rest : list Payment) :
  filtered_providers (convert providers currency_rates) (eventTimeRes pay) (cur pay) = [] ->
  (forall rows st,
      route_payments rng (convert providers currency_rates) currency_rates before
                     (initial (convert providers currency_rates)) = Ok (rows, st) ->
      optimize_routes rng (before ++ pay :: rest) providers currency_rates
      = Raise ValueError) /\
  (exists e,
      optimize_routes rng (before ++ pay :: rest) providers currency_rates = Raise e).
Proof.
  intros E.
  assert (Hpay : forall st,
             route_payments rng (convert providers currency_rates) currency_rates
                            (pay :: rest) st = Raise ValueError).
  { intros st. simpl. unfold route_payment.
    rewrite (sorted_providers_empty _ _ _ E). reflexivity. }
  unfold optimize_routes. rewrite route_payments_cut.
  destruct (route_payments rng (convert providers currency_rates) currency_rates before
                           (initial (convert providers currency_rates)))
    as [[rows st] | e].
  - cbn [bind fst snd]. rewrite Hpay. cbn [bind].
    split; [intros rows' st' _; reflexivity | exists ValueError; reflexivity].
  - cbn [bind]. split; [intros rows st H; discriminate H | exists e; reflexivity].
Qed.

(** A payment in EUR while P serves USD only, after two payments that P has
    taken. *)
Lemma X1_no_candidate_row_raises_witness :
  optimize_routes rng_half (([payment_60] ++ [payment_30]) ++ payment_EUR :: [payment_150])
                  [provider_P] rates1
  = Raise ValueError.
Proof.
  assert (E : filtered_providers (convert [provider_P] rates1)
                                 (eventTimeRes payment_EUR) (cur payment_EUR) = []).
  { rewrite provider_P_table. reflexivity. }
  exact (proj1 (X1_no_candidate_row_raises rng_half [provider_P] rates1
                  ([payment_60] ++ [payment_30]) payment_EUR [payment_150] E)
               rows_60_30 state_60_30 run_60_30).
Defined.

(** X2.  When every conversion probability lies in [0,1] and every payment
    has a candidate row, [optimize_routes] returns: one row per payment, in
    order, and two penalties with [used <= all]. *)
Theorem X2_optimize_routes_returns
    (rng : nat -> Sample) (payments : list Payment) (providers : list Provider)
    (currency_rates : Rates) :
  (forall p, In p providers -> 0 <= CONVERSION p <= 1) ->
  (forall pay, In pay payments ->
               filtered_providers (convert providers currency_rates)
                                  (eventTimeRes pay) (cur pay) <> []) ->
  exists rows used all,
    optimize_routes rng payments providers currency_rates = Ok (rows, used, all) /\
    map payment rows = payments /\
    0 <= used <= all.
Proof.
  intros Hconv Hcand. unfold optimize_routes.
  set (ps := convert providers currency_rates) in *.
  destruct (route_payments_total rng ps currency_rates payments) with (st := initial ps)
    as (rows & st & Hrun & K).
  - intros p Hp. unfold ps, convert in Hp. apply in_map_iff in Hp.
    destruct Hp as (p0 & <- & Hp0). simpl. apply Hconv, Hp0.
  - exact Hcand.
  - intros p Hp. apply keys_initial. apply in_map. exact Hp.
  - rewrite Hrun. cbn [bind fst snd].
    destruct (penalties_ordered ps (provider_daily_sums st) 0 0) as (u & a & -> & Hle).
    + intros k Hk. rewrite K in Hk. apply keys_initial in Hk. exact Hk.
    + lra.
    + cbn [bind fst snd]. exists rows, u, a. split; [reflexivity |].
      split; [| exact Hle]. exact (route_payments_payment _ _ _ _ _ _ _ Hrun).
Qed.

(** Two USD payments against P. *)
Lemma X2_optimize_routes_returns_witness :
  exists rows used all,
    optimize_routes rng_half [payment_150; payment_5000] [provider_P] rates1
      = Ok (rows, used, all) /\
    map payment rows = [payment_150; payment_5000] /\
    0 <= used <= all.
Proof.
  apply (X2_optimize_routes_returns rng_half [payment_150; payment_5000] [provider_P] rates1).
  - intros p [<- | []]. simpl. lra.
  - intros pay [<- | [<- | []]]; rewrite provider_P_table; discriminate.
Defined.



(** X4.  A run of payments depends on the generator only through the samples
    it consumes: a second generator that agrees with the first on those
    samples leads to the same rows and the same final state. *)
Theorem X4_only_consumed_samples_matter
    (rng1 rng2 : nat -> Sample) (providers : list Provider) (currency_rates : Rates)
    (payments : list Payment) (st st' : State) (rows : list Row) :
  route_payments rng1 providers currency_rates payments st = Ok (rows, st') ->
  (forall i, (draws st <= i < draws st')%nat -> sample (rng1 i) = sample (rng2 i)) ->
  route_payments rng2 providers currency_rates payments st = Ok (rows, st').
Proof.
  revert st st' rows.
  induction payments as [| pay rest IH]; intros st st' rows H Hagree; simpl in *.
  - exact H.
  - bind_inv H as a Hrow. destruct a as [row st1]. simpl in H. bind_inv H as b Hb.
    destruct b as [rows1 st2]. simpl in H. injection H as <- <-.
    pose proof (route_payment_draws _ _ _ _ _ _ _ Hrow) as D1.
    pose proof (route_payments_draws _ _ _ _ _ _ _ Hb) as D2.
    assert (E : route_payment rng2 providers currency_rates pay st = Ok (row, st1)).
    { unfold route_payment in *.
      destruct (sorted_providers providers (eventTimeRes pay) (cur pay)) as [ranked | e];
        simpl in *; [| discriminate].
      bind_inv Hrow as c Hc. destruct c as [tr st1']. simpl in Hrow.
      injection Hrow as <- <-.
      rewrite (walk_agree rng1 rng2 _ _ _ _ _ _ Hc); [reflexivity |].
      intros i Hi. apply Hagree. lia. }
    rewrite E. simpl.
    rewrite (IH _ _ _ Hb); [reflexivity |].
    intros i Hi. apply Hagree. lia.
Qed.

(** P always converts, so the two payments consume two samples. *)
Lemma X4_only_consumed_samples_matter_witness :
  route_payments rng_half_twice (convert [provider_P] rates1) rates1
                 ([payment_60] ++ [payment_30])
                 (initial (convert [provider_P] rates1))
  = Ok (rows_60_30, state_60_30).
Proof.
  apply (X4_only_consumed_samples_matter rng_half rng_half_twice _ _ _ _ _ _ run_60_30).
  intros i Hi. unfold rng_half_twice.
  destruct (Nat.ltb_spec i 2) as [Hlt | Hge]; [reflexivity |].
  exfalso. rewrite provider_P_table in Hi. simpl in Hi. lia.
Defined.

(** * Further properties of the ranking *)

(** ** The order of the ranking *)

Lemma precedes_asym (a b : npfloat) : precedes a b = true -> precedes b a = false.
Proof.
  destruct a as [x |], b as [y |]; simpl; try reflexivity; try discriminate.
  unfold Rgtb. intros H. destruct (Rltb_spec y x) as [Hlt | _]; [| discriminate].
  apply Rltb_false. lra.
Qed.

Lemma precedes_false_trans (a b c : npfloat) :
  precedes b a = false -> precedes c b = false -> precedes c a = false.
Proof.
  destruct a as [x |], b as [y |], c as [z |]; simpl; try reflexivity; try discriminate.
  unfold Rgtb. intros H1 H2.
  destruct (Rltb_spec x y) as [| H1']; [discriminate |].
  destruct (Rltb_spec y z) as [| H2']; [discriminate |].
  apply Rltb_false. lra.
Qed.

Lemma insert_desc_sorted (s : Scored) (l : list Scored) :
  StronglySorted not_behind l -> StronglySorted not_behind (insert_desc s l).
Proof.
  induction l as [| t l IH]; intros Hl; simpl.
  - repeat constructor.
  - inversion Hl as [| t' l' Hsorted Hall]; subst.
    destruct (precedes (topsis_score t) (topsis_score s)) eqn:E.
    + constructor; [apply IH; exact Hsorted |].
      apply Forall_forall. intros x Hx.
      apply (Permutation_in _ (insert_desc_perm s l)) in Hx.
      destruct Hx as [<- | Hx].
      * unfold not_behind. apply precedes_asym. exact E.
      * rewrite Forall_forall in Hall. apply Hall. exact Hx.
    + constructor; [exact Hl |].
      constructor; [exact E |].
      revert Hall. apply Forall_impl. intros x Hx. unfold not_behind in *.
      exact (precedes_false_trans _ _ _ E Hx).
Qed.

Lemma sort_values_sorted (l : list Scored) : StronglySorted not_behind (sort_values l).
Proof.
  induction l as [| s l IH]; simpl; [constructor |].
  apply insert_desc_sorted. exact IH.
Qed.

Lemma sort_values_fixed (l : list Scored) :
  StronglySorted not_behind l -> sort_values l = l.
Proof.
  induction 1 as [| s l Hl IH Hall]; simpl; [reflexivity |].
  change (fold_right insert_desc [] l) with (sort_values l). rewrite IH.
  destruct l as [| t l']; simpl; [reflexivity |].
  inversion Hall as [| t' l'' Ht _]; subst. unfold not_behind in Ht.
  rewrite Ht. reflexivity.
Qed.

(** X5.  [rank_providers] reorders the scored rows and drops none; in its
    result a row never stands before a row with a higher score, and a row
    whose score is NaN never stands before a row with a number as score. *)
Theorem X5_ranking_sorted (providers : list Provider) (coef : list npfloat) :
  Permutation (rank_providers providers coef) (combine providers coef) /\
  StronglySorted not_behind (rank_providers providers coef) /\
  (forall front x back y,
      rank_providers providers coef = front ++ x :: back -> In y back ->
      match topsis_score x, topsis_score y with
      | Fin sx, Fin sy => sy <= sx
      | Fin _, NaN => True
      | NaN, Fin _ => False
      | NaN, NaN => True
      end).
Proof.
  unfold rank_providers. split; [apply sort_values_perm |].
  split; [apply sort_values_sorted |].
  intros front x back y E Hy.
  pose proof (sort_values_sorted (combine providers coef)) as Hs. rewrite E in Hs.
  assert (Hxy : not_behind x y).
  { clear E. induction front as [| f front IH]; simpl in Hs.
    - inversion Hs as [| a b _ Hall]; subst. rewrite Forall_forall in Hall.
      apply Hall. exact Hy.
    - inversion Hs; subst. apply IH. assumption. }
  unfold not_behind in Hxy.
  destruct (topsis_score x) as [sx |], (topsis_score y) as [sy |]; simpl in Hxy;
    try exact I; try discriminate.
  unfold Rgtb in Hxy. destruct (Rltb_spec sx sy); [discriminate | lra].
Qed.

Lemma second_pass_fixed (providers : list Provider) (T : Z) (C : string)
    (coef : list npfloat) :
  sort_values
    (filter (fun s => (TIME (fst s) <=? T)%Z)
            (rank_providers (filtered_providers providers T C) coef))
  = rank_providers (filtered_providers providers T C) coef.
Proof.
  rewrite filter_all.
  - apply sort_values_fixed. apply sort_values_sorted.
  - intros s Hs. apply Z.leb_le.
    assert (Hin : In (fst s) (filtered_providers providers T C)).
    { unfold rank_providers in Hs.
      apply (Permutation_in _ (sort_values_perm _)) in Hs.
      destruct s as [p sc]. apply in_combine_l in Hs. exact Hs. }
    apply filtered_providers_In in Hin. apply Hin.
Qed.

(** ** The weighted matrix of the three criteria *)

Lemma sum_axis0_three (f g h : Provider -> R) (providers : list Provider) :
  forall a b c,
    fold_left (map2 Rplus) (map (fun p => [f p; g p; h p]) providers) [a; b; c]
    = [fold_left Rplus (map f providers) a;
       fold_left Rplus (map g providers) b;
       fold_left Rplus (map h providers) c].
Proof.
  induction providers as [| p ps IH]; intros a b c; simpl; [reflexivity |].
  unfold map2 at 2. simpl. apply IH.
Qed.

Lemma normalize_matrix_three (providers : list Provider) :
  normalize_matrix providers criterions weights
  = map (fun p => [weighted CONVERSION 0.2 providers p;
                   weighted COMMISSION 0.6 providers p;
                   weighted AVG_TIME 0.2 providers p])
        providers.
Proof.
  unfold normalize_matrix, criterions, weights, to_numpy, sum_axis0.
  rewrite !map_map. simpl List.length. simpl repeat.
  change (map (fun x : Provider => map Rsqr (map (fun c => c x) [CONVERSION; COMMISSION; AVG_TIME]))
              providers)
    with (map (fun p => [Rsqr (CONVERSION p); Rsqr (COMMISSION p); Rsqr (AVG_TIME p)])
              providers).
  rewrite (sum_axis0_three (fun p => Rsqr (CONVERSION p)) (fun p => Rsqr (COMMISSION p))
             (fun p => Rsqr (AVG_TIME p))).
  apply map_ext. intros p. reflexivity.
Qed.

Lemma norm_zero (c : Provider -> R) (providers : list Provider) :
  norm c providers = 0 <-> forall p, In p providers -> c p = 0.
Proof.
  unfold norm.
  assert (Hnn : 0 <= Rsum (map (fun p => Rsqr (c p)) providers)).
  { induction providers as [| q ps IH]; simpl; [rewrite Rsum_nil; lra |].
    rewrite Rsum_cons. pose proof (Rle_0_sqr (c q)). lra. }
  split.
  - intros H p Hp. apply sqrt_eq_0 in H; [| exact Hnn].
    rewrite <- (map_map c Rsqr) in H.
    apply (Rsum_squares_zero _ H). apply in_map. exact Hp.
  - intros H.
    assert (E : map (fun p => Rsqr (c p)) providers = map (fun _ => 0) providers).
    { apply map_ext_in. intros p Hp. rewrite (H p Hp). apply Rsqr_0. }
    rewrite E.
    assert (E0 : Rsum (map (fun _ : Provider => 0) providers) = 0).
    { clear. induction providers as [| q ps IH]; simpl; [apply Rsum_nil |].
      rewrite Rsum_cons, IH. lra. }
    rewrite E0. apply sqrt_0.
Qed.

Lemma weighted_zero_column (c : Provider -> R) (w : R) (providers : list Provider)
    (p : Provider) :
  (forall q, In q providers -> c q = 0) -> weighted c w providers p = NaN.
Proof.
  intros H. unfold weighted. rewrite (proj2 (norm_zero c providers) H).
  simpl. rewrite Reqb_true by reflexivity. reflexivity.
Qed.

Lemma fsum_with_NaN (l : list npfloat) :
  In NaN l -> forall acc, fold_left fadd l acc = NaN.
Proof.
  induction l as [| a l IH]; intros Hin acc; simpl; [contradiction |].
  destruct Hin as [-> | Hin].
  - destruct acc; simpl; apply fsum_NaN.
  - apply IH. exact Hin.
Qed.

Lemma closeness_NaN_good (row good bad : list npfloat) :
  distance row good = NaN -> closeness row good bad = NaN.
Proof. intros H. unfold closeness. rewrite H. destruct (distance row bad); reflexivity. Qed.

Lemma calculate_solutions_three (matrix : list (list npfloat)) :
  matrix <> [] -> (forall row, In row matrix -> List.length row = 3%nat) ->
  exists c0 c1 c2 x0 x1 x2 l0 l1 l2,
    column 0 matrix = Ok c0 /\ column 1 matrix = Ok c1 /\ column 2 matrix = Ok c2 /\
    c0 = x0 :: l0 /\ c1 = x1 :: l1 /\ c2 = x2 :: l2 /\
    calculate_solutions matrix marks
    = Ok ([fold_left fmax l0 x0; fold_left fmin l1 x1; fold_left fmin l2 x2],
          [fold_left fmin l0 x0; fold_left fmax l1 x1; fold_left fmax l2 x2]).
Proof.
  intros Hne Hrows. unfold calculate_solutions, marks. simpl.
  destruct (column_Ok 0 3 matrix Hrows) as (c0 & E0 & L0); [lia |].
  destruct (column_Ok 1 3 matrix Hrows) as (c1 & E1 & L1); [lia |].
  destruct (column_Ok 2 3 matrix Hrows) as (c2 & E2 & L2); [lia |].
  destruct matrix as [| r m]; [contradiction |].
  destruct c0 as [| x0 l0]; [discriminate |]. destruct c1 as [| x1 l1]; [discriminate |].
  destruct c2 as [| x2 l2]; [discriminate |].
  exists (x0 :: l0), (x1 :: l1), (x2 :: l2), x0, x1, x2, l0, l1, l2.
  rewrite E0, E1, E2. simpl. repeat split; reflexivity.
Qed.

Lemma column_three (a b c : Provider -> npfloat) (providers : list Provider) :
  column 0 (map (fun p => [a p; b p; c p]) providers) = Ok (map a providers) /\
  column 1 (map (fun p => [a p; b p; c p]) providers) = Ok (map b providers) /\
  column 2 (map (fun p => [a p; b p; c p]) providers) = Ok (map c providers).
Proof.
  induction providers as [| p ps (IH0 & IH1 & IH2)]; simpl; [repeat split; reflexivity |].
  rewrite IH0, IH1, IH2. repeat split; reflexivity.
Qed.

Lemma flift2_fold_NaN (f : R -> R -> R) (l : list npfloat) :
  fold_left (flift2 f) l NaN = NaN.
Proof. induction l as [| a l IH]; simpl; [reflexivity | exact IH]. Qed.

Lemma distance_NaN_vector (row v : list npfloat) (j : nat) :
  nth_error v j = Some NaN -> (j < List.length row)%nat -> distance row v = NaN.
Proof.
  intros Hv Hj. unfold distance, fsum.
  rewrite fsum_with_NaN; [reflexivity |].
  apply in_map_iff. exists NaN. split; [reflexivity |].
  unfold map2. revert v j Hv Hj.
  induction row as [| r row IH]; intros [| y v] [| j] Hv Hj; simpl in *;
    try discriminate; try lia.
  - injection Hv as ->. left. destruct r; reflexivity.
  - right. apply (IH v j Hv). lia.
Qed.

(** When a criterion is zero for every ranked provider, every score is NaN. *)
Lemma scores_zero_column (providers : list Provider) (good bad : list npfloat) :
  providers <> [] ->
  (forall p, In p providers -> CONVERSION p = 0) \/
  (forall p, In p providers -> COMMISSION p = 0) \/
  (forall p, In p providers -> AVG_TIME p = 0) ->
  calculate_solutions (normalize_matrix providers criterions weights) marks
    = Ok (good, bad) ->
  calculate_distances (normalize_matrix providers criterions weights) good bad
    = map (fun _ => NaN) providers.
Proof.
  intros Hne Hzero Hs. rewrite normalize_matrix_three in *.
  set (a := weighted CONVERSION 0.2 providers) in *.
  set (b := weighted COMMISSION 0.6 providers) in *.
  set (c := weighted AVG_TIME 0.2 providers) in *.
  destruct (calculate_solutions_three (map (fun p => [a p; b p; c p]) providers))
    as (c0 & c1 & c2 & x0 & x1 & x2 & l0 & l1 & l2 & E0 & E1 & E2 & F0 & F1 & F2 & E).
  { destruct providers; [contradiction | discriminate]. }
  { intros row Hrow. apply in_map_iff in Hrow. destruct Hrow as (p & <- & _). reflexivity. }
  rewrite E in Hs. injection Hs as <- <-.
  destruct (column_three a b c providers) as (K0 & K1 & K2).
  rewrite K0 in E0. rewrite K1 in E1. rewrite K2 in E2.
  injection E0 as E0. injection E1 as E1. injection E2 as E2.
  assert (Hj : exists j, (j < 3)%nat /\
             nth_error [fold_left fmax l0 x0; fold_left fmin l1 x1; fold_left fmin l2 x2] j
             = Some NaN).
  { destruct Hzero as [Z | [Z | Z]].
    - exists 0%nat. split; [lia |]. simpl. f_equal.
      assert (Ec : c0 = map (fun _ => NaN) providers).
      { rewrite <- E0. apply map_ext_in. intros p Hp. apply weighted_zero_column, Z. }
      rewrite F0 in Ec. destruct providers as [| p ps]; [contradiction |].
      simpl in Ec. injection Ec as -> ->. apply flift2_fold_NaN.
    - exists 1%nat. split; [lia |]. simpl. f_equal.
      assert (Ec : c1 = map (fun _ => NaN) providers).
      { rewrite <- E1. apply map_ext_in. intros p Hp. apply weighted_zero_column, Z. }
      rewrite F1 in Ec. destruct providers as [| p ps]; [contradiction |].
      simpl in Ec. injection Ec as -> ->. apply flift2_fold_NaN.
    - exists 2%nat. split; [lia |]. simpl. f_equal.
      assert (Ec : c2 = map (fun _ => NaN) providers).
      { rewrite <- E2. apply map_ext_in. intros p Hp. apply weighted_zero_column, Z. }
      rewrite F2 in Ec. destruct providers as [| p ps]; [contradiction |].
      simpl in Ec. injection Ec as -> ->. apply flift2_fold_NaN. }
  destruct Hj as (j & Hj & Hnan).
  unfold calculate_distances. rewrite map_map. apply map_ext. intros p.
  apply closeness_NaN_good. apply (distance_NaN_vector _ _ j Hnan). simpl. exact Hj.
Qed.

Lemma sort_values_all_NaN (providers : list Provider) :
  sort_values (combine providers (map (fun _ => NaN) providers))
  = combine providers (map (fun _ => NaN) providers).
Proof.
  apply sort_values_fixed.
  induction providers as [| p ps IH]; simpl; constructor; [exact IH |].
  apply Forall_forall. intros [q s] Hq. apply in_combine_r in Hq.
  apply in_map_iff in Hq. destruct Hq as (_ & <- & _). reflexivity.
Qed.

Lemma providers_free_eligible :
  filtered_providers [provider_free_B; provider_free_A] 1 "USD"
  = [provider_free_A; provider_free_B].
Proof. reflexivity. Qed.

(** X7.  When one of the three criteria is zero for every eligible provider,
    the norm of its column is zero, every score is NaN, and the routing loop
    visits the eligible providers in ascending order of identifier. *)
Theorem X7_zero_criterion_ranks_by_identifier
    (providers : list Provider) (T : Z) (C : string) :
  filtered_providers providers T C <> [] ->
  (forall p, In p (filtered_providers providers T C) -> CONVERSION p = 0) \/
  (forall p, In p (filtered_providers providers T C) -> COMMISSION p = 0) \/
  (forall p, In p (filtered_providers providers T C) -> AVG_TIME p = 0) ->
  topsis (filtered_providers providers T C) criterions weights marks
    = Ok (map (fun p => (p, NaN)) (filtered_providers providers T C)) /\
  sorted_providers providers T C = Ok (filtered_providers providers T C) /\
  StronglySorted String_as_OT.lt (map ID (filtered_providers providers T C)).
Proof.
  intros Hne Hzero.
  destruct (calculate_solutions_Ok
              (normalize_matrix (filtered_providers providers T C) criterions weights))
    as (good & bad & Hs).
  { intros E. apply (f_equal (@List.length _)) in E.
    rewrite normalize_matrix_length in E.
    destruct (filtered_providers providers T C); [contradiction | discriminate]. }
  { apply normalize_matrix_rows. }
  assert (Hrank : rank_providers (filtered_providers providers T C)
                    (calculate_distances
                       (normalize_matrix (filtered_providers providers T C)
                                         criterions weights) good bad)
                  = map (fun p => (p, NaN)) (filtered_providers providers T C)).
  { rewrite (scores_zero_column _ good bad Hne Hzero Hs).
    unfold rank_providers. rewrite sort_values_all_NaN.
    generalize (filtered_providers providers T C) as eligible.
    induction eligible as [| p ps IH]; simpl; [reflexivity | f_equal; exact IH]. }
  split; [| split].
  - unfold topsis. rewrite Hs. cbn [bind fst snd]. rewrite Hrank. reflexivity.
  - unfold sorted_providers, topsis. rewrite Hs. cbn [bind fst snd].
    rewrite second_pass_fixed, Hrank, map_map. simpl. rewrite map_id. reflexivity.
  - unfold filtered_providers. rewrite latest_per_id_keys. apply group_keys_sorted.
Qed.

(** Two providers without commission, listed B first. *)
Lemma X7_zero_criterion_ranks_by_identifier_witness :
  topsis (filtered_providers [provider_free_B; provider_free_A] 1 "USD")
         criterions weights marks
    = Ok (map (fun p => (p, NaN))
              (filtered_providers [provider_free_B; provider_free_A] 1 "USD")) /\
  sorted_providers [provider_free_B; provider_free_A] 1 "USD"
    = Ok (filtered_providers [provider_free_B; provider_free_A] 1 "USD") /\
  StronglySorted String_as_OT.lt
    (map ID (filtered_providers [provider_free_B; provider_free_A] 1 "USD")).
Proof.
  apply (X7_zero_criterion_ranks_by_identifier [provider_free_B; provider_free_A] 1 "USD").
  - rewrite providers_free_eligible. discriminate.
  - right. left. rewrite providers_free_eligible.
    intros p [<- | [<- | []]]; reflexivity.
Defined.

(** * Further properties of one payment's route *)

Lemma subsequence_In {A : Type} (l1 l2 : list A) (x : A) :
  subsequence l1 l2 -> In x l1 -> In x l2.
Proof.
  induction 1 as [| y l1 l2 _ IH | y l1 l2 _ IH]; simpl; intros Hx.
  - exact Hx.
  - right. apply IH, Hx.
  - destruct Hx as [E | Hx]; [left; exact E | right; apply IH, Hx].
Qed.

Lemma subsequence_NoDup {A : Type} (l1 l2 : list A) :
  subsequence l1 l2 -> NoDup l2 -> NoDup l1.
Proof.
  induction 1 as [| y l1 l2 Hs IH | y l1 l2 Hs IH]; intros Hnd.
  - exact Hnd.
  - inversion Hnd; subst. apply IH. assumption.
  - inversion Hnd as [| y' l' Hnotin Hnd']; subst. constructor.
    + intros Hin. apply Hnotin. exact (subsequence_In _ _ _ Hs Hin).
    + apply IH, Hnd'.
Qed.

(** One pass of the loop body appends its provider after a draw only. *)
Lemma outcome_step (rng : nat -> Sample) (amount : R) (provider : Provider)
    (tr tr' : Trail) (st st' : State) :
  outcome rng amount provider tr st tr' st' ->
  (route tr' = route tr /\ (draws st <= draws st' <= S (draws st))%nat) \/
  (route tr' = route tr ++ [ID provider] /\ draws st' = S (draws st)).
Proof. intros H. destruct H; simpl; auto with arith. Qed.

Lemma walk_tried (rng : nat -> Sample) (amount : R) (ranked : list Provider) :
  forall tr st tr' st',
    walk rng amount ranked tr st = Ok (tr', st') ->
    exists tried,
      route tr' = route tr ++ tried /\
      subsequence tried (map ID ranked) /\
      (draws st + List.length tried <= draws st' <= draws st + List.length ranked)%nat.
Proof.
  induction ranked as [| p rest IH]; intros tr st tr' st' H; simpl in H.
  - injection H as <- <-. exists []. rewrite app_nil_r. simpl.
    split; [reflexivity |]. split; [constructor | lia].
  - bind_inv H as a Ha. destruct a as [tr1 st1]. simpl in H.
    apply attempt_outcome, outcome_step in Ha.
    destruct (IH _ _ _ _ H) as (tried & E & Hsub & Hd).
    destruct Ha as [[E1 D1] | [E1 D1]]; rewrite E1 in E.
    + exists tried. split; [exact E |]. split; [apply subsequence_skip, Hsub |].
      simpl. lia.
    + exists (ID p :: tried). rewrite <- app_assoc in E. split; [exact E |].
      split; [apply subsequence_take, Hsub |]. simpl. lia.
Qed.

Lemma sorted_providers_NoDup (providers : list Provider) (T : Z) (C : string)
    (ranked : list Provider) :
  sorted_providers providers T C = Ok ranked -> NoDup (map ID ranked).
Proof.
  intros H.
  destruct (filtered_providers providers T C) eqn:E.
  - rewrite (sorted_providers_empty _ _ _ E) in H. discriminate.
  - destruct (sorted_providers_Ok providers T C) as (l' & E' & Hperm);
      [rewrite E; discriminate |].
    rewrite E' in H. injection H as <-.
    apply (Permutation_NoDup (l := map ID (filtered_providers providers T C))).
    + apply Permutation_map, Permutation_sym, Hperm.
    + unfold filtered_providers. rewrite latest_per_id_keys. apply group_keys_NoDup.
Qed.

(** The 100-unit payment with A and B: A commits, B is appended. *)
Lemma route_payment_A_B (rng : nat -> Sample) (tA tB : R) :
  0 <= tA -> 0 <= tB ->
  route_payment rng [provider_A tA; provider_B tB] rates1 payment_100
                (initial [provider_A tA; provider_B tB])
  = Ok (finish payment_100 (converted rates1 payment_100)
               (append_route (committed start (provider_A tA)
                                        (converted rates1 payment_100)) "B"),
        drawn (credited (initial [provider_A tA; provider_B tB]) (provider_A tA)
                        (0 + converted rates1 payment_100))).
Proof.
  intros HA HB. unfold route_payment.
  change (eventTimeRes payment_100) with 1%Z. change (cur payment_100) with "USD"%string.
  rewrite (sorted_providers_A_B tA tB HA HB). cbn [bind].
  set (a := converted rates1 payment_100).
  assert (Ea : a = 100) by (unfold a, converted, rates1; simpl; lra).
  set (st0 := initial [provider_A tA; provider_B tB]).
  rewrite (walk_cons rng a (provider_A tA) _ start
             (committed start (provider_A tA) a)
             st0 (credited st0 (provider_A tA) (0 + a))).
  2: simpl; lra.
  2: { apply Commit; unfold in_bounds; simpl; try lra; try reflexivity.
       apply sample_range. }
  rewrite (walk_cons rng a (provider_B tB) _ (committed start (provider_A tA) a)
             (append_route (committed start (provider_A tA) a) (ID (provider_B tB)))
             (credited st0 (provider_A tA) (0 + a))
             (drawn (credited st0 (provider_A tA) (0 + a)))).
  2: simpl; lra.
  2: { apply Success_after_commit with 0; unfold in_bounds; simpl; try lra;
         try reflexivity.
       apply sample_range. }
  reflexivity.
Qed.

(** X9.  The flow of a payment joins identifiers of its ranking, in ranking
    order and each at most once; every entry cost one sample of the generator,
    no eligible row costs more than one, and the provider recorded as
    successful is among the entries. *)
Theorem X9_flow_follows_ranking
    (rng : nat -> Sample) (providers : list Provider) (currency_rates : Rates)
    (pay : Payment) (st st' : State) (row : Row) :
  route_payment rng providers currency_rates pay st = Ok (row, st') ->
  exists ranked tried,
    sorted_providers providers (eventTimeRes pay) (cur pay) = Ok ranked /\
    flow row = String.concat "-" tried /\
    subsequence tried (map ID ranked) /\
    NoDup tried /\
    (draws st + List.length tried <= draws st' <= draws st + List.length ranked)%nat /\
    (forall id, Successful_provider row = Some id -> In id tried).
Proof.
  intros H. apply route_payment_row in H.
  destruct H as (ranked & tr & Hranked & _ & Hwalk & ->).
  destruct (walk_tried _ _ _ _ _ _ _ Hwalk) as (tried & Eroute & Hsub & Hdraws).
  simpl in Eroute.
  exists ranked, tried. split; [exact Hranked |].
  split; [simpl; rewrite Eroute; reflexivity |].
  split; [exact Hsub |].
  split; [exact (subsequence_NoDup _ _ Hsub (sorted_providers_NoDup _ _ _ _ Hranked)) |].
  split; [exact Hdraws |].
  intros id Hid. simpl in Hid.
  destruct (walk_commit _ _ _ _ _ _ _ Hwalk) as [(_ & _ & U3 & _) | (p & d & _ & C)].
  - rewrite U3 in Hid. discriminate.
  - destruct C as (_ & _ & _ & _ & _ & _ & _ & K8 & _ & K10).
    rewrite K8 in Hid. injection Hid as <-. rewrite Eroute in K10. exact K10.
Qed.

(** The 100-unit payment with A and B: both are entries of the flow. *)
Lemma X9_flow_follows_ranking_witness :
  exists ranked tried,
    sorted_providers [provider_A 5; provider_B 5]
                     (eventTimeRes payment_100) (cur payment_100) = Ok ranked /\
    flow (finish payment_100 (converted rates1 payment_100)
                 (append_route (committed start (provider_A 5)
                                          (converted rates1 payment_100)) "B"))
      = String.concat "-" tried /\
    subsequence tried (map ID ranked) /\
    NoDup tried /\
    (draws (initial [provider_A 5; provider_B 5]) + List.length tried
     <= 2
     <= draws (initial [provider_A 5; provider_B 5]) + List.length ranked)%nat /\
    (forall id,
        Successful_provider
          (finish payment_100 (converted rates1 payment_100)
                  (append_route (committed start (provider_A 5)
                                           (converted rates1 payment_100)) "B"))
        = Some id -> In id tried).
Proof.
  apply (X9_flow_follows_ranking rng_half [provider_A 5; provider_B 5]
           rates1 payment_100 (initial [provider_A 5; provider_B 5])
           (drawn (credited (initial [provider_A 5; provider_B 5]) (provider_A 5)
                            (0 + converted rates1 payment_100)))).
  apply route_payment_A_B; lra.
Defined.

Lemma attempt_skipped (rng : nat -> Sample) (amount : R) (p : Provider)
    (tr : Trail) (st : State) :
  skipped amount (provider_daily_sums st) p ->
  attempt rng amount p tr st = Ok (tr, st).
Proof.
  intros Hskip. unfold attempt.
  destruct (Rltb amount (MIN_SUM p) || Rgtb amount (MAX_SUM p)) eqn:Ebounds;
    [reflexivity |].
  apply orb_false_elim in Ebounds. destruct Ebounds as [E1 E2]. unfold Rgtb in E2.
  destruct (Rltb_spec amount (MIN_SUM p)) as [| N1]; [discriminate |].
  destruct (Rltb_spec (MAX_SUM p) amount) as [| N2]; [discriminate |].
  destruct Hskip as [H | [H | (daily_sum & Hget & Hfull)]]; [lra | lra |].
  unfold lookup. rewrite Hget. cbn [bind]. unfold Rgeb.
  rewrite Rleb_true by exact Hfull. reflexivity.
Qed.

Lemma walk_skipped (rng : nat -> Sample) (amount : R) (ranked : list Provider)
    (tr : Trail) (st : State) :
  (forall p, In p ranked -> skipped amount (provider_daily_sums st) p) ->
  walk rng amount ranked tr st = Ok (tr, st).
Proof.
  induction ranked as [| p rest IH]; intros Hskip; simpl; [reflexivity |].
  rewrite attempt_skipped by (apply Hskip; left; reflexivity).
  cbn [bind fst snd]. apply IH. intros q Hq. apply Hskip. right. exact Hq.
Qed.

(** X10.  A payment that every eligible row skips (the amount is out of the
    row's bounds, or the provider's daily sum has reached the daily maximum)
    is left unrouted: empty flow, no profit, no processing time, no successful
    provider; the daily sums are untouched and no sample is consumed. *)
Theorem X10_skipped_by_all_is_unrouted
    (rng : nat -> Sample) (providers : list Provider) (currency_rates : Rates)
    (pay : Payment) (st : State) :
  filtered_providers providers (eventTimeRes pay) (cur pay) <> [] ->
  (forall p, In p (filtered_providers providers (eventTimeRes pay) (cur pay)) ->
             skipped (converted currency_rates pay) (provider_daily_sums st) p) ->
  route_payment rng providers currency_rates pay st
  = Ok ({| payment := pay;
           flow := "";
           Profit := 0;
           Processing_Time := 0;
           Successful_provider := None |}, st).
Proof.
  intros Hne Hskip. unfold route_payment.
  destruct (sorted_providers_Ok _ _ _ Hne) as (ranked & -> & Hperm).
  cbn [bind]. rewrite walk_skipped; [reflexivity |].
  intros p Hp. apply Hskip. exact (Permutation_in _ Hperm Hp).
Qed.

(** The payment of 5000 exceeds P's per-transaction maximum of 1000. *)
Lemma X10_skipped_by_all_is_unrouted_witness :
  route_payment rng_half [provider_P] rates1 payment_5000 (initial [provider_P])
  = Ok ({| payment := payment_5000;
           flow := "";
           Profit := 0;
           Processing_Time := 0;
           Successful_provider := None |}, initial [provider_P]).
Proof.
  apply (X10_skipped_by_all_is_unrouted rng_half [provider_P] rates1 payment_5000
           (initial [provider_P])).
  - discriminate.
  - intros p [<- | []]. right. left. unfold converted, rates1. simpl. lra.
Defined.

(** What a payment's loop leaves in the commission: nothing, or the one
    commission of the provider that committed. *)
Lemma walk_commission (rng : nat -> Sample) (amount : R) (ranked : list Provider)
    (tr : Trail) (st st' : State) :
  walk rng amount ranked start st = Ok (tr, st') ->
  (successful tr = None /\ total_commission tr = 0) \/
  (exists p, In p ranked /\ successful tr = Some (ID p) /\
             total_commission tr = amount * COMMISSION p).
Proof.
  intros H.
  destruct (walk_commit _ _ _ _ _ _ _ H) as [(_ & _ & U3 & U4) | (p & d & Hp & C)].
  - left. split; [exact U3 | exact U4].
  - right. destruct C as (_ & _ & _ & _ & _ & _ & _ & K8 & K9 & _).
    exists p. split; [exact Hp |]. split; [exact K8 |].
    rewrite K9. simpl. lra.
Qed.

(** X11.  The profit of a payment deducts one commission at most, however many
    providers follow the committing one in the flow: it is zero for an empty
    flow, the whole converted amount when no provider committed, and the
    amount less the committing row's commission otherwise. *)
Theorem X11_profit_deducts_one_commission
    (rng : nat -> Sample) (providers : list Provider) (currency_rates : Rates)
    (pay : Payment) (st st' : State) (row : Row) :
  route_payment rng providers currency_rates pay st = Ok (row, st') ->
  (flow row = ""%string /\ Profit row = 0) \/
  (flow row <> ""%string /\ Successful_provider row = None /\
   Profit row = converted currency_rates pay) \/
  (flow row <> ""%string /\
   exists p, In p (filtered_providers providers (eventTimeRes pay) (cur pay)) /\
             Successful_provider row = Some (ID p) /\
             Profit row = converted currency_rates pay
                          - converted currency_rates pay * COMMISSION p).
Proof.
  intros H. apply route_payment_row in H.
  destruct H as (ranked & tr & _ & Hperm & Hwalk & ->).
  unfold finish. cbn [flow Profit Successful_provider].
  destruct (String.eqb_spec (String.concat "-" (route tr)) "") as [E | N].
  - left. split; [exact E | reflexivity].
  - right.
    destruct (walk_commission _ _ _ _ _ _ Hwalk) as [(S0 & C0) | (p & Hp & S1 & C1)].
    + left. split; [exact N |]. split; [exact S0 |]. rewrite C0. lra.
    + right. split; [exact N |]. exists p.
      split; [exact (Permutation_in _ Hperm Hp) |].
      split; [exact S1 |]. rewrite C1. reflexivity.
Qed.

(** The 100-unit payment with A and B: the commission of A alone is deducted. *)
Lemma X11_profit_deducts_one_commission_witness :
  (flow (finish payment_100 (converted rates1 payment_100)
                (append_route (committed start (provider_A 5)
                                         (converted rates1 payment_100)) "B"))
   = ""%string /\
   Profit (finish payment_100 (converted rates1 payment_100)
                  (append_route (committed start (provider_A 5)
                                           (converted rates1 payment_100)) "B"))
   = 0) \/
  (flow (finish payment_100 (converted rates1 payment_100)
                (append_route (committed start (provider_A 5)
                                         (converted rates1 payment_100)) "B"))
   <> ""%string /\
   Successful_provider
     (finish payment_100 (converted rates1 payment_100)
             (append_route (committed start (provider_A 5)
                                      (converted rates1 payment_100)) "B"))
   = None /\
   Profit (finish payment_100 (converted rates1 payment_100)
                  (append_route (committed start (provider_A 5)
                                           (converted rates1 payment_100)) "B"))
   = converted rates1 payment_100) \/
  (flow (finish payment_100 (converted rates1 payment_100)
                (append_route (committed start (provider_A 5)
                                         (converted rates1 payment_100)) "B"))
   <> ""%string /\
   exists p,
     In p (filtered_providers [provider_A 5; provider_B 5]
                              (eventTimeRes payment_100) (cur payment_100)) /\
     Successful_provider
       (finish payment_100 (converted rates1 payment_100)
               (append_route (committed start (provider_A 5)
                                        (converted rates1 payment_100)) "B"))
     = Some (ID p) /\
     Profit (finish payment_100 (converted rates1 payment_100)
                    (append_route (committed start (provider_A 5)
                                             (converted rates1 payment_100)) "B"))
     = converted rates1 payment_100 - converted rates1 payment_100 * COMMISSION p).
Proof.
  apply (X11_profit_deducts_one_commission rng_half [provider_A 5; provider_B 5]
           rates1 payment_100 (initial [provider_A 5; provider_B 5])
           (drawn (credited (initial [provider_A 5; provider_B 5]) (provider_A 5)
                            (0 + converted rates1 payment_100)))).
  apply route_payment_A_B; lra.
Defined.

(** * Further properties of the day *)

Lemma find_first_occurrence (before after : list Provider) (first : Provider)
    (id : string) :
  (forall r, In r before -> ID r <> id) -> ID first = id ->
  find (fun q => String.eqb (ID q) id) (before ++ first :: after) = Some first.
Proof.
  intros Hbefore Hfirst. induction before as [| r before IH]; simpl.
  - rewrite (proj2 (String.eqb_eq _ _) Hfirst). reflexivity.
  - destruct (String.eqb_spec (ID r) id) as [E | _].
    + exfalso. exact (Hbefore r (or_introl eq_refl) E).
    + apply IH. intros q Hq. apply Hbefore. right. exact Hq.
Qed.

(** X12.  The preprocessing gives every row the daily limits of the first row
    of its provider and converts them at the row's own rate, whatever the row
    itself states; the per-transaction bounds stay those of the row. *)
Theorem X12_daily_limits_of_first_row
    (providers before after : list Provider) (first : Provider)
    (currency_rates : Rates) (i : nat) (p : Provider) :
  providers = before ++ first :: after ->
  (forall r, In r before -> ID r <> ID first) ->
  nth_error providers i = Some p ->
  ID p = ID first ->
  exists p',
    nth_error (convert providers currency_rates) i = Some p' /\
    ID p' = ID p /\ CURRENCY p' = CURRENCY p /\ TIME p' = TIME p /\
    LIMIT_MAX p' = LIMIT_MAX first * currency_rates (CURRENCY p) /\
    LIMIT_MIN p' = LIMIT_MIN first * currency_rates (CURRENCY p) /\
    MIN_SUM p' = MIN_SUM p * currency_rates (CURRENCY p) /\
    MAX_SUM p' = MAX_SUM p * currency_rates (CURRENCY p).
Proof.
  intros Hsplit Hbefore Hp Hid.
  assert (Hfind : find (fun q => String.eqb (ID q) (ID p)) providers = Some first).
  { rewrite Hsplit. apply find_first_occurrence; [| symmetry; exact Hid].
    rewrite Hid. exact Hbefore. }
  unfold convert. rewrite nth_error_map, Hp. cbn [option_map].
  eexists. split; [reflexivity |].
  cbn [ID CURRENCY TIME LIMIT_MAX LIMIT_MIN MIN_SUM MAX_SUM].
  unfold transform_first. rewrite Hfind.
  repeat split; reflexivity.
Qed.

(** The later row of Q states a daily maximum of 2000 and is given the 1000
    of the first row. *)
Lemma X12_daily_limits_of_first_row_witness :
  exists p',
    nth_error (convert [provider_Q_early; provider_Q_raised] rates1) 1 = Some p' /\
    ID p' = ID provider_Q_raised /\
    CURRENCY p' = CURRENCY provider_Q_raised /\
    TIME p' = TIME provider_Q_raised /\
    LIMIT_MAX p' = LIMIT_MAX provider_Q_early * rates1 (CURRENCY provider_Q_raised) /\
    LIMIT_MIN p' = LIMIT_MIN provider_Q_early * rates1 (CURRENCY provider_Q_raised) /\
    MIN_SUM p' = MIN_SUM provider_Q_raised * rates1 (CURRENCY provider_Q_raised) /\
    MAX_SUM p' = MAX_SUM provider_Q_raised * rates1 (CURRENCY provider_Q_raised).
Proof.
  apply (X12_daily_limits_of_first_row [provider_Q_early; provider_Q_raised]
           [] [provider_Q_raised] provider_Q_early rates1 1 provider_Q_raised).
  - reflexivity.
  - intros r [].
  - reflexivity.
  - reflexivity.
Defined.

Lemma route_payments_no_commit (rng : nat -> Sample) (providers : list Provider)
    (currency_rates : Rates) (payments : list Payment) :
  forall st rows st',
    route_payments rng providers currency_rates payments st = Ok (rows, st') ->
    Forall (fun row => Successful_provider row = None) rows ->
    provider_daily_sums st' = provider_daily_sums st.
Proof.
  induction payments as [| pay rest IH]; intros st rows st' H Hnone; simpl in H.
  - injection H as <- <-. reflexivity.
  - bind_inv H as a Hrow. destruct a as [row st1]. simpl in H. bind_inv H as b Hb.
    destruct b as [rows1 st2]. simpl in H. injection H as <- <-.
    inversion Hnone as [| r l Hrow_none Hrest]; subst.
    rewrite (IH _ _ _ Hb Hrest).
    apply route_payment_row in Hrow.
    destruct Hrow as (ranked & tr & _ & _ & Hwalk & ->). simpl in Hrow_none.
    destruct (walk_commit _ _ _ _ _ _ _ Hwalk) as [(U1 & _) | (p & d & _ & C)].
    + exact U1.
    + destruct C as (_ & _ & _ & _ & _ & _ & _ & K8 & _). congruence.
Qed.

Lemma dict_set_zero (d : dict) (k : string) :
  Forall (fun kv => snd kv = 0) d -> Forall (fun kv => snd kv = 0) (dict_set d k 0).
Proof.
  induction d as [| [k' v] d IH]; intros H; simpl.
  - constructor; [reflexivity | constructor].
  - inversion H as [| kv l Hv Hd]; subst.
    destruct (String.eqb k' k); constructor; try reflexivity; try assumption.
    apply IH, Hd.
Qed.

Lemma dict_init_zero (ids : list string) : Forall (fun kv => snd kv = 0) (dict_init ids).
Proof.
  unfold dict_init.
  assert (G : forall d, Forall (fun kv => snd kv = 0) d ->
                        Forall (fun kv : string * R => snd kv = 0)
                               (fold_left (fun d k => dict_set d k 0) ids d)).
  { induction ids as [| k ids IH]; intros d Hd; simpl; [exact Hd |].
    apply IH, dict_set_zero, Hd. }
  apply G. constructor.
Qed.

Lemma penalties_zero_sums (providers : list Provider) (items : dict) :
  Forall (fun kv => snd kv = 0) items ->
  forall used all used' all',
    penalties providers items used all = Ok (used', all') -> used' = used.
Proof.
  induction 1 as [| [k v] items Hv _ IH]; intros used all used' all' H; simpl in H.
  - injection H as <- _. reflexivity.
  - simpl in Hv. subst v.
    destruct (find (fun p => String.eqb (ID p) k) providers) as [p |]; [| discriminate].
    cbv zeta in H. unfold Rgtb in H. rewrite (Rltb_false 0 0) in H by lra.
    cbn [andb] in H.
    exact (IH _ _ _ _ H).
Qed.

(** The day of one payment that exceeds P's per-transaction maximum. *)
Lemma optimize_routes_5000 :
  optimize_routes rng_half [payment_5000] [provider_P] rates1
  = Ok ([{| payment := payment_5000;
            flow := "";
            Profit := 0;
            Processing_Time := 0;
            Successful_provider := None |}], 0, 0).
Proof.
  unfold optimize_routes. rewrite provider_P_table. simpl route_payments.
  rewrite (route_payment_single_outcome rng_half [provider_P] rates1 payment_5000
             (initial [provider_P]) (initial [provider_P]) provider_P start).
  - simpl. unfold Rgtb. rewrite !Rltb_false by lra. reflexivity.
  - reflexivity.
  - simpl. lra.
  - apply Skipped_bounds. right. unfold converted, rates1. simpl. lra.
Qed.

(** X13.  A day on which no payment commits on any provider leaves every
    daily sum at zero: its penalty for used providers is zero, and its penalty
    for all providers is that of a day without payments. *)
Theorem X13_day_without_commit
    (rng : nat -> Sample) (payments : list Payment) (providers : list Provider)
    (currency_rates : Rates) (rows : list Row) (used all : R) :
  optimize_routes rng payments providers currency_rates = Ok (rows, used, all) ->
  Forall (fun row => Successful_provider row = None) rows ->
  used = 0 /\
  optimize_routes rng [] providers currency_rates = Ok ([], 0, all).
Proof.
  intros H Hnone. unfold optimize_routes in *.
  bind_inv H as r Hrun. destruct r as [rows' st']. cbn [fst snd] in H.
  bind_inv H as pen Hpen. destruct pen as [u a]. cbn [fst snd] in H.
  injection H as -> -> ->.
  rewrite (route_payments_no_commit _ _ _ _ _ _ _ Hrun Hnone) in Hpen.
  assert (E : used = 0).
  { apply (penalties_zero_sums _ _ (dict_init_zero _) _ _ _ _ Hpen). }
  split; [exact E |].
  simpl route_payments. cbn [bind fst snd]. rewrite Hpen. subst used. reflexivity.
Qed.

(** The one payment of the day exceeds P's per-transaction maximum. *)
Lemma X13_day_without_commit_witness :
  0 = 0 /\ optimize_routes rng_half [] [provider_P] rates1 = Ok ([], 0, 0).
Proof.
  apply (X13_day_without_commit rng_half [payment_5000] [provider_P] rates1
           [{| payment := payment_5000;
               flow := "";
               Profit := 0;
               Processing_Time := 0;
               Successful_provider := None |}] 0 0).
  - exact optimize_routes_5000.
  - constructor; [reflexivity | constructor].
Defined.

Lemma firstn_exact {A : Type} (l more : list A) :
  firstn (List.length l) (l ++ more) = l.
Proof. induction l as [| x l IH]; simpl; [destruct more | rewrite IH]; reflexivity. Qed.

(** X14.  The summary covers the first 10000 payments and no others: the
    payments that follow them change nothing in what [process_transactions]
    returns and writes, and the written table lists the first 10000 payments
    in their order. *)
Theorem X14_payments_after_the_first_10000_are_ignored
    (rng : nat -> Sample) (trans more : list Payment) (prov : list Provider)
    (exchange : Rates) :
  List.length trans = 10000%nat ->
  process_transactions rng (trans ++ more) prov exchange
  = process_transactions rng trans prov exchange /\
  (forall s,
      process_transactions rng (trans ++ more) prov exchange = Ok s ->
      map fst (optimized_payments s) = trans).
Proof.
  intros Hlen.
  assert (Hcut : firstn 10000 (trans ++ more) = trans).
  { rewrite <- Hlen. apply firstn_exact. }
  assert (Hall : firstn 10000 trans = trans).
  { rewrite <- Hlen. apply firstn_all. }
  unfold process_transactions. rewrite Hcut, Hall.
  split; [reflexivity |].
  intros s H. bind_inv H as r Hday. destruct r as [[rows used] all].
  cbn [fst snd] in H. injection H as <-. cbn [optimized_payments].
  unfold optimize_routes in Hday. bind_inv Hday as a Hrun. destruct a as [rows' st'].
  cbn [fst snd] in Hday. bind_inv Hday as pen Hpen. injection Hday as -> _ _.
  rewrite map_map. simpl.
  exact (route_payments_payment _ _ _ _ _ _ _ Hrun).
Qed.

(** Ten thousand payments of 5000 and, after them, the payment of 60 that P
    would take. *)
Lemma X14_payments_after_the_first_10000_are_ignored_witness :
  process_transactions rng_half (repeat payment_5000 10000 ++ [payment_60])
                       [provider_P] rates1
  = process_transactions rng_half (repeat payment_5000 10000) [provider_P] rates1 /\
  (forall s,
      process_transactions rng_half (repeat payment_5000 10000 ++ [payment_60])
                           [provider_P] rates1 = Ok s ->
      map fst (optimized_payments s) = repeat payment_5000 10000).
Proof.
  apply (X14_payments_after_the_first_10000_are_ignored rng_half
           (repeat payment_5000 10000) [payment_60] [provider_P] rates1).
  apply repeat_length.
Defined.

(** X21.  With every commission between 0 and 1 and a converted amount that
    is not negative, the profit of a payment lies between zero and the
    converted amount. *)
Theorem X21_profit_within_amount
    (rng : nat -> Sample) (providers : list Provider) (currency_rates : Rates)
    (pay : Payment) (st st' : State) (row : Row) :
  (forall p, In p (filtered_providers providers (eventTimeRes pay) (cur pay)) ->
             0 <= COMMISSION p <= 1) ->
  0 <= converted currency_rates pay ->
  route_payment rng providers currency_rates pay st = Ok (row, st') ->
  0 <= Profit row <= converted currency_rates pay.
Proof.
  intros Hcomm Hamount H. apply route_payment_row in H.
  destruct H as (ranked & tr & _ & Hperm & Hwalk & ->).
  unfold finish. cbn [Profit].
  destruct (String.eqb (String.concat "-" (route tr)) ""); [lra |].
  destruct (walk_commission _ _ _ _ _ _ Hwalk) as [(_ & C0) | (p & Hp & _ & C1)].
  - rewrite C0. lra.
  - rewrite C1.
    assert (Hc : 0 <= COMMISSION p <= 1).
    { apply Hcomm. exact (Permutation_in _ Hperm Hp). }
    nra.
Qed.

(** The 100-unit payment with A and B: a profit of 99. *)
Lemma X21_profit_within_amount_witness :
  0 <= Profit (finish payment_100 (converted rates1 payment_100)
                      (append_route (committed start (provider_A 5)
                                               (converted rates1 payment_100)) "B"))
  <= converted rates1 payment_100.
Proof.
  apply (X21_profit_within_amount rng_half [provider_A 5; provider_B 5]
           rates1 payment_100 (initial [provider_A 5; provider_B 5])
           (drawn (credited (initial [provider_A 5; provider_B 5]) (provider_A 5)
                            (0 + converted rates1 payment_100)))).
  - intros p [<- | [<- | []]]; simpl; lra.
  - unfold converted, rates1. simpl. lra.
  - apply route_payment_A_B; lra.
Defined.

(** * Further properties of the loop body *)

Lemma attempt_rejected_probability (rng : nat -> Sample) (amount : R) (p : Provider)
    (tr : Trail) (st : State) (daily_sum : R) :
  in_bounds amount p ->
  dict_get (provider_daily_sums st) (ID p) = Some daily_sum ->
  daily_sum < LIMIT_MAX p ->
  CONVERSION p < 0 \/ 1 < CONVERSION p ->
  attempt rng amount p tr st = Raise ValueError.
Proof.
  intros [Hmin Hmax] Hget Hfree Hconv. unfold attempt.
  unfold Rgtb. rewrite (Rltb_false amount (MIN_SUM p)), (Rltb_false (MAX_SUM p) amount)
    by assumption.
  cbn [orb]. unfold lookup. rewrite Hget. cbn [bind]. unfold Rgeb.
  rewrite Rleb_false by exact Hfree.
  unfold random_choice.
  destruct Hconv as [Hneg | Hbig].
  - rewrite (Rltb_true (CONVERSION p) 0) by exact Hneg. reflexivity.
  - rewrite (Rltb_true (1 - CONVERSION p) 0) by lra. rewrite orb_true_r. reflexivity.
Qed.

(** X15.  A conversion value outside [0,1] stops the day: when the first
    provider of a payment's ranking may take the amount and still has room
    under its daily maximum, the draw raises ValueError, and so does the run
    over this payment and all that follow it. *)
Theorem X15_conversion_outside_unit_interval_raises
    (rng : nat -> Sample) (providers : list Provider) (currency_rates : Rates)
    (pay : Payment) (later : list Payment) (st : State)
    (p : Provider) (rest : list Provider) (daily_sum : R) :
  sorted_providers providers (eventTimeRes pay) (cur pay) = Ok (p :: rest) ->
  in_bounds (converted currency_rates pay) p ->
  dict_get (provider_daily_sums st) (ID p) = Some daily_sum ->
  daily_sum < LIMIT_MAX p ->
  CONVERSION p < 0 \/ 1 < CONVERSION p ->
  route_payment rng providers currency_rates pay st = Raise ValueError /\
  route_payments rng providers currency_rates (pay :: later) st = Raise ValueError.
Proof.
  intros Hranked Hbounds Hget Hfree Hconv.
  assert (E : route_payment rng providers currency_rates pay st = Raise ValueError).
  { unfold route_payment. rewrite Hranked. cbn [bind walk].
    rewrite (attempt_rejected_probability _ _ _ _ _ _ Hbounds Hget Hfree Hconv).
    reflexivity. }
  split; [exact E |].
  simpl. rewrite E. reflexivity.
Qed.

(** V is the only eligible provider of the 100-unit payment. *)
Lemma X15_conversion_outside_unit_interval_raises_witness :
  route_payment rng_half [provider_V] rates1 payment_100 (initial [provider_V])
    = Raise ValueError /\
  route_payments rng_half [provider_V] rates1 (payment_100 :: [payment_60])
                 (initial [provider_V])
    = Raise ValueError.
Proof.
  apply (X15_conversion_outside_unit_interval_raises rng_half [provider_V] rates1
           payment_100 [payment_60] (initial [provider_V]) provider_V [] 0).
  - apply sorted_providers_single. reflexivity.
  - unfold in_bounds, converted, rates1. simpl. lra.
  - reflexivity.
  - simpl. lra.
  - right. simpl. lra.
Defined.






(** * Further properties of the conversion *)

(** X19.  The conversion never makes a row skip a payment that its stated
    bounds admit: for an eligible row of the converted table and a rate of the
    payment's currency that is not negative, an amount within the bounds as
    the provider states them is, converted, within the converted bounds. *)
Theorem X19_stated_bounds_survive_conversion
    (providers : list Provider) (currency_rates : Rates) (pay : Payment)
    (p : Provider) :
  0 <= currency_rates (cur pay) ->
  In p (filtered_providers (convert providers currency_rates)
                           (eventTimeRes pay) (cur pay)) ->
  exists p0,
    In p0 providers /\ ID p0 = ID p /\ TIME p0 = TIME p /\ CURRENCY p0 = cur pay /\
    (MIN_SUM p0 <= amount pay <= MAX_SUM p0 ->
     in_bounds (converted currency_rates pay) p).
Proof.
  intros Hrate Hp. apply filtered_providers_In in Hp. destruct Hp as (Hp & _ & Hcur).
  unfold convert in Hp. apply in_map_iff in Hp. destruct Hp as (p0 & <- & Hp0).
  cbn [CURRENCY] in Hcur.
  exists p0. split; [exact Hp0 |]. split; [reflexivity |]. split; [reflexivity |].
  split; [exact Hcur |].
  unfold in_bounds, converted. cbn [MIN_SUM MAX_SUM]. rewrite Hcur.
  intros [Hlo Hhi]. split.
  - apply Rmult_le_compat_r; [exact Hrate | exact Hlo].
  - apply Rmult_le_compat_r; [exact Hrate | exact Hhi].
Qed.

(** P and the payment of 150 at a rate of two. *)
Lemma X19_stated_bounds_survive_conversion_witness :
  exists p0,
    In p0 [provider_P] /\
    ID p0 = ID (hd provider_P (convert [provider_P] rates2)) /\
    TIME p0 = TIME (hd provider_P (convert [provider_P] rates2)) /\
    CURRENCY p0 = cur payment_150 /\
    (MIN_SUM p0 <= amount payment_150 <= MAX_SUM p0 ->
     in_bounds (converted rates2 payment_150)
               (hd provider_P (convert [provider_P] rates2))).
Proof.
  apply (X19_stated_bounds_survive_conversion [provider_P] rates2 payment_150).
  - unfold rates2. lra.
  - left. reflexivity.
Defined.

(** * Further properties of the daily sums *)

(** X20.  Split a batch of payments with converted amounts that are not
    negative at any point, and let [id] be a provider of the table.  Its daily
    sum after the first part is not negative and not above its sum after the
    whole batch, and the two are equal when no row of the second part records
    [id] as the successful provider: a daily sum never decreases and moves
    with a commit of its provider only. *)
Theorem X20_daily_sums_never_decrease
    (rng : nat -> Sample) (payments_done payments_rest : list Payment)
    (providers : list Provider) (currency_rates : Rates)
    (rows : list Row) (st : State) (id : string) :
  (forall pay, In pay (payments_done ++ payments_rest) ->
               0 <= converted currency_rates pay) ->
  route_payments rng (convert providers currency_rates) currency_rates
                 (payments_done ++ payments_rest)
                 (initial (convert providers currency_rates)) = Ok (rows, st) ->
  In id (map ID providers) ->
  exists rows1 st1 rows2 v1 v2,
    route_payments rng (convert providers currency_rates) currency_rates
                   payments_done
                   (initial (convert providers currency_rates)) = Ok (rows1, st1) /\
    rows = rows1 ++ rows2 /\
    dict_get (provider_daily_sums st1) id = Some v1 /\
    dict_get (provider_daily_sums st) id = Some v2 /\
    0 <= v1 <= v2 /\
    (Forall (fun row => committed_by id row = false) rows2 -> v2 = v1).
Proof.
  intros Hpos Hrun Hid.
  set (ps := convert providers currency_rates) in *.
  destruct (route_payments_app _ _ _ _ _ _ _ _ Hrun)
    as (rows1 & st1 & rows2 & Hdone & Hrest & ->).
  assert (H0 : dict_get (provider_daily_sums (initial ps)) id = Some 0).
  { simpl. apply dict_get_init. unfold ps. rewrite convert_ID. exact Hid. }
  destruct (route_payments_sums _ _ _ id _ _ _ _ _ Hdone H0) as [Hv1 _].
  destruct (route_payments_sums _ _ _ id _ _ _ _ _ Hrest Hv1) as [Hv2 _].
  assert (Hpay : map payment (rows1 ++ rows2) = payments_done ++ payments_rest)
    by exact (route_payments_payment _ _ _ _ _ _ _ Hrun).
  assert (Hrows : forall row, In row (rows1 ++ rows2) ->
                              0 <= converted currency_rates (payment row)).
  { intros row Hrow. apply Hpos. rewrite <- Hpay. apply in_map. exact Hrow. }
  assert (P1 : 0 <= committed_amount currency_rates id rows1).
  { apply committed_amount_nonneg. intros row Hrow. apply Hrows, in_or_app. auto. }
  assert (P2 : 0 <= committed_amount currency_rates id rows2).
  { apply committed_amount_nonneg. intros row Hrow. apply Hrows, in_or_app. auto. }
  exists rows1, st1, rows2, (0 + committed_amount currency_rates id rows1),
    (0 + committed_amount currency_rates id rows1
     + committed_amount currency_rates id rows2).
  split; [exact Hdone |]. split; [reflexivity |].
  split; [exact Hv1 |]. split; [exact Hv2 |]. split; [lra |].
  intros Hnone. rewrite (committed_amount_none currency_rates id rows2 Hnone). lra.
Qed.

(** P commits a 60-unit and then a 30-unit payment. *)
Lemma X20_daily_sums_never_decrease_witness :
  exists rows1 st1 rows2 v1 v2,
    route_payments rng_half (convert [provider_P] rates1) rates1 [payment_60]
                   (initial (convert [provider_P] rates1)) = Ok (rows1, st1) /\
    rows_60_30 = rows1 ++ rows2 /\
    dict_get (provider_daily_sums st1) "P" = Some v1 /\
    dict_get (provider_daily_sums state_60_30) "P" = Some v2 /\
    0 <= v1 <= v2 /\
    (Forall (fun row => committed_by "P" row = false) rows2 -> v2 = v1).
Proof.
  apply (X20_daily_sums_never_decrease rng_half [payment_60] [payment_30]
           [provider_P] rates1 rows_60_30 state_60_30 "P").
  - intros pay [<- | [<- | []]]; unfold converted, rates1; simpl; lra.
  - exact run_60_30.
  - left. reflexivity.
Defined.
